(** * Exam scheduling: a shallow embedding of the two scheduler scripts

    The development embeds [src/scheduleGenerator.py] (the date-only
    scheduler, module [ScheduleGenerator]) and
    [src/fakeData/scheduleGenerator.py] (the time-slot scheduler, module
    [FakeData]) and states the properties of the greedy scheduler, the
    conflict analyzer and the conflict verifier over them.

    Conventions.
    - A [datetime.date] is its proleptic ordinal ([date.toordinal()]), an
      integer; [(d1 - d2).days] is integer subtraction and
      [d.weekday()] is [(d + 6) mod 7] (Monday is 0).
    - A Python [dict] is an association list in insertion order with
      pairwise distinct keys; iteration ([items()]) walks the list.  The
      order is kept because the scripts depend on it: it decides the ties
      of their stable sorts and the order of the conflict records.  A
      [defaultdict] is the same list together with the default value:
      reading [d[k]] for an absent key appends [(k, default)].
    - A string is compared as Python compares it, code point by code
      point ([String.compare] does so on the bytes, which gives the same
      order for UTF-8 text).
    - [sorted] is a stable insertion sort; [random.shuffle] is an explicit
      argument [shuffle], indexed by the number of the call.  Nothing is
      assumed of it: the properties hold for every list of dates that a
      course is made to try. *)

From Stdlib Require Import String Ascii.
From Stdlib Require Import List ZArith Bool Lia.
From Stdlib Require Import Permutation Sorted.
Import ListNotations.

Local Open Scope Z_scope.

(** ** Python built-ins used by the scripts *)

Module Py.

Section Dict.

Context {K V : Type}.
Variable eqb : K -> K -> bool.

(** [d.get(k)], with [None] for an absent key. *)
Fixpoint dict_get (k : K) (d : list (K * V)) : option V :=
  match d with
  | [] => None
  | (k', v) :: rest => if eqb k k' then Some v else dict_get k rest
  end.

(** [d.get(k, dflt)]; also the value of [d[k]] on a [defaultdict]. *)
Definition dict_get_default (dflt : V) (k : K) (d : list (K * V)) : V :=
  match dict_get k d with
  | Some v => v
  | None => dflt
  end.

(** [k in d]. *)
Definition dict_mem (k : K) (d : list (K * V)) : bool :=
  match dict_get k d with
  | Some _ => true
  | None => false
  end.

(** [d[k] = v]: an existing key keeps its position, a new key goes last. *)
Fixpoint dict_set (k : K) (v : V) (d : list (K * V)) : list (K * V) :=
  match d with
  | [] => [(k, v)]
  | (k', v') :: rest =>
      if eqb k k' then (k', v) :: rest else (k', v') :: dict_set k v rest
  end.

(** The side effect of reading [d[k]] on a [defaultdict]: an absent key is
    inserted with the default value. *)
Definition dd_touch (dflt : V) (k : K) (d : list (K * V)) : list (K * V) :=
  match dict_get k d with
  | Some _ => d
  | None => dict_set k dflt d
  end.

(** [d[k] = f(d[k])] on a [defaultdict] (as in [d[k] += 1] or
    [d[k].append(x)]). *)
Definition dd_update (dflt : V) (f : V -> V) (k : K) (d : list (K * V))
  : list (K * V) :=
  dict_set k (f (dict_get_default dflt k d)) d.

End Dict.

(** [x in l] for a list of strings, of dates. *)
Definition str_in (x : string) (l : list string) : bool :=
  existsb (String.eqb x) l.

Definition date_in (x : Z) (l : list Z) : bool :=
  existsb (Z.eqb x) l.

Section Sorted.

Context {A : Type}.

(** [sorted(l, key=key, reverse=True)]: descending by key, elements of
    equal key in their original order (Python's sort is stable, also with
    [reverse=True]). *)
Section ByKeyDescending.
Variable key : A -> Z.

Fixpoint insert_desc (x : A) (l : list A) : list A :=
  match l with
  | [] => [x]
  | y :: rest =>
      if key y <=? key x then x :: y :: rest else y :: insert_desc x rest
  end.

Fixpoint sorted_desc (l : list A) : list A :=
  match l with
  | [] => []
  | x :: rest => insert_desc x (sorted_desc rest)
  end.

End ByKeyDescending.

(** [sorted(l)] and [l.sort()] for a total order given by [leb]: ascending
    and stable. *)
Section Ascending.
Variable leb : A -> A -> bool.

Fixpoint insert_asc (x : A) (l : list A) : list A :=
  match l with
  | [] => [x]
  | y :: rest =>
      if leb x y then x :: y :: rest else y :: insert_asc x rest
  end.

Fixpoint sorted_asc (l : list A) : list A :=
  match l with
  | [] => []
  | x :: rest => insert_asc x (sorted_asc rest)
  end.

End Ascending.

End Sorted.

(** [sorted(list(set(l)))] on dates: the distinct dates in increasing
    order (the order in which the set is walked does not matter, the
    elements being pairwise distinct). *)
Definition sorted_set (l : list Z) : list Z :=
  sorted_asc Z.leb (nodup Z.eq_dec l).

(** [s.split('_')]: the pieces of [s] between the underscores; always at
    least one piece. *)
Fixpoint split_underscore (s : string) : list string :=
  match s with
  | EmptyString => [EmptyString]
  | String c rest =>
      if Ascii.eqb c "_"%char then EmptyString :: split_underscore rest
      else
        match split_underscore rest with
        | piece :: pieces => String c piece :: pieces
        | [] => [String c EmptyString]
        end
  end.

(** [a, b = s.split('_')]: [None] is the [ValueError] of an unpacking
    that does not find exactly two pieces. *)
Definition split_pair (s : string) : option (string * string) :=
  match split_underscore s with
  | [a; b] => Some (a, b)
  | _ => None
  end.

(** [date.weekday()]: Monday is 0, Sunday is 6. *)
Definition weekday (d : Z) : Z := (d + 6) mod 7.

(** [max(l)] and [min(l)] on a non-empty list of dates. *)
Definition max_date (d : Z) (l : list Z) : Z := fold_left Z.max l d.
Definition min_date (d : Z) (l : list Z) : Z := fold_left Z.min l d.

End Py.

(** ** [src/scheduleGenerator.py]: the date-only scheduler *)

Module ScheduleGenerator.
Import Py.

(** The module-level settings the functions read.  The script takes
    [MIN_DAYS_BETWEEN_EXAMS] and [skip_weekends] from the [SCHEDULING]
    table of its configuration and fixes the window by two constants; they
    are gathered in one record so that the properties can be stated for
    every configuration.  [DEEPSEEK_API_KEY] is the key in force when
    [call_deepseek_api] runs; the empty string is Python's falsy key. *)
Record config : Type := {
  DEEPSEEK_API_KEY : string;
  MIN_DAYS_BETWEEN_EXAMS : Z;
  skip_weekends : bool;
  SPECIFIC_START_DATE : Z;
  SPECIFIC_END_DATE : Z
}.

Definition MAX_EXAMS_PER_DAY : Z := 5.

(** The values of the script: the fallback configuration of lines 23-45
    and the window of lines 55-56, [date(2025, 5, 25)] to
    [date(2025, 6, 13)]. *)
Definition default_config : config := {|
  DEEPSEEK_API_KEY := "xxxxxxxxxxxxxxxxxxxxxxxxxxxxxxxxx";
  MIN_DAYS_BETWEEN_EXAMS := 1;
  skip_weekends := true;
  SPECIFIC_START_DATE := 739396;
  SPECIFIC_END_DATE := 739415
|}.

(** A value of the [students] dict (lines 126-132). *)
Record student : Type := {
  id : string;
  name : string;
  department : string;
  academic_level : string;
  courses : list string
}.

(** An entry of [conflict_analysis] (lines 179-183). *)
Record conflict_entry : Type := {
  course1 : string;
  course2 : string;
  common_students : Z
}.

(** The part of [api_data] that the scheduler and the API call read
    (lines 185-196). *)
Record api_data : Type := {
  all_course_codes : list string;
  students_for_api : list (string * list string);
  students_full_details : list (string * student);
  conflict_analysis : list conflict_entry
}.

(** A ["date"] field: a string that [strptime] parses to a date, or one
    that it rejects with [ValueError]. *)
Inductive date_str : Type :=
| ValidDate (d : Z)
| InvalidDate.

(** An element of a ["schedule"] array; a key that is absent is [None].
    The local scheduler always writes both keys, a remote answer may not. *)
Record schedule_item : Type := {
  course_code : option string;
  date : option date_str
}.

Record statistics : Type := {
  total_courses_requested : Z;
  total_courses_scheduled : Z;
  total_scheduling_days_used : Z;
  total_students : Z;
  unresolved_student_conflicts : Z;
  courses_not_scheduled : Z
}.

(** A record appended by [check_final_schedule_conflicts]
    (lines 472-479). *)
Record conflict : Type := {
  type : string;
  student_id : string;
  date1 : Z;
  date2 : Z;
  days_between : Z;
  exams : list string
}.

(** [schedule_data]: the JSON object, by the keys the script reads;
    [stats] is the key ["statistics"]. *)
Record schedule_data : Type := {
  schedule : option (list schedule_item);
  stats : option statistics;
  issues : list string;
  final_conflicts : option (list conflict)
}.

(** *** [analyze_course_conflicts] (lines 136-158) *)

Definition pair_key (c1 c2 : string) : string := (c1 ++ "_" ++ c2)%string.

(** Line 149: [course_pairs[pair] += 1] on a [defaultdict(int)]. *)
Definition count_pair (pair : string) (course_pairs : list (string * Z))
  : list (string * Z) :=
  dd_update String.eqb 0 (fun n => n + 1) pair course_pairs.

(** Lines 144-149: the loop over [j] for a fixed [i]. *)
Fixpoint count_pairs_from (c1 : string) (later : list string)
  (course_pairs : list (string * Z)) : list (string * Z) :=
  match later with
  | [] => course_pairs
  | c2 :: rest =>
      count_pairs_from c1 rest (count_pair (pair_key c1 c2) course_pairs)
  end.

(** Lines 143-149: the loop over [i]. *)
Fixpoint count_pairs (courses : list string)
  (course_pairs : list (string * Z)) : list (string * Z) :=
  match courses with
  | [] => course_pairs
  | c1 :: later => count_pairs later (count_pairs_from c1 later course_pairs)
  end.

(** Lines 138-149: [course_pairs] after the loop over the students. *)
Definition course_pairs (students : list (string * student))
  : list (string * Z) :=
  fold_left
    (fun cp (s : string * student) =>
       count_pairs (sorted_asc String.leb (courses (snd s))) cp)
    students [].

(** Line 151. *)
Definition sorted_pairs (students : list (string * student))
  : list (string * Z) :=
  sorted_desc snd (course_pairs students).

(** Lines 153-158: the report of the first 20 pairs unpacks
    [pair.split('_')] into two names, which raises [ValueError] (here
    [None]) for a key that has not exactly one underscore; otherwise
    [sorted_pairs] is returned. *)
Definition analyze_course_conflicts (students : list (string * student))
  : option (list (string * Z)) :=
  if forallb
       (fun p => match split_pair (fst p) with Some _ => true | None => false end)
       (firstn 20 (sorted_pairs students))
  then Some (sorted_pairs students)
  else None.

(** *** [prepare_data_for_api] (lines 160-197) *)

(** Lines 177-183: [None] is the [ValueError] of line 178. *)
Fixpoint conflict_entries (pairs : list (string * Z))
  : option (list conflict_entry) :=
  match pairs with
  | [] => Some []
  | (pair_name, count) :: rest =>
      match split_pair pair_name with
      | None => None
      | Some (c1, c2) =>
          match conflict_entries rest with
          | None => None
          | Some entries =>
              Some ({| course1 := c1; course2 := c2;
                       common_students := count |} :: entries)
          end
      end
  end.

(** [None] is an exception raised on the way ([ValueError] from line 155
    or 178). *)
Definition prepare_data_for_api (students : list (string * student))
  (course_info : list (string * string)) : option api_data :=
  match analyze_course_conflicts students with
  | None => None
  | Some course_conflicts =>
      match conflict_entries (firstn 50 course_conflicts) with
      | None => None
      | Some analysis =>
          Some {| all_course_codes := map fst course_info;
                  students_for_api :=
                    map (fun s => (fst s, courses (snd s))) students;
                  students_full_details := students;
                  conflict_analysis := analysis |}
      end
  end.

(** *** [generate_schedule_locally] (lines 329-441) *)

(** Line 335 (and 203, 881): the dict comprehension
    [{s_id: data['courses'] for s_id, data in ... .items()}]. *)
Definition student_courses_of (students : list (string * student))
  : list (string * list string) :=
  fold_left
    (fun d (s : string * student) =>
       dict_set String.eqb (fst s) (courses (snd s)) d)
    students [].

(** Lines 342-345: [course_student_count]. *)
Definition course_student_count
  (student_courses : list (string * list string)) : list (string * Z) :=
  fold_left
    (fun count (s : string * list string) =>
       fold_left
         (fun count course =>
            dd_update String.eqb 0 (fun n => n + 1) course count)
         (snd s) count)
    student_courses [].

(** Line 348. *)
Definition sorted_courses (all_course_codes : list string)
  (student_courses : list (string * list string)) : list string :=
  sorted_desc
    (fun c =>
       dict_get_default String.eqb 0 c (course_student_count student_courses))
    all_course_codes.

(** Lines 360-365: the [while] loop runs once for each day from
    [start_date] to [end_date]; [n] is the number of days left. *)
Fixpoint dates_from (skip : bool) (n : nat) (current_loop_date : Z)
  : list Z :=
  match n with
  | O => []
  | S k =>
      (if negb (skip && (5 <=? weekday current_loop_date))
       then [current_loop_date] else [])
        ++ dates_from skip k (current_loop_date + 1)
  end.

Definition available_dates (cfg : config) : list Z :=
  dates_from (skip_weekends cfg)
    (Z.to_nat (SPECIFIC_END_DATE cfg - SPECIFIC_START_DATE cfg + 1))
    (SPECIFIC_START_DATE cfg).

(** The variables the scheduling loop updates (lines 354-358);
    [st_schedule] is the list [schedule]. *)
Record sched_state : Type := {
  st_schedule : list schedule_item;
  course_dates : list (string * Z);
  student_exam_dates : list (string * list Z);
  exams_per_day : list (Z * Z);
  unscheduled_courses : list string
}.

Definition initial_state : sched_state := {|
  st_schedule := [];
  course_dates := [];
  student_exam_dates := [];
  exams_per_day := [];
  unscheduled_courses := []
|}.

(** Line 384. *)
Definition course_students_taking_this (course : string)
  (student_courses : list (string * list string)) : list string :=
  map fst (filter (fun s => str_in course (snd s)) student_courses).

(** Lines 391-395: is some [other_date] too close to [test_date]? *)
Definition too_close (cfg : config) (test_date : Z) (dates : list Z) : bool :=
  existsb
    (fun other_date =>
       let days_diff := Z.abs (test_date - other_date) in
       (0 <? days_diff) && (days_diff <? MIN_DAYS_BETWEEN_EXAMS cfg))
    dates.

(** Lines 386-397: the loop over the students of the course; it returns
    [conflicts] and [student_exam_dates], a [defaultdict(list)] in which
    every student looked at now has an entry. *)
Fixpoint check_students (cfg : config) (test_date : Z)
  (students_taking : list string) (sed : list (string * list Z))
  : bool * list (string * list Z) :=
  match students_taking with
  | [] => (false, sed)
  | student_id :: rest =>
      let sed1 := dd_touch String.eqb [] student_id sed in
      let dates := dict_get_default String.eqb [] student_id sed1 in
      if date_in test_date dates then (true, sed1)
      else if too_close cfg test_date dates then (true, sed1)
      else check_students cfg test_date rest sed1
  end.

(** Lines 404-410: the loop that records the date for every student of
    the course.  The [schedule.append] of line 407 is inside this loop. *)
Fixpoint record_students (course : string) (test_date : Z)
  (students_taking : list string)
  (sed : list (string * list Z)) (sched : list schedule_item)
  : list (string * list Z) * list schedule_item :=
  match students_taking with
  | [] => (sed, sched)
  | student_id :: rest =>
      record_students course test_date rest
        (dd_update String.eqb [] (fun l => l ++ [test_date]) student_id sed)
        (sched ++ [{| course_code := Some course;
                      date := Some (ValidDate test_date) |}])
  end.

(** Lines 400-411: the commit. *)
Definition commit (course : string) (test_date : Z)
  (students_taking : list string) (st : sched_state) : sched_state :=
  let cd := dict_set String.eqb course test_date (course_dates st) in
  let epd := dd_update Z.eqb 0 (fun n => n + 1) test_date (exams_per_day st) in
  let '(sed, sched) :=
    record_students course test_date students_taking
      (student_exam_dates st) (st_schedule st) in
  {| st_schedule := sched;
     course_dates := cd;
     student_exam_dates := sed;
     exams_per_day := epd;
     unscheduled_courses := unscheduled_courses st |}.

(** Lines 378-412: the scan of [dates_to_try]; the boolean is
    [suitable_date_found]. *)
Fixpoint try_dates (cfg : config)
  (student_courses : list (string * list string)) (course : string)
  (dates_to_try : list Z) (st : sched_state) : sched_state * bool :=
  match dates_to_try with
  | [] => (st, false)
  | test_date :: rest =>
      let epd := dd_touch Z.eqb 0 test_date (exams_per_day st) in
      let st1 :=
        {| st_schedule := st_schedule st;
           course_dates := course_dates st;
           student_exam_dates := student_exam_dates st;
           exams_per_day := epd;
           unscheduled_courses := unscheduled_courses st |} in
      if MAX_EXAMS_PER_DAY <=? dict_get_default Z.eqb 0 test_date epd
      then try_dates cfg student_courses course rest st1
      else
        let taking := course_students_taking_this course student_courses in
        let '(conflicts, sed) :=
          check_students cfg test_date taking (student_exam_dates st1) in
        let st2 :=
          {| st_schedule := st_schedule st1;
             course_dates := course_dates st1;
             student_exam_dates := sed;
             exams_per_day := exams_per_day st1;
             unscheduled_courses := unscheduled_courses st1 |} in
        if conflicts
        then try_dates cfg student_courses course rest st2
        else (commit course test_date taking st2, true)
  end.

(** Lines 374-416: the body of the loop over [sorted_courses], for the
    list [dates_to_try] that [random.shuffle] left. *)
Definition schedule_course (cfg : config)
  (student_courses : list (string * list string)) (course : string)
  (dates_to_try : list Z) (st : sched_state) : sched_state :=
  let '(st1, suitable_date_found) :=
    try_dates cfg student_courses course dates_to_try st in
  if suitable_date_found then st1
  else
    {| st_schedule := st_schedule st1;
       course_dates := course_dates st1;
       student_exam_dates := student_exam_dates st1;
       exams_per_day := exams_per_day st1;
       unscheduled_courses := unscheduled_courses st1 ++ [course] |}.

(** Lines 373-416: the loop over [sorted_courses]; [shuffle n l] is what
    the [n]-th call of [random.shuffle] makes of [l]. *)
Fixpoint schedule_courses (cfg : config) (shuffle : nat -> list Z -> list Z)
  (student_courses : list (string * list string))
  (n : nat) (todo : list string) (st : sched_state) : sched_state :=
  match todo with
  | [] => st
  | course :: rest =>
      schedule_courses cfg shuffle student_courses (S n) rest
        (schedule_course cfg student_courses course
           (shuffle n (available_dates cfg)) st)
  end.

(** Line 419: the dates of the schedule items, parsed back. *)
Definition scheduled_dates (sched : list schedule_item) : list Z :=
  flat_map
    (fun s => match date s with Some (ValidDate d) => [d] | _ => [] end)
    sched.

(** Lines 420-424. *)
Definition total_days (sched : list schedule_item) : Z :=
  match scheduled_dates sched with
  | [] => 0
  | d :: ds => max_date d ds - min_date d ds + 1
  end.

(** Lines 427-438. *)
Definition response_of (all_codes : list string)
  (student_courses : list (string * list string)) (st : sched_state)
  : schedule_data := {|
  schedule := Some (st_schedule st);
  stats := Some {|
    total_courses_requested := Z.of_nat (length all_codes);
    total_courses_scheduled := Z.of_nat (length (st_schedule st));
    total_scheduling_days_used := total_days (st_schedule st);
    total_students := Z.of_nat (length student_courses);
    unresolved_student_conflicts := 0;
    courses_not_scheduled := Z.of_nat (length (unscheduled_courses st))
  |};
  issues :=
    map (fun c => ("Course " ++ c ++ " could not be scheduled.")%string)
      (unscheduled_courses st);
  final_conflicts := None
|}.

(** The state in which the loop over the courses ends. *)
Definition final_state (cfg : config) (shuffle : nat -> list Z -> list Z)
  (data : api_data) : sched_state :=
  let student_courses := student_courses_of (students_full_details data) in
  schedule_courses cfg shuffle student_courses 0
    (sorted_courses (all_course_codes data) student_courses) initial_state.

(** [generate_schedule_locally]; [None] is the triple
    [None, None, None] of lines 339 and 369. *)
Definition generate_schedule_locally (cfg : config)
  (shuffle : nat -> list Z -> list Z) (data : api_data)
  : option (schedule_data * list (string * list Z) * list (string * Z)) :=
  let student_courses := student_courses_of (students_full_details data) in
  match all_course_codes data, student_courses with
  | [], _ => None
  | _, [] => None
  | _, _ =>
      match available_dates cfg with
      | [] => None
      | _ =>
          let st := final_state cfg shuffle data in
          Some (response_of (all_course_codes data) student_courses st,
                student_exam_dates st, course_dates st)
      end
  end.

(** *** [check_final_schedule_conflicts] (lines 443-482) *)

(** Lines 469 and 470. *)
Definition courses_on (d : Z) (sid : string)
  (course_dates : list (string * Z))
  (student_courses : list (string * list string)) : list string :=
  map fst
    (filter
       (fun cd =>
          (snd cd =? d)
          && str_in (fst cd) (dict_get_default String.eqb [] sid student_courses))
       course_dates).

(** Lines 462-479: the loop over the adjacent pairs of
    [sorted_exam_dates]. *)
Fixpoint gap_conflicts (cfg : config) (sid : string)
  (course_dates : list (string * Z))
  (student_courses : list (string * list string))
  (sorted_exam_dates : list Z) : list conflict :=
  match sorted_exam_dates with
  | d1 :: ((d2 :: _) as rest) =>
      let days_diff := d2 - d1 in
      (if (0 <? days_diff) && (days_diff <? MIN_DAYS_BETWEEN_EXAMS cfg)
       then
         let courses1 := courses_on d1 sid course_dates student_courses in
         let courses2 := courses_on d2 sid course_dates student_courses in
         match courses1 ++ courses2 with
         | [] => []
         | both =>
             [{| type := "Insufficient Days Conflict";
                 student_id := sid;
                 date1 := d1;
                 date2 := d2;
                 days_between := days_diff;
                 exams := both |}]
         end
       else [])
        ++ gap_conflicts cfg sid course_dates student_courses rest
  | _ => []
  end.

Definition check_final_schedule_conflicts (cfg : config)
  (student_exam_dates : list (string * list Z))
  (course_dates : list (string * Z))
  (student_courses : list (string * list string)) : list conflict :=
  match student_exam_dates, course_dates, student_courses with
  | [], _, _ => []
  | _, [], _ => []
  | _, _, [] => []
  | _, _, _ =>
      flat_map
        (fun s =>
           gap_conflicts cfg (fst s) course_dates student_courses
             (sorted_set (snd s)))
        student_exam_dates
  end.

(** *** [build_student_exam_dates_from_schedule] (lines 199-230) *)

(** Lines 221-223. *)
Definition add_exam_date (course : string) (exam_date : Z)
  (student_courses : list (string * list string))
  (sed : list (string * list Z)) : list (string * list Z) :=
  fold_left
    (fun sed (s : string * list string) =>
       if str_in course (snd s)
       then dd_update String.eqb [] (fun l => l ++ [exam_date]) (fst s) sed
       else sed)
    student_courses sed.

Definition build_student_exam_dates_from_schedule
  (schedule_list : list schedule_item)
  (students_full_details : list (string * student))
  : list (string * list Z) :=
  let student_courses := student_courses_of students_full_details in
  let sed :=
    fold_left
      (fun sed item =>
         match course_code item, date item with
         | Some course, Some (ValidDate exam_date) =>
             add_exam_date course exam_date student_courses sed
         | _, _ => sed
         end)
      schedule_list [] in
  map (fun e => (fst e, sorted_asc Z.leb (snd e))) sed.

(** *** [call_deepseek_api] (lines 232-327) *)

(** What the request of line 290 came to, as far as the function tells
    the cases apart: an exception of [requests], a body that [json.loads]
    rejects, or a JSON object. *)
Inductive api_answer : Type :=
| RequestFailed
| NotJson
| JsonObject (sd : schedule_data).

(** The value returned: the pair of line 312, or the triple that
    [generate_schedule_locally] returned (lines 236, 322 and 327). *)
Inductive call_result : Type :=
| ApiPair (sd : schedule_data) (sed : list (string * list Z))
| LocalTriple
    (r : option (schedule_data * list (string * list Z) * list (string * Z))).

Definition call_deepseek_api (cfg : config)
  (shuffle : nat -> list Z -> list Z) (answer : api_answer)
  (data : api_data) : call_result :=
  if String.eqb (DEEPSEEK_API_KEY cfg) ""
  then LocalTriple (generate_schedule_locally cfg shuffle data)
  else
    match answer with
    | RequestFailed => LocalTriple (generate_schedule_locally cfg shuffle data)
    | NotJson => LocalTriple (generate_schedule_locally cfg shuffle data)
    | JsonObject sd =>
        let schedule_list :=
          match schedule sd with Some l => l | None => [] end in
        ApiPair sd
          (build_student_exam_dates_from_schedule schedule_list
             (students_full_details data))
    end.

(** *** [main] (lines 791-930), from the scheduling on *)

Inductive main_result : Type :=
| Stopped
    (* a [return] after an error message, before anything is written *)
| Crashed
    (* an exception, caught by the handler of line 922 *)
| Finished (sd : schedule_data)
    (* the [schedule_data] that is printed and saved from line 888 on *).

(** Lines 875-885: the guard, the final conflict check and the two
    updates of [schedule_data]. *)
Definition final_conflict_check (cfg : config)
  (students : list (string * student))
  (schedule_data : option schedule_data)
  (student_exam_dates : option (list (string * list Z)))
  (course_dates : option (list (string * Z))) : main_result :=
  match schedule_data, student_exam_dates, course_dates with
  | Some sd, Some sed, Some cd =>
      match schedule sd with
      | None => Stopped
      | Some _ =>
          let student_courses_map := student_courses_of students in
          let conflicts :=
            check_final_schedule_conflicts cfg sed cd student_courses_map in
          match stats sd with
          | None => Crashed
          | Some st =>
              Finished {|
                schedule := schedule sd;
                stats := Some {|
                  total_courses_requested := total_courses_requested st;
                  total_courses_scheduled := total_courses_scheduled st;
                  total_scheduling_days_used := total_scheduling_days_used st;
                  total_students := total_students st;
                  unresolved_student_conflicts :=
                    Z.of_nat (length conflicts);
                  courses_not_scheduled := courses_not_scheduled st
                |};
                issues := issues sd;
                final_conflicts := Some conflicts
              |}
          end
      end
  | _, _, _ => Stopped
  end.

(** Lines 802-886.  [local_only] and [api_key] are the command-line
    options (an empty [api_key] is the option left out), [course_info]
    and [students] what lines 835 and 844 obtained from the database and
    the random generator.  The pair that [call_deepseek_api] returns for
    a JSON answer cannot be unpacked into the three names of line 866:
    the [ValueError] ends in the handler of line 922. *)
Definition main (cfg : config) (shuffle : nat -> list Z -> list Z)
  (local_only : bool) (api_key : string) (answer : api_answer)
  (course_info : list (string * string))
  (students : list (string * student)) : main_result :=
  let key :=
    if String.eqb api_key "" then DEEPSEEK_API_KEY cfg else api_key in
  let api_key_available := negb (String.eqb key "") in
  let use_local_scheduler := local_only || negb api_key_available in
  let cfg' :=
    {| DEEPSEEK_API_KEY := key;
       MIN_DAYS_BETWEEN_EXAMS := MIN_DAYS_BETWEEN_EXAMS cfg;
       skip_weekends := skip_weekends cfg;
       SPECIFIC_START_DATE := SPECIFIC_START_DATE cfg;
       SPECIFIC_END_DATE := SPECIFIC_END_DATE cfg |} in
  match course_info, students with
  | [], _ => Stopped
  | _, [] => Stopped
  | _, _ =>
      match prepare_data_for_api students course_info with
      | None => Crashed
      | Some scheduling_data_input =>
          let unpacked :=
            if use_local_scheduler
            then Some (generate_schedule_locally cfg' shuffle
                         scheduling_data_input)
            else
              match call_deepseek_api cfg' shuffle answer
                      scheduling_data_input with
              | ApiPair _ _ => None
              | LocalTriple r => Some r
              end in
          match unpacked with
          | None => Crashed
          | Some None => final_conflict_check cfg' students None None None
          | Some (Some (sd, sed, cd)) =>
              final_conflict_check cfg' students (Some sd) (Some sed) (Some cd)
          end
      end
  end.

End ScheduleGenerator.

(** ** [src/fakeData/scheduleGenerator.py]: the time-slot scheduler

    The enrollment grouping, the conflict analysis, the preparation of
    [conflict_analysis] and the scheduling loop of
    [generate_schedule_locally] (lines 312-448) are embedded; the report
    that the function builds afterwards (lines 450-519) is not. *)

Module FakeData.
Import Py.

Record config : Type := {
  EXAM_TIME_SLOTS : list string;
  MIN_DAYS_BETWEEN_EXAMS : Z;
  no_same_day_exams : bool;
  skip_weekends : bool;
  SPECIFIC_START_DATE : Z;
  SPECIFIC_END_DATE : Z
}.

(** [fakeData/config.py] and lines 60-61. *)
Definition default_config : config := {|
  EXAM_TIME_SLOTS := ["8:30-10:30"; "11:30-1:30"; "2:30-4:30"]%string;
  MIN_DAYS_BETWEEN_EXAMS := 1;
  no_same_day_exams := true;
  skip_weekends := true;
  SPECIFIC_START_DATE := 739396;
  SPECIFIC_END_DATE := 739415
|}.

(** A row of the query of lines 78-83. *)
Record enrollment : Type := {
  id : string;
  name : string;
  department : string;
  academic_level : string;
  course_code : string
}.

(** A value of the [students] dict (lines 132-137). *)
Record student : Type := {
  s_name : string;
  s_department : string;
  s_academic_level : string;
  courses : list string
}.

(** *** [group_enrollments_by_student] (lines 125-141) *)

(** Lines 130-139: the body of the loop. *)
Definition add_enrollment (students : list (string * student))
  (e : enrollment) : list (string * student) :=
  let students1 :=
    if dict_mem String.eqb (id e) students then students
    else
      dict_set String.eqb (id e)
        {| s_name := name e;
           s_department := department e;
           s_academic_level := academic_level e;
           courses := [] |}
        students in
  match dict_get String.eqb (id e) students1 with
  | Some s =>
      dict_set String.eqb (id e)
        {| s_name := s_name s;
           s_department := s_department s;
           s_academic_level := s_academic_level s;
           courses := courses s ++ [course_code e] |}
        students1
  | None => students1
  end.

Definition group_enrollments_by_student (enrollments : list enrollment)
  : list (string * student) :=
  fold_left add_enrollment enrollments [].

(** *** [analyze_course_conflicts] (lines 143-175) *)

Definition pair_key (c1 c2 : string) : string := (c1 ++ "_" ++ c2)%string.

(** [a > b] on strings. *)
Definition str_gt (a b : string) : bool :=
  match String.compare a b with
  | Gt => true
  | _ => false
  end.

(** Lines 153-164: the body of the loop over [j]. *)
Definition count_pair (c1 c2 : string) (course_pairs : list (string * Z))
  : list (string * Z) :=
  let '(c1, c2) := if str_gt c1 c2 then (c2, c1) else (c1, c2) in
  let pair_name := pair_key c1 c2 in
  let course_pairs1 :=
    if dict_mem String.eqb pair_name course_pairs then course_pairs
    else dict_set String.eqb pair_name 0 course_pairs in
  dict_set String.eqb pair_name
    (dict_get_default String.eqb 0 pair_name course_pairs1 + 1) course_pairs1.

Fixpoint count_pairs_from (c1 : string) (later : list string)
  (course_pairs : list (string * Z)) : list (string * Z) :=
  match later with
  | [] => course_pairs
  | c2 :: rest => count_pairs_from c1 rest (count_pair c1 c2 course_pairs)
  end.

Fixpoint count_pairs (courses : list string)
  (course_pairs : list (string * Z)) : list (string * Z) :=
  match courses with
  | [] => course_pairs
  | c1 :: later => count_pairs later (count_pairs_from c1 later course_pairs)
  end.

(** Lines 145-164. *)
Definition course_pairs (students : list (string * student))
  : list (string * Z) :=
  fold_left (fun cp (s : string * student) => count_pairs (courses (snd s)) cp)
    students [].

(** Line 167. *)
Definition sorted_pairs (students : list (string * student))
  : list (string * Z) :=
  sorted_desc snd (course_pairs students).

(** Lines 169-175; [None] is the [ValueError] of line 172. *)
Definition analyze_course_conflicts (students : list (string * student))
  : option (list (string * Z)) :=
  if forallb
       (fun p => match split_pair (fst p) with Some _ => true | None => false end)
       (firstn 20 (sorted_pairs students))
  then Some (sorted_pairs students)
  else None.

(** *** The input of the scheduler *)

Record conflict_entry : Type := {
  course1 : string;
  course2 : string;
  common_students : Z
}.

(** An element of [api_data['students']] (lines 197-203), by the keys the
    scheduler reads. *)
Record api_student : Type := {
  as_id : string;
  as_courses : list string
}.

(** [api_data] (lines 217-226): the course codes of every
    department-and-level group, the students and the conflict list. *)
Record api_data : Type := {
  courses_by_dept_level : list (string * list string);
  students : list api_student;
  conflict_analysis : list conflict_entry
}.

(** Lines 206-214; [None] is the [ValueError] of line 209. *)
Fixpoint conflict_entries (pairs : list (string * Z))
  : option (list conflict_entry) :=
  match pairs with
  | [] => Some []
  | (pair_name, count) :: rest =>
      match split_pair pair_name with
      | None => None
      | Some (c1, c2) =>
          match conflict_entries rest with
          | None => None
          | Some entries =>
              Some ({| course1 := c1; course2 := c2;
                       common_students := count |} :: entries)
          end
      end
  end.

(** *** [generate_schedule_locally] (lines 312-448) *)

(** Lines 317-319. *)
Definition all_courses (data : api_data) : list string :=
  flat_map snd (courses_by_dept_level data).

(** Lines 330-336: [conflict_pairs[a][b] = count], both ways. *)
Definition set_conflict (a b : string) (count : Z)
  (conflict_pairs : list (string * list (string * Z)))
  : list (string * list (string * Z)) :=
  let conflict_pairs1 :=
    if dict_mem String.eqb a conflict_pairs then conflict_pairs
    else dict_set String.eqb a [] conflict_pairs in
  dict_set String.eqb a
    (dict_set String.eqb b count
       (dict_get_default String.eqb [] a conflict_pairs1))
    conflict_pairs1.

(** Lines 324-336. *)
Definition conflict_pairs (analysis : list conflict_entry)
  : list (string * list (string * Z)) :=
  fold_left
    (fun cp conflict =>
       set_conflict (course2 conflict) (course1 conflict)
         (common_students conflict)
         (set_conflict (course1 conflict) (course2 conflict)
            (common_students conflict) cp))
    analysis [].

(** Line 341: [sum(conflict_pairs.get(course, {}).values())]. *)
Definition conflict_count (cp : list (string * list (string * Z)))
  (course : string) : Z :=
  fold_left Z.add (map snd (dict_get_default String.eqb [] course cp)) 0.

(** Lines 339-342. *)
Definition course_conflict_count (data : api_data) : list (string * Z) :=
  fold_left
    (fun ccc course =>
       dict_set String.eqb course
         (conflict_count (conflict_pairs (conflict_analysis data)) course) ccc)
    (all_courses data) [].

(** Line 344. *)
Definition sorted_courses (data : api_data) : list string :=
  sorted_desc
    (fun x => dict_get_default String.eqb 0 x (course_conflict_count data))
    (all_courses data).

(** Lines 347-349. *)
Definition student_courses_of (studs : list api_student)
  : list (string * list string) :=
  fold_left (fun d s => dict_set String.eqb (as_id s) (as_courses s) d)
    studs [].

(** Lines 365-374: one slot per day of the window that is kept and per
    time slot. *)
Fixpoint datetimes_from (cfg : config) (n : nat) (current_loop_date : Z)
  : list (Z * string) :=
  match n with
  | O => []
  | S k =>
      (if skip_weekends cfg && (5 <=? weekday current_loop_date)
       then []
       else map (fun time_slot => (current_loop_date, time_slot))
              (EXAM_TIME_SLOTS cfg))
        ++ datetimes_from cfg k (current_loop_date + 1)
  end.

Definition available_datetimes (cfg : config) : list (Z * string) :=
  datetimes_from cfg
    (Z.to_nat (SPECIFIC_END_DATE cfg - SPECIFIC_START_DATE cfg + 1))
    (SPECIFIC_START_DATE cfg).

Record schedule_item : Type := {
  item_course_code : string;
  item_date : Z;
  item_time_slot : string
}.

(** The variables the scheduling loop updates (lines 357-362). *)
Record sched_state : Type := {
  schedule : list schedule_item;
  course_dates : list (string * (Z * string));
  student_exam_dates : list (string * list (Z * string));
  exams_per_day : list (Z * Z);
  unscheduled_courses : list string
}.

Definition initial_state : sched_state := {|
  schedule := [];
  course_dates := [];
  student_exam_dates := [];
  exams_per_day := [];
  unscheduled_courses := []
|}.

(** Line 400. *)
Definition course_students (course : string)
  (student_courses : list (string * list string)) : list string :=
  map fst (filter (fun s => str_in course (snd s)) student_courses).

(** Lines 405-416: does an exam of the student rule [test_date] out? *)
Definition exam_conflicts (cfg : config) (test_date : Z)
  (exams : list (Z * string)) : bool :=
  existsb
    (fun other =>
       ((test_date =? fst other) && no_same_day_exams cfg)
       || (let days_diff := Z.abs (test_date - fst other) in
           (0 <? days_diff) && (days_diff <? MIN_DAYS_BETWEEN_EXAMS cfg)))
    exams.

(** Lines 403-418: [conflicts] after the loop over the students. *)
Definition check_students (cfg : config) (test_date : Z)
  (taking : list string) (sed : list (string * list (Z * string))) : bool :=
  existsb
    (fun student_id =>
       match dict_get String.eqb student_id sed with
       | Some exams => exam_conflicts cfg test_date exams
       | None => false
       end)
    taking.

(** Lines 430-433. *)
Fixpoint record_students (slot : Z * string) (taking : list string)
  (sed : list (string * list (Z * string)))
  : list (string * list (Z * string)) :=
  match taking with
  | [] => sed
  | student_id :: rest =>
      let sed1 :=
        if dict_mem String.eqb student_id sed then sed
        else dict_set String.eqb student_id [] sed in
      record_students slot rest
        (dict_set String.eqb student_id
           (dict_get_default String.eqb [] student_id sed1 ++ [slot]) sed1)
  end.

(** Lines 420-442: the commit. *)
Definition commit (course : string) (slot : Z * string)
  (taking : list string) (st : sched_state) : sched_state :=
  {| schedule :=
       schedule st
         ++ [{| item_course_code := course;
                item_date := fst slot;
                item_time_slot := snd slot |}];
     course_dates := dict_set String.eqb course slot (course_dates st);
     student_exam_dates := record_students slot taking (student_exam_dates st);
     exams_per_day :=
       dd_update Z.eqb 0 (fun n => n + 1) (fst slot) (exams_per_day st);
     unscheduled_courses := unscheduled_courses st |}.

(** Lines 391-444: the scan of [slots_to_try]; the boolean is
    [suitable_datetime_found]. *)
Fixpoint try_slots (cfg : config)
  (student_courses : list (string * list string)) (course : string)
  (slots_to_try : list (Z * string)) (st : sched_state)
  : sched_state * bool :=
  match slots_to_try with
  | [] => (st, false)
  | slot :: rest =>
      let epd := dd_touch Z.eqb 0 (fst slot) (exams_per_day st) in
      let st1 :=
        {| schedule := schedule st;
           course_dates := course_dates st;
           student_exam_dates := student_exam_dates st;
           exams_per_day := epd;
           unscheduled_courses := unscheduled_courses st |} in
      if 5 <=? dict_get_default Z.eqb 0 (fst slot) epd
      then try_slots cfg student_courses course rest st1
      else
        let taking := course_students course student_courses in
        if check_students cfg (fst slot) taking (student_exam_dates st1)
        then try_slots cfg student_courses course rest st1
        else (commit course slot taking st1, true)
  end.

(** Lines 384-448: the body of the loop over [sorted_courses]. *)
Definition schedule_course (cfg : config)
  (student_courses : list (string * list string)) (course : string)
  (slots_to_try : list (Z * string)) (st : sched_state) : sched_state :=
  let '(st1, suitable_datetime_found) :=
    try_slots cfg student_courses course slots_to_try st in
  if suitable_datetime_found then st1
  else
    {| schedule := schedule st1;
       course_dates := course_dates st1;
       student_exam_dates := student_exam_dates st1;
       exams_per_day := exams_per_day st1;
       unscheduled_courses := unscheduled_courses st1 ++ [course] |}.

(** Lines 383-448. *)
Fixpoint schedule_courses (cfg : config)
  (shuffle : nat -> list (Z * string) -> list (Z * string))
  (student_courses : list (string * list string))
  (n : nat) (todo : list string) (st : sched_state) : sched_state :=
  match todo with
  | [] => st
  | course :: rest =>
      schedule_courses cfg shuffle student_courses (S n) rest
        (schedule_course cfg student_courses course
           (shuffle n (available_datetimes cfg)) st)
  end.

(** The state in which the loop over the courses ends; [None] is the
    [return None] of line 378. *)
Definition final_state (cfg : config)
  (shuffle : nat -> list (Z * string) -> list (Z * string))
  (data : api_data) : option sched_state :=
  match available_datetimes cfg with
  | [] => None
  | _ =>
      Some (schedule_courses cfg shuffle (student_courses_of (students data))
              0 (sorted_courses data) initial_state)
  end.

(** *** [generate_schedule_locally]: the report (lines 450-519) *)

(** A record of lines 477-482, of type "Same Day Conflict", or of lines
    495-502, of type "Insufficient Days Conflict". *)
Inductive conflict : Type :=
| SameDayConflict (student_id : string) (date : Z) (exams : list string)
| InsufficientDaysConflict (student_id : string)
    (date1 date2 days_between : Z) (exams : list string).

(** Lines 474, 475, 492 and 493: the course of the first schedule item
    on this date and time slot, [None] when there is none. *)
Definition course_at (sched : list schedule_item) (d : Z) (time : string)
  : option string :=
  match
    find (fun s => (item_date s =? d) && String.eqb (item_time_slot s) time)
      sched
  with
  | Some s => Some (item_course_code s)
  | None => None
  end.

(** Lines 476 and 494: [course1_code and course2_code] holds for two
    codes that are found and not empty; the list is [exams]. *)
Definition both_codes (c1 c2 : option string) : option (list string) :=
  match c1, c2 with
  | Some a, Some b =>
      if String.eqb a "" || String.eqb b "" then None else Some [a; b]
  | _, _ => None
  end.

(** Lines 469-482: the first loop over the adjacent pairs. *)
Fixpoint same_day_conflicts (cfg : config) (sched : list schedule_item)
  (sid : string) (sorted_exams : list (Z * string)) : list conflict :=
  match sorted_exams with
  | e1 :: ((e2 :: _) as rest) =>
      (if (fst e1 =? fst e2) && no_same_day_exams cfg
       then
         match both_codes (course_at sched (fst e1) (snd e1))
                 (course_at sched (fst e2) (snd e2)) with
         | Some codes => [SameDayConflict sid (fst e1) codes]
         | None => []
         end
       else [])
        ++ same_day_conflicts cfg sched sid rest
  | _ => []
  end.

(** Lines 485-502: the second loop over the adjacent pairs. *)
Fixpoint insufficient_days_conflicts (cfg : config)
  (sched : list schedule_item) (sid : string)
  (sorted_exams : list (Z * string)) : list conflict :=
  match sorted_exams with
  | e1 :: ((e2 :: _) as rest) =>
      let days_diff := fst e2 - fst e1 in
      (if (0 <=? days_diff) && (days_diff <? MIN_DAYS_BETWEEN_EXAMS cfg)
       then
         match both_codes (course_at sched (fst e1) (snd e1))
                 (course_at sched (fst e2) (snd e2)) with
         | Some codes =>
             [InsufficientDaysConflict sid (fst e1) (fst e2) days_diff codes]
         | None => []
         end
       else [])
        ++ insufficient_days_conflicts cfg sched sid rest
  | _ => []
  end.

(** Lines 463-502: [conflicts]. *)
Definition found_conflicts (cfg : config) (st : sched_state) : list conflict :=
  flat_map
    (fun e =>
       let sorted_exams :=
         sorted_asc (fun a b => fst a <=? fst b) (snd e) in
       same_day_conflicts cfg (schedule st) (fst e) sorted_exams
       ++ insufficient_days_conflicts cfg (schedule st) (fst e) sorted_exams)
    (student_exam_dates st).

Record statistics : Type := {
  total_courses_requested : Z;
  total_courses_scheduled : Z;
  total_scheduling_days_used : Z;
  total_students : Z;
  unresolved_student_conflicts : Z;
  courses_not_scheduled : Z
}.

(** The dict that the function returns (lines 505-517). *)
Record response : Type := {
  resp_schedule : list schedule_item;
  resp_statistics : statistics;
  resp_conflicts : list conflict;
  resp_issues : list string
}.

(** Lines 451-458. *)
Definition total_days (sched : list schedule_item) : Z :=
  match map item_date sched with
  | [] => 0
  | d :: ds => max_date d ds - min_date d ds + 1
  end.

(** Lines 450-517. *)
Definition response_of (cfg : config) (data : api_data) (st : sched_state)
  : response := {|
  resp_schedule := schedule st;
  resp_statistics := {|
    total_courses_requested := Z.of_nat (length (all_courses data));
    total_courses_scheduled := Z.of_nat (length (schedule st));
    total_scheduling_days_used := total_days (schedule st);
    total_students := Z.of_nat (length (students data));
    unresolved_student_conflicts :=
      Z.of_nat (length (found_conflicts cfg st));
    courses_not_scheduled := Z.of_nat (length (unscheduled_courses st))
  |};
  resp_conflicts := found_conflicts cfg st;
  resp_issues :=
    map
      (fun c =>
         ("Course " ++ c
            ++ " could not be scheduled within the constraints.")%string)
      (unscheduled_courses st)
|}.

(** [generate_schedule_locally]; [None] is the [return None] of
    line 378. *)
Definition generate_schedule_locally (cfg : config)
  (shuffle : nat -> list (Z * string) -> list (Z * string))
  (data : api_data) : option response :=
  match final_state cfg shuffle data with
  | None => None
  | Some st => Some (response_of cfg data st)
  end.

(** *** [prepare_data_for_api] (lines 177-228) *)

(** A row of [fetch_course_info] (lines 111-115). *)
Record course : Type := {
  code : string;
  course_name : string;
  table : string
}.

(** Line 183: [dept, level, _ = table.split('_')]; [None] is the
    [ValueError] of an unpacking that does not find three pieces. *)
Definition split_triple (s : string) : option (string * string * string) :=
  match split_underscore s with
  | [a; b; c] => Some (a, b, c)
  | _ => None
  end.

(** Lines 181-192: the loop that groups the courses; the groups keep the
    course codes. *)
Fixpoint group_courses (courses : list course)
  (cbdl : list (string * list string)) : option (list (string * list string)) :=
  match courses with
  | [] => Some cbdl
  | c :: rest =>
      match split_triple (table c) with
      | None => None
      | Some (dept, level, _) =>
          let key := (dept ++ "_" ++ level)%string in
          let cbdl1 :=
            if dict_mem String.eqb key cbdl then cbdl
            else dict_set String.eqb key [] cbdl in
          group_courses rest
            (dict_set String.eqb key
               (dict_get_default String.eqb [] key cbdl1 ++ [code c]) cbdl1)
      end
  end.

(** [None] is a [ValueError] raised on the way (lines 183, 172 or 209). *)
Definition prepare_data_for_api (studs : list (string * student))
  (courses : list course) : option api_data :=
  match group_courses courses [] with
  | None => None
  | Some cbdl =>
      match analyze_course_conflicts studs with
      | None => None
      | Some course_conflicts =>
          match conflict_entries (firstn 50 course_conflicts) with
          | None => None
          | Some analysis =>
              Some {| courses_by_dept_level := cbdl;
                      students :=
                        map (fun s => {| as_id := fst s;
                                         as_courses := FakeData.courses (snd s) |})
                          studs;
                      conflict_analysis := analysis |}
          end
      end
  end.

End FakeData.

(** ** Predicates of the specification *)

Module Spec.
Import Py.

(** Descending by [key], elements of equal key in the order of [input]. *)
Definition stable_desc {A : Type} (key : A -> Z) (input output : list A)
  : Prop :=
  Permutation input output
  /\ StronglySorted (fun x y => key y <= key x) output
  /\ forall k, filter (fun x => key x =? k) output
               = filter (fun x => key x =? k) input.

(** *** The student calendar (section 3 of the specification) *)

(** Two exam dates of one student are compatible when they are not the
    same day and not closer than the minimum gap. *)
Definition compatible (min_gap : Z) (d1 d2 : Z) : Prop :=
  d1 <> d2 /\ ~ (0 < Z.abs (d1 - d2) < min_gap).

(** The calendar invariant: any two entries of the list are compatible. *)
Definition calendar_ok (min_gap : Z) (dates : list Z) : Prop :=
  ForallOrdPairs (compatible min_gap) dates.

(** The calendars of all students, in a [student_exam_dates] dict,
    satisfy the invariant. *)
Definition calendars_ok (min_gap : Z) (sed : list (string * list Z)) : Prop :=
  Forall (fun e => calendar_ok min_gap (snd e)) sed.

(** *** The records of the verifier *)

(** The record of lines 472-479 of [src/scheduleGenerator.py] for two
    dates of a student. *)
Definition gap_record (course_dates : list (string * Z))
  (student_courses : list (string * list string))
  (sid : string) (d1 d2 : Z) : ScheduleGenerator.conflict :=
  {| ScheduleGenerator.type := "Insufficient Days Conflict";
     ScheduleGenerator.student_id := sid;
     ScheduleGenerator.date1 := d1;
     ScheduleGenerator.date2 := d2;
     ScheduleGenerator.days_between := d2 - d1;
     ScheduleGenerator.exams :=
       ScheduleGenerator.courses_on d1 sid course_dates student_courses
       ++ ScheduleGenerator.courses_on d2 sid course_dates student_courses |}.

(** *** The day load *)

(** The number of courses that [course_dates] puts on the day [d]. *)
Definition courses_on_day {S : Type} (day_of : S -> Z) (d : Z)
  (course_dates : list (string * S)) : Z :=
  Z.of_nat (length (filter (fun e => day_of (snd e) =? d) course_dates)).

(** The day-load bound: no day has more courses than its counter says,
    and no counter exceeds [max]. *)
Definition day_load_ok {S : Type} (day_of : S -> Z) (max : Z)
  (course_dates : list (string * S)) (exams_per_day : list (Z * Z)) : Prop :=
  forall d,
    courses_on_day day_of d course_dates
    <= dict_get_default Z.eqb 0 d exams_per_day
    /\ dict_get_default Z.eqb 0 d exams_per_day <= max.

(** *** The enrollment index (section 4.1) *)

(** The course codes of the enrollment records of a student, one per
    record and in the order of the records. *)
Definition records_of (sid : string) (enrollments : list FakeData.enrollment)
  : list string :=
  map FakeData.course_code
    (filter (fun e => String.eqb (FakeData.id e) sid) enrollments).

(** The number of enrollment records with this student and this course. *)
Definition record_count (sid c : string)
  (enrollments : list FakeData.enrollment) : nat :=
  length
    (filter
       (fun e =>
          String.eqb (FakeData.id e) sid
          && String.eqb (FakeData.course_code e) c)
       enrollments).

(** The course list of a student in the [students] dict; empty for a
    student who is not in it. *)
Definition course_list (sid : string)
  (students : list (string * FakeData.student)) : list string :=
  match dict_get String.eqb sid students with
  | Some s => FakeData.courses s
  | None => []
  end.

(** *** The pair counts of the conflict analyzer (section 4.2) *)

(** The pairs [(l[i], l[j])] with [i < j], in the order in which the two
    loops of the analyzer meet them. *)
Fixpoint pairs_of (l : list string) : list (string * string) :=
  match l with
  | [] => []
  | a :: rest => map (pair a) rest ++ pairs_of rest
  end.

(** The keys that the date-only analyzer counts, in the order in which it
    counts them: the pairs of the sorted course list of every student. *)
Definition daily_pair_keys
  (students : list (string * ScheduleGenerator.student)) : list string :=
  flat_map
    (fun s =>
       map (fun p => ScheduleGenerator.pair_key (fst p) (snd p))
         (pairs_of
            (sorted_asc String.leb (ScheduleGenerator.courses (snd s)))))
    students.

(** The key of the time-slot analyzer for two courses met in this order. *)
Definition canonical_key (a b : string) : string :=
  if FakeData.str_gt a b then FakeData.pair_key b a
  else FakeData.pair_key a b.

Definition slotted_pair_keys (students : list (string * FakeData.student))
  : list string :=
  flat_map
    (fun s =>
       map (fun p => canonical_key (fst p) (snd p))
         (pairs_of (FakeData.courses (snd s))))
    students.

(** A dict that counts the keys of a list, from the dict [d] on. *)
Definition count_keys (keys : list string) (d : list (string * Z))
  : list (string * Z) :=
  fold_left (fun d k => dd_update String.eqb 0 (fun n => n + 1) k d) keys d.

(** The distinct keys of a list in the order in which they first occur,
    after those in [seen]. *)
Definition first_seen_from (seen keys : list string) : list string :=
  fold_left (fun seen k => if str_in k seen then seen else seen ++ [k])
    keys seen.

(** A course code without underscore. *)
Fixpoint no_underscore (s : string) : bool :=
  match s with
  | EmptyString => true
  | String c rest => negb (Ascii.eqb c "_"%char) && no_underscore rest
  end.

(** What is known of the pairs that an analyzer returns, for the list
    [keys] of the keys it counted: they are the dict [counted] sorted by
    descending count, pairs of equal count in the order of the dict; the
    dict has the distinct keys in the order in which they were first
    counted, each with the number of its occurrences. *)
Definition ranked_by_count (keys : list string)
  (counted output : list (string * Z)) : Prop :=
  stable_desc snd counted output
  /\ map fst counted = first_seen_from [] keys
  /\ NoDup (map fst output)
  /\ forall k n,
       In (k, n) output
       <-> In k keys /\ n = Z.of_nat (count_occ string_dec keys k).

(** *** The ranking of the conflict analyzer (section 4.2) *)

(** "Pairs sorted descending by shared-student count, ties broken by
    lexicographic pair order": [p] may come before [q]. *)
Definition spec_pair_before (p q : string * Z) : Prop :=
  snd q < snd p \/ (snd p = snd q /\ String.leb (fst p) (fst q) = true).

Definition spec_ranked (pairs : list (string * Z)) : Prop :=
  StronglySorted spec_pair_before pairs.

(** *** The course order of the greedy scheduler (section 4.4) *)

(** "Conflict pressure: sum of pairwise shared-student counts across all
    co-enrolled-course pairs involving a given course", over the pair
    counts of the analyzer. *)
Definition spec_conflict_pressure (pairs : list (string * Z)) (c : string)
  : Z :=
  fold_right Z.add 0
    (map
       (fun p =>
          match split_pair (fst p) with
          | Some (a, b) =>
              if String.eqb a c || String.eqb b c then snd p else 0
          | None => 0
          end)
       pairs).

(** "Descending conflict pressure; stable tie-break by course code
    ascending": [c] may come before [c']. *)
Definition spec_course_before (pressure : string -> Z) (c c' : string)
  : Prop :=
  pressure c' < pressure c
  \/ (pressure c = pressure c' /\ String.leb c c' = true).

Definition spec_course_order (pressure : string -> Z) (l : list string)
  : Prop :=
  StronglySorted (spec_course_before pressure) l.

(** *** What the code sorts by *)

(** The number of times [c] is listed among the courses of the students. *)
Definition enrolment_count (student_courses : list (string * list string))
  (c : string) : Z :=
  fold_right Z.add 0
    (map (fun s => Z.of_nat (count_occ string_dec (snd s) c)) student_courses).

(** *** Measures of a run *)

(** The sum of a measure over the values of a dict. *)
Definition total {K V : Type} (m : V -> Z) (d : list (K * V)) : Z :=
  fold_right Z.add 0 (map (fun e => m (snd e)) d).

(** The number of exam sittings: the entries of all the exam-date lists. *)
Definition sittings (sed : list (string * list Z)) : Z :=
  total (fun l => Z.of_nat (length l)) sed.

(** A date of the configured window that the scheduler may use. *)
Definition in_window (cfg : ScheduleGenerator.config) (d : Z) : Prop :=
  ScheduleGenerator.SPECIFIC_START_DATE cfg <= d
  <= ScheduleGenerator.SPECIFIC_END_DATE cfg
  /\ (ScheduleGenerator.skip_weekends cfg = true -> weekday d < 5).

(** The sum of the day counters over a list of dates. *)
Definition window_load (dates : list Z) (exams_per_day : list (Z * Z)) : Z :=
  fold_right Z.add 0
    (map (fun d => dict_get_default Z.eqb 0 d exams_per_day) dates).

(** A course is accounted for: it has a date or it is listed as
    unscheduled. *)
Definition accounted (st : ScheduleGenerator.sched_state) (c : string)
  : Prop :=
  dict_mem String.eqb c (ScheduleGenerator.course_dates st) = true
  \/ In c (ScheduleGenerator.unscheduled_courses st).

(** The configuration with another API key: the settings in force
    after [main] has chosen the key (lines 805-815). *)
Definition with_key (cfg : ScheduleGenerator.config) (key : string)
  : ScheduleGenerator.config :=
  {| ScheduleGenerator.DEEPSEEK_API_KEY := key;
     ScheduleGenerator.MIN_DAYS_BETWEEN_EXAMS :=
       ScheduleGenerator.MIN_DAYS_BETWEEN_EXAMS cfg;
     ScheduleGenerator.skip_weekends := ScheduleGenerator.skip_weekends cfg;
     ScheduleGenerator.SPECIFIC_START_DATE :=
       ScheduleGenerator.SPECIFIC_START_DATE cfg;
     ScheduleGenerator.SPECIFIC_END_DATE :=
       ScheduleGenerator.SPECIFIC_END_DATE cfg |}.

(** The key that [main] chooses: the one of the command line, or else
    the configured one. *)
Definition chosen_key (cfg : ScheduleGenerator.config) (api_key : string)
  : string :=
  if String.eqb api_key "" then ScheduleGenerator.DEEPSEEK_API_KEY cfg
  else api_key.

(** The student [s] takes the course [c], in a student-to-courses dict. *)
Definition takes (student_courses : list (string * list string))
  (s c : string) : Prop :=
  exists l, In (s, l) student_courses /\ str_in c l = true.

(** The number of students whose course list has both courses. *)
Definition sharing (students : list (string * ScheduleGenerator.student))
  (a b : string) : Z :=
  Z.of_nat
    (length
       (filter
          (fun s =>
             str_in a (ScheduleGenerator.courses (snd s))
             && str_in b (ScheduleGenerator.courses (snd s)))
          students)).

(** [conflict_pairs[a][b]] of the time-slot scheduler, 0 when absent. *)
Definition pair_count (conflict_pairs : list (string * list (string * Z)))
  (a b : string) : Z :=
  dict_get_default String.eqb 0 b
    (dict_get_default String.eqb [] a conflict_pairs).

(** The number of underscores of a string. *)
Fixpoint underscores (s : string) : nat :=
  match s with
  | EmptyString => O
  | String c rest =>
      ((if Ascii.eqb c "_"%char then 1 else 0) + underscores rest)%nat
  end.

(** The number of items of a schedule of the time-slot scheduler that
    are on the day [d]. *)
Definition items_on (d : Z) (sched : list FakeData.schedule_item) : Z :=
  Z.of_nat (length (filter (fun i => FakeData.item_date i =? d) sched)).

(** Every date of the course-date map is on the calendar of the students
    of the course: the two maps of the date-only scheduler agree. *)
Definition dates_cover (student_courses : list (string * list string))
  (course_dates : list (string * Z)) (sed : list (string * list Z)) : Prop :=
  forall c d s,
    dict_get String.eqb c course_dates = Some d ->
    takes student_courses s c ->
    In d (dict_get_default String.eqb [] s sed).

(** No student has two courses whose dates, in the course-date map, are
    the same day or less than the minimum gap apart. *)
Definition exams_apart (min_gap : Z)
  (student_courses : list (string * list string))
  (course_dates : list (string * Z)) : Prop :=
  forall s c1 c2 d1 d2,
    c1 <> c2 ->
    takes student_courses s c1 -> takes student_courses s c2 ->
    dict_get String.eqb c1 course_dates = Some d1 ->
    dict_get String.eqb c2 course_dates = Some d2 ->
    compatible min_gap d1 d2.

End Spec.

(** ** The states a run goes through *)

Module Reach.

(** The states of the date-only scheduler between two steps of its loops:
    the initial one, the one after the body of the loop over the courses,
    and the one in which a scan of dates stops. *)
Inductive daily (cfg : ScheduleGenerator.config)
  (student_courses : list (string * list string))
  : ScheduleGenerator.sched_state -> Prop :=
| daily_init :
    daily cfg student_courses ScheduleGenerator.initial_state
| daily_course : forall st course dates_to_try,
    daily cfg student_courses st ->
    daily cfg student_courses
      (ScheduleGenerator.schedule_course cfg student_courses course
         dates_to_try st)
| daily_scan : forall st course dates_to_try,
    daily cfg student_courses st ->
    daily cfg student_courses
      (fst (ScheduleGenerator.try_dates cfg student_courses course
              dates_to_try st)).

(** The state of a scan that has not committed yet: the state in which
    the scan began, but for the entries that reading the two
    [defaultdict]s has added. *)
Definition daily_scanned (st : ScheduleGenerator.sched_state)
  (ds : list Z) (ks : list string) : ScheduleGenerator.sched_state :=
  {| ScheduleGenerator.st_schedule := ScheduleGenerator.st_schedule st;
     ScheduleGenerator.course_dates := ScheduleGenerator.course_dates st;
     ScheduleGenerator.student_exam_dates :=
       ScheduleGenerator.student_exam_dates st ++ map (fun s => (s, [])) ks;
     ScheduleGenerator.exams_per_day :=
       ScheduleGenerator.exams_per_day st ++ map (fun d => (d, 0)) ds;
     ScheduleGenerator.unscheduled_courses :=
       ScheduleGenerator.unscheduled_courses st |}.

(** The same for the time-slot scheduler. *)
Inductive slotted (cfg : FakeData.config)
  (student_courses : list (string * list string))
  : FakeData.sched_state -> Prop :=
| slotted_init :
    slotted cfg student_courses FakeData.initial_state
| slotted_course : forall st course slots_to_try,
    slotted cfg student_courses st ->
    slotted cfg student_courses
      (FakeData.schedule_course cfg student_courses course slots_to_try st)
| slotted_scan : forall st course slots_to_try,
    slotted cfg student_courses st ->
    slotted cfg student_courses
      (fst (FakeData.try_slots cfg student_courses course slots_to_try st)).

(** The state of a scan of slots that has not committed yet: only
    [exams_per_day] is a [defaultdict] here. *)
Definition slotted_scanned (st : FakeData.sched_state) (ds : list Z)
  : FakeData.sched_state :=
  {| FakeData.schedule := FakeData.schedule st;
     FakeData.course_dates := FakeData.course_dates st;
     FakeData.student_exam_dates := FakeData.student_exam_dates st;
     FakeData.exams_per_day :=
       FakeData.exams_per_day st ++ map (fun d => (d, 0)) ds;
     FakeData.unscheduled_courses := FakeData.unscheduled_courses st |}.

End Reach.

(** ** Concrete inputs *)

Module Examples.

(** The outcome of [random.shuffle] that leaves the list as it is. *)
Definition keep_order {A : Type} (n : nat) (l : list A) : list A := l.

Definition mk_student (i : string) (cs : list string)
  : string * ScheduleGenerator.student :=
  (i, {| ScheduleGenerator.id := i;
         ScheduleGenerator.name := i;
         ScheduleGenerator.department := "CE";
         ScheduleGenerator.academic_level := "Dip";
         ScheduleGenerator.courses := cs |}).

(** The window of the script, a configured key and a minimum gap of two
    days. *)
Definition cfg_gap2 : ScheduleGenerator.config := {|
  ScheduleGenerator.DEEPSEEK_API_KEY := "sk-test";
  ScheduleGenerator.MIN_DAYS_BETWEEN_EXAMS := 2;
  ScheduleGenerator.skip_weekends := true;
  ScheduleGenerator.SPECIFIC_START_DATE := 739396;
  ScheduleGenerator.SPECIFIC_END_DATE := 739415
|}.

(** A window of one Saturday and one Sunday, 24 and 25 May 2025. *)
Definition cfg_weekend : ScheduleGenerator.config := {|
  ScheduleGenerator.DEEPSEEK_API_KEY := "";
  ScheduleGenerator.MIN_DAYS_BETWEEN_EXAMS := 1;
  ScheduleGenerator.skip_weekends := true;
  ScheduleGenerator.SPECIFIC_START_DATE := 739395;
  ScheduleGenerator.SPECIFIC_END_DATE := 739396
|}.

Definition data_of (codes : list string)
  (students : list (string * ScheduleGenerator.student))
  : ScheduleGenerator.api_data := {|
  ScheduleGenerator.all_course_codes := codes;
  ScheduleGenerator.students_for_api :=
    map (fun s => (fst s, ScheduleGenerator.courses (snd s))) students;
  ScheduleGenerator.students_full_details := students;
  ScheduleGenerator.conflict_analysis := []
|}.

(** Three courses; one student takes A and B, another takes A. *)
Definition students_ab : list (string * ScheduleGenerator.student) :=
  [mk_student "s1" ["A"; "B"]; mk_student "s2" ["A"]]%string.

Definition data_abc : ScheduleGenerator.api_data :=
  data_of ["A"; "B"; "C"]%string students_ab.

(** Two courses; two students take A, nobody takes B. *)
Definition data_two_on_a : ScheduleGenerator.api_data :=
  data_of ["A"; "B"]%string
    [mk_student "s1" ["A"]; mk_student "s2" ["A"]]%string.

(** A state in which student s1 has an exam on Monday 26 May 2025. *)
Definition st_monday_taken : ScheduleGenerator.sched_state := {|
  ScheduleGenerator.st_schedule :=
    [{| ScheduleGenerator.course_code := Some "B"%string;
        ScheduleGenerator.date := Some (ScheduleGenerator.ValidDate 739397) |}];
  ScheduleGenerator.course_dates := [("B"%string, 739397)];
  ScheduleGenerator.student_exam_dates := [("s1"%string, [739397])];
  ScheduleGenerator.exams_per_day := [(739397, 1)];
  ScheduleGenerator.unscheduled_courses := []
|}.

(** The same for the time-slot scheduler. *)
Definition st_monday_slot_taken : FakeData.sched_state := {|
  FakeData.schedule :=
    [{| FakeData.item_course_code := "B";
        FakeData.item_date := 739397;
        FakeData.item_time_slot := "8:30-10:30" |}];
  FakeData.course_dates := [("B", (739397, "8:30-10:30"))]%string;
  FakeData.student_exam_dates := [("s1", [(739397, "8:30-10:30")])]%string;
  FakeData.exams_per_day := [(739397, 1)];
  FakeData.unscheduled_courses := []
|}.

(** One student who takes A and B. *)
Definition students_s1 : list (string * ScheduleGenerator.student) :=
  [mk_student "s1" ["A"; "B"]]%string.

Definition course_info_ab : list (string * string) :=
  [("A", "Algebra"); ("B", "Biology")]%string.

Definition item (c : string) (d : Z) : ScheduleGenerator.schedule_item :=
  {| ScheduleGenerator.course_code := Some c;
     ScheduleGenerator.date := Some (ScheduleGenerator.ValidDate d) |}.

Definition no_stats : ScheduleGenerator.statistics := {|
  ScheduleGenerator.total_courses_requested := 2;
  ScheduleGenerator.total_courses_scheduled := 2;
  ScheduleGenerator.total_scheduling_days_used := 2;
  ScheduleGenerator.total_students := 1;
  ScheduleGenerator.unresolved_student_conflicts := 0;
  ScheduleGenerator.courses_not_scheduled := 0
|}.

(** A remote answer that puts A and B on the same Monday. *)
Definition remote_same_day : ScheduleGenerator.schedule_data := {|
  ScheduleGenerator.schedule := Some [item "A" 739397; item "B" 739397];
  ScheduleGenerator.stats := Some no_stats;
  ScheduleGenerator.issues := [];
  ScheduleGenerator.final_conflicts := None
|}.

(** A remote answer that puts A on Monday and B on Tuesday. *)
Definition remote_next_day : ScheduleGenerator.schedule_data := {|
  ScheduleGenerator.schedule := Some [item "A" 739397; item "B" 739398];
  ScheduleGenerator.stats := Some no_stats;
  ScheduleGenerator.issues := [];
  ScheduleGenerator.final_conflicts := None
|}.

Definition mk_enrollment (sid c : string) : FakeData.enrollment :=
  {| FakeData.id := sid;
     FakeData.name := sid;
     FakeData.department := "CE";
     FakeData.academic_level := "Dip";
     FakeData.course_code := c |}.

(** The enrollment of s1 in A is recorded twice. *)
Definition enrollments_dup : list FakeData.enrollment :=
  [mk_enrollment "s1" "A"; mk_enrollment "s1" "A"; mk_enrollment "s1" "B"].

(** One student takes A, B and C; two others take D alone. *)
Definition students_abc_d : list (string * ScheduleGenerator.student) :=
  [mk_student "s1" ["A"; "B"; "C"]; mk_student "s2" ["D"];
   mk_student "s3" ["D"]]%string.

(** One student, who takes C alone. *)
Definition students_c : list (string * ScheduleGenerator.student) :=
  [mk_student "s1" ["C"]]%string.

(** An input of the time-slot scheduler with the courses B and A, in this
    order, and no conflict. *)
Definition fake_data_ba : FakeData.api_data := {|
  FakeData.courses_by_dept_level := [("CE_Dip", ["B"; "A"])]%string;
  FakeData.students :=
    [{| FakeData.as_id := "s1"; FakeData.as_courses := ["C"]%string |}];
  FakeData.conflict_analysis := []
|}.

(** Two courses of one group, and a student who takes both. *)
Definition fake_data_ab : FakeData.api_data := {|
  FakeData.courses_by_dept_level := [("CE_Dip", ["A"; "B"])]%string;
  FakeData.students :=
    [{| FakeData.as_id := "s1"; FakeData.as_courses := ["A"; "B"]%string |}];
  FakeData.conflict_analysis :=
    [{| FakeData.course1 := "A"; FakeData.course2 := "B";
        FakeData.common_students := 1 |}]%string
|}.

(** The students of the ranking example of the specification. *)
Definition students_ranking : list (string * ScheduleGenerator.student) :=
  [mk_student "s1" ["A"; "B"]; mk_student "s2" ["A"; "B"];
   mk_student "s3" ["A"; "C"]]%string.

Definition mk_fake_student (i : string) (cs : list string)
  : string * FakeData.student :=
  (i, {| FakeData.s_name := i;
         FakeData.s_department := "CE";
         FakeData.s_academic_level := "Dip";
         FakeData.courses := cs |}).

Definition fake_students_ranking : list (string * FakeData.student) :=
  [mk_fake_student "s1" ["A"; "B"]; mk_fake_student "s2" ["B"; "A"];
   mk_fake_student "s3" ["A"; "C"]]%string.

(** One student takes C and D, another takes A and B. *)
Definition students_cd_ab : list (string * ScheduleGenerator.student) :=
  [mk_student "s1" ["D"; "C"]; mk_student "s2" ["A"; "B"]]%string.

Definition fake_students_cd_ab : list (string * FakeData.student) :=
  [mk_fake_student "s1" ["D"; "C"]; mk_fake_student "s2" ["A"; "B"]]%string.

End Examples.

(** ** Facts about the built-ins *)

Section DictFacts.

Context {K V : Type}.
Variable eqb : K -> K -> bool.
Hypothesis eqb_eq : forall a b, eqb a b = true <-> a = b.

Lemma eqb_refl_true (k : K) : eqb k k = true.
Proof. now apply eqb_eq. Qed.

Lemma eqb_neq_false (a b : K) : a <> b -> eqb a b = false.
Proof.
  intro Hne. destruct (eqb a b) eqn:E; [|reflexivity].
  apply eqb_eq in E. contradiction.
Qed.

Lemma dict_get_set_same (k : K) (v : V) (d : list (K * V)) :
  Py.dict_get eqb k (Py.dict_set eqb k v d) = Some v.
Proof.
  induction d as [|[k' v'] d IH]; simpl.
  - now rewrite eqb_refl_true.
  - destruct (eqb k k') eqn:E; simpl; rewrite E; auto.
Qed.

Lemma dict_get_set_other (k k' : K) (v : V) (d : list (K * V)) :
  k' <> k ->
  Py.dict_get eqb k' (Py.dict_set eqb k v d) = Py.dict_get eqb k' d.
Proof.
  intro Hne. induction d as [|[k0 v0] d IH]; simpl.
  - now rewrite (eqb_neq_false k' k).
  - destruct (eqb k k0) eqn:E; simpl.
    + apply eqb_eq in E. subst k0. now rewrite (eqb_neq_false k' k).
    + now rewrite IH.
Qed.

Lemma dict_get_In (k : K) (v : V) (d : list (K * V)) :
  Py.dict_get eqb k d = Some v -> In (k, v) d.
Proof.
  induction d as [|[k0 v0] d IH]; simpl; [discriminate|].
  destruct (eqb k k0) eqn:E.
  - apply eqb_eq in E. subst k0. intros [= ->]. now left.
  - intro H. right. auto.
Qed.

Lemma dict_get_None_notin (k : K) (d : list (K * V)) :
  Py.dict_get eqb k d = None -> ~ In k (map fst d).
Proof.
  induction d as [|[k0 v0] d IH]; simpl; [tauto|].
  destruct (eqb k k0) eqn:E; [discriminate|].
  intros H [->|Hin]; [|now apply IH].
  now rewrite eqb_refl_true in E.
Qed.

Lemma dict_set_absent (k : K) (v : V) (d : list (K * V)) :
  Py.dict_get eqb k d = None -> Py.dict_set eqb k v d = d ++ [(k, v)].
Proof.
  induction d as [|[k0 v0] d IH]; simpl; [reflexivity|].
  destruct (eqb k k0); [discriminate|].
  intro H. now rewrite IH.
Qed.

Lemma dict_set_keys_present (k : K) (v v0 : V) (d : list (K * V)) :
  Py.dict_get eqb k d = Some v0 ->
  map fst (Py.dict_set eqb k v d) = map fst d.
Proof.
  induction d as [|[k1 v1] d IH]; simpl; [discriminate|].
  destruct (eqb k k1); simpl; [reflexivity|].
  intro H. now rewrite IH.
Qed.

Lemma dict_set_NoDup (k : K) (v : V) (d : list (K * V)) :
  NoDup (map fst d) -> NoDup (map fst (Py.dict_set eqb k v d)).
Proof.
  intro Hnd. destruct (Py.dict_get eqb k d) as [v0|] eqn:G.
  - now rewrite (dict_set_keys_present k v v0 d G).
  - rewrite (dict_set_absent k v d G), map_app. simpl.
    apply NoDup_app; [assumption|repeat constructor; simpl; tauto|].
    intros x Hx [<-|[]]. now apply dict_get_None_notin in G.
Qed.

Lemma dict_set_Forall (P : V -> Prop) (k : K) (v : V) (d : list (K * V)) :
  Forall (fun e => P (snd e)) d -> P v ->
  Forall (fun e => P (snd e)) (Py.dict_set eqb k v d).
Proof.
  intros Hd Hv. induction Hd as [|[k0 v0] d H0 Hd IH]; simpl.
  - now repeat constructor.
  - destruct (eqb k k0); constructor; auto.
Qed.

Lemma dict_get_default_Forall (P : V -> Prop) (dflt : V) (k : K)
  (d : list (K * V)) :
  Forall (fun e => P (snd e)) d -> P dflt ->
  P (Py.dict_get_default eqb dflt k d).
Proof.
  intros Hd Hdflt. unfold Py.dict_get_default.
  destruct (Py.dict_get eqb k d) as [v|] eqn:G; [|assumption].
  apply dict_get_In in G. rewrite Forall_forall in Hd. exact (Hd _ G).
Qed.

Lemma dict_get_default_set_same (dflt : V) (k : K) (v : V)
  (d : list (K * V)) :
  Py.dict_get_default eqb dflt k (Py.dict_set eqb k v d) = v.
Proof. unfold Py.dict_get_default. now rewrite dict_get_set_same. Qed.

Lemma dict_get_default_set_other (dflt : V) (k k' : K) (v : V)
  (d : list (K * V)) :
  k' <> k ->
  Py.dict_get_default eqb dflt k' (Py.dict_set eqb k v d)
  = Py.dict_get_default eqb dflt k' d.
Proof.
  intro Hne. unfold Py.dict_get_default. now rewrite dict_get_set_other.
Qed.

(** Reading a [defaultdict] changes no value. *)
Lemma dd_touch_value (dflt : V) (k k' : K) (d : list (K * V)) :
  Py.dict_get_default eqb dflt k' (Py.dd_touch eqb dflt k d)
  = Py.dict_get_default eqb dflt k' d.
Proof.
  unfold Py.dd_touch. destruct (Py.dict_get eqb k d) as [v|] eqn:G.
  - reflexivity.
  - unfold Py.dict_get_default.
    destruct (eqb k' k) eqn:E.
    + apply eqb_eq in E. subst k'. now rewrite dict_get_set_same, G.
    + rewrite dict_get_set_other; [reflexivity|].
      intros ->. now rewrite eqb_refl_true in E.
Qed.

(** It only appends, and only the default. *)
Lemma dd_touch_extends (dflt : V) (k : K) (d : list (K * V)) :
  exists ks, Py.dd_touch eqb dflt k d = d ++ map (fun x => (x, dflt)) ks.
Proof.
  unfold Py.dd_touch. destruct (Py.dict_get eqb k d) eqn:G.
  - exists []. simpl. now rewrite app_nil_r.
  - exists [k]. now rewrite dict_set_absent.
Qed.

Lemma dd_touch_Forall (P : V -> Prop) (dflt : V) (k : K)
  (d : list (K * V)) :
  Forall (fun e => P (snd e)) d -> P dflt ->
  Forall (fun e => P (snd e)) (Py.dd_touch eqb dflt k d).
Proof.
  intros Hd Hdflt. unfold Py.dd_touch.
  destruct (Py.dict_get eqb k d); [assumption|].
  now apply dict_set_Forall.
Qed.

Lemma dd_update_value_same (dflt : V) (f : V -> V) (k : K)
  (d : list (K * V)) :
  Py.dict_get_default eqb dflt k (Py.dd_update eqb dflt f k d)
  = f (Py.dict_get_default eqb dflt k d).
Proof. unfold Py.dd_update. apply dict_get_default_set_same. Qed.

Lemma dd_update_value_other (dflt : V) (f : V -> V) (k k' : K)
  (d : list (K * V)) :
  k' <> k ->
  Py.dict_get_default eqb dflt k' (Py.dd_update eqb dflt f k d)
  = Py.dict_get_default eqb dflt k' d.
Proof. intro Hne. unfold Py.dd_update. now apply dict_get_default_set_other. Qed.

Lemma dd_update_Forall (P : V -> Prop) (dflt : V) (f : V -> V) (k : K)
  (d : list (K * V)) :
  Forall (fun e => P (snd e)) d ->
  P (f (Py.dict_get_default eqb dflt k d)) ->
  Forall (fun e => P (snd e)) (Py.dd_update eqb dflt f k d).
Proof. intros Hd Hf. unfold Py.dd_update. now apply dict_set_Forall. Qed.

End DictFacts.

Section SortFacts.

Context {A : Type}.
Variable key : A -> Z.

Lemma insert_desc_perm (x : A) (l : list A) :
  Permutation (x :: l) (Py.insert_desc key x l).
Proof.
  induction l as [|y l IH]; simpl; [reflexivity|].
  destruct (key y <=? key x); [reflexivity|].
  rewrite perm_swap. now constructor.
Qed.

Lemma sorted_desc_perm (l : list A) : Permutation l (Py.sorted_desc key l).
Proof.
  induction l as [|x l IH]; simpl; [constructor|].
  rewrite <- insert_desc_perm. now constructor.
Qed.

Lemma insert_desc_sorted (x : A) (l : list A) :
  StronglySorted (fun a b => key b <= key a) l ->
  StronglySorted (fun a b => key b <= key a) (Py.insert_desc key x l).
Proof.
  induction 1 as [|y l Hs IH Hy]; simpl.
  - repeat constructor.
  - destruct (key y <=? key x) eqn:E.
    + apply Z.leb_le in E. constructor; [now constructor|].
      constructor; [assumption|].
      rewrite Forall_forall in Hy |- *. intros z Hz.
      specialize (Hy z Hz). simpl in *. lia.
    + apply Z.leb_gt in E. constructor; [assumption|].
      rewrite Forall_forall in Hy |- *. intros z Hz.
      apply (Permutation_in _ (Permutation_sym (insert_desc_perm x l))) in Hz.
      destruct Hz as [<-|Hz]; [lia|auto].
Qed.

Lemma sorted_desc_sorted (l : list A) :
  StronglySorted (fun a b => key b <= key a) (Py.sorted_desc key l).
Proof.
  induction l as [|x l IH]; simpl; [constructor|].
  now apply insert_desc_sorted.
Qed.

(** An element is inserted before the elements of the same key. *)
Lemma insert_desc_filter (k : Z) (x : A) (l : list A) :
  filter (fun a => key a =? k) (Py.insert_desc key x l)
  = filter (fun a => key a =? k) (x :: l).
Proof.
  induction l as [|y l IH]; simpl; [reflexivity|].
  destruct (key y <=? key x) eqn:E; [reflexivity|].
  apply Z.leb_gt in E. simpl in *. rewrite IH.
  destruct (key x =? k) eqn:Ex, (key y =? k) eqn:Ey; try reflexivity.
  apply Z.eqb_eq in Ex, Ey. lia.
Qed.

Lemma sorted_desc_filter (k : Z) (l : list A) :
  filter (fun a => key a =? k) (Py.sorted_desc key l)
  = filter (fun a => key a =? k) l.
Proof.
  induction l as [|x l IH]; simpl; [reflexivity|].
  rewrite insert_desc_filter. simpl. now rewrite IH.
Qed.

(** [sorted(l, key=key, reverse=True)] is the stable descending
    arrangement of [l]. *)
Lemma sorted_desc_stable (l : list A) :
  Spec.stable_desc key l (Py.sorted_desc key l).
Proof.
  split; [apply sorted_desc_perm|].
  split; [apply sorted_desc_sorted|].
  intro k. apply sorted_desc_filter.
Qed.

End SortFacts.

Section AscFacts.

Context {A : Type}.
Variable leb : A -> A -> bool.

Lemma insert_asc_perm (x : A) (l : list A) :
  Permutation (x :: l) (Py.insert_asc leb x l).
Proof.
  induction l as [|y l IH]; simpl; [reflexivity|].
  destruct (leb x y); [reflexivity|].
  rewrite perm_swap. now constructor.
Qed.

Lemma sorted_asc_perm (l : list A) : Permutation l (Py.sorted_asc leb l).
Proof.
  induction l as [|x l IH]; simpl; [constructor|].
  rewrite <- insert_asc_perm. now constructor.
Qed.

Lemma sorted_asc_In (x : A) (l : list A) :
  In x (Py.sorted_asc leb l) <-> In x l.
Proof.
  split; apply Permutation_in;
    [apply Permutation_sym|]; apply sorted_asc_perm.
Qed.

Hypothesis leb_total : forall a b, leb a b = true \/ leb b a = true.
Hypothesis leb_trans :
  forall a b c, leb a b = true -> leb b c = true -> leb a c = true.

Lemma insert_asc_sorted (x : A) (l : list A) :
  StronglySorted (fun a b => leb a b = true) l ->
  StronglySorted (fun a b => leb a b = true) (Py.insert_asc leb x l).
Proof.
  induction 1 as [|y l Hs IH Hy]; simpl.
  - repeat constructor.
  - destruct (leb x y) eqn:E.
    + constructor; [now constructor|].
      constructor; [assumption|].
      rewrite Forall_forall in Hy |- *. intros z Hz.
      apply (leb_trans x y z); auto.
    + constructor; [assumption|].
      rewrite Forall_forall in Hy |- *. intros z Hz.
      apply (Permutation_in _ (Permutation_sym (insert_asc_perm x l))) in Hz.
      destruct Hz as [<-|Hz]; [|auto].
      destruct (leb_total x y) as [H|H]; congruence.
Qed.

Lemma sorted_asc_sorted (l : list A) :
  StronglySorted (fun a b => leb a b = true) (Py.sorted_asc leb l).
Proof.
  induction l as [|x l IH]; simpl; [constructor|].
  now apply insert_asc_sorted.
Qed.

End AscFacts.

Lemma sorted_set_In (x : Z) (l : list Z) : In x (Py.sorted_set l) <-> In x l.
Proof.
  unfold Py.sorted_set. rewrite sorted_asc_In. apply nodup_In.
Qed.

(** The sorted distinct dates increase strictly. *)
Lemma sorted_set_increasing (l : list Z) :
  StronglySorted Z.lt (Py.sorted_set l).
Proof.
  unfold Py.sorted_set.
  assert (Hnd : NoDup (Py.sorted_asc Z.leb (nodup Z.eq_dec l))).
  { eapply Permutation_NoDup; [apply sorted_asc_perm|apply NoDup_nodup]. }
  assert (Hs := sorted_asc_sorted Z.leb
                  (fun a b => ltac:(rewrite !Z.leb_le; lia))
                  (fun a b c => ltac:(rewrite !Z.leb_le; lia))
                  (nodup Z.eq_dec l)).
  induction Hs as [|x xs Hs IH Hx]; [constructor|].
  inversion Hnd as [|? ? Hnotin Hnd']; subst.
  constructor; [auto|].
  rewrite Forall_forall in Hx |- *. intros z Hz.
  specialize (Hx z Hz). apply Z.leb_le in Hx.
  assert (x <> z) by (intros ->; contradiction). lia.
Qed.

(** ** The date-only scheduler: the guard and the commit *)

Section DailyScheduler.

Import Py ScheduleGenerator Spec Reach.

Variable cfg : config.

Local Abbreviation min_gap := (MIN_DAYS_BETWEEN_EXAMS cfg).
Local Abbreviation dates_of := (dict_get_default String.eqb (@nil Z)).
Local Abbreviation calendars_ok := (Spec.calendars_ok (MIN_DAYS_BETWEEN_EXAMS cfg)).

Lemma calendar_ok_nil : calendar_ok min_gap [].
Proof. constructor. Qed.

Lemma calendar_ok_snoc (l : list Z) (d : Z) :
  calendar_ok min_gap l ->
  Forall (fun o => compatible min_gap o d) l ->
  calendar_ok min_gap (l ++ [d]).
Proof.
  unfold calendar_ok. induction 1 as [|a l Ha Hl IH]; simpl; intro Hd.
  - repeat constructor.
  - inversion Hd as [|? ? Had Hd']; subst.
    constructor; [|auto].
    apply Forall_app. split; [assumption|].
    constructor; [exact Had|constructor].
Qed.

(** What the two tests of lines 387-395 establish when both fail. *)
Lemma guard_compatible (d : Z) (l : list Z) :
  date_in d l = false -> too_close cfg d l = false ->
  Forall (fun o => compatible min_gap o d) l.
Proof.
  unfold date_in, too_close. intros Hin Hclose.
  rewrite Forall_forall. intros o Ho. split.
  - intros ->.
    assert (H : existsb (Z.eqb d) l = true);
      [|exact (eq_true_false_abs _ H Hin)].
    apply existsb_exists. exists d. split; [assumption|apply Z.eqb_refl].
  - intro Hgap.
    assert (H : existsb
                  (fun other_date =>
                     let days_diff := Z.abs (d - other_date) in
                     (0 <? days_diff) && (days_diff <? min_gap)) l = true);
      [|exact (eq_true_false_abs _ H Hclose)].
    apply existsb_exists. exists o. split; [assumption|]. simpl.
    apply andb_true_iff. rewrite !Z.ltb_lt. lia.
Qed.

Lemma string_eqb_eq (a b : string) : String.eqb a b = true <-> a = b.
Proof. apply String.eqb_eq. Qed.

(** The loop over the students reads calendars and changes none; when it
    finds no conflict, the date is compatible with the calendar of every
    student of the course. *)
Lemma check_students_spec (d : Z) (taking : list string) :
  forall sed conflicts sed',
    check_students cfg d taking sed = (conflicts, sed') ->
    (forall s, dates_of s sed' = dates_of s sed)
    /\ (exists ks, sed' = sed ++ map (fun s => (s, [])) ks)
    /\ (conflicts = false ->
        forall s, In s taking ->
                  Forall (fun o => compatible min_gap o d) (dates_of s sed)).
Proof.
  induction taking as [|s0 taking IH]; simpl; intros sed conflicts sed' H.
  - injection H as <- <-. split; [reflexivity|]. split.
    + exists []. simpl. now rewrite app_nil_r.
    + intros _ s [].
  - set (sed1 := dd_touch String.eqb [] s0 sed) in *.
    assert (Hval : forall s, dates_of s sed1 = dates_of s sed)
      by (intro s; apply (dd_touch_value _ string_eqb_eq)).
    destruct (dd_touch_extends String.eqb [] s0 sed)
      as [ks0 Hext0]. fold sed1 in Hext0.
    destruct (date_in d (dates_of s0 sed1)) eqn:Hin.
    { injection H as <- <-. split; [assumption|]. split; [eauto|].
      discriminate. }
    destruct (too_close cfg d (dates_of s0 sed1)) eqn:Hclose.
    { injection H as <- <-. split; [assumption|]. split; [eauto|].
      discriminate. }
    destruct (IH _ _ _ H) as (Hval' & [ks Hext] & Hguard).
    split; [intro s; now rewrite Hval', Hval|]. split.
    + exists (ks0 ++ ks). rewrite Hext, Hext0, map_app. now rewrite app_assoc.
    + intros Hc s [<-|Hs].
      * rewrite <- Hval. now apply guard_compatible.
      * rewrite <- Hval. now apply Hguard.
Qed.

Lemma check_students_calendars (d : Z) (taking : list string)
  (sed : list (string * list Z)) :
  calendars_ok sed -> calendars_ok (snd (check_students cfg d taking sed)).
Proof.
  intro Hok.
  destruct (check_students cfg d taking sed) as [c sed'] eqn:E.
  destruct (check_students_spec _ _ _ _ _ E) as (_ & [ks ->] & _).
  apply Forall_app. split; [assumption|].
  apply Forall_forall. intros [s l] Hin. apply in_map_iff in Hin.
  destruct Hin as (x & [= <- <-] & _). apply calendar_ok_nil.
Qed.

(** Line 407 is inside the loop over the students: the commit appends one
    schedule item per student of the course. *)
Lemma record_students_schedule (course : string) (d : Z)
  (taking : list string) :
  forall sed sched,
    snd (record_students course d taking sed sched)
    = sched
        ++ repeat {| course_code := Some course; date := Some (ValidDate d) |}
             (length taking).
Proof.
  induction taking as [|s taking IH]; simpl; intros sed sched.
  - now rewrite app_nil_r.
  - rewrite IH, <- app_assoc. reflexivity.
Qed.

(** The commit keeps the invariant when the date is compatible with the
    calendar of every student of the course. *)
Lemma record_students_calendars (course : string) (d : Z)
  (taking : list string) :
  NoDup taking ->
  forall sed sched,
    calendars_ok sed ->
    (forall s, In s taking ->
               Forall (fun o => compatible min_gap o d) (dates_of s sed)) ->
    calendars_ok (fst (record_students course d taking sed sched)).
Proof.
  induction 1 as [|s taking Hnotin Hnd IH]; simpl; intros sed sched Hok Hg.
  - assumption.
  - apply IH.
    + apply dd_update_Forall; [assumption|].
      apply calendar_ok_snoc.
      * apply (dict_get_default_Forall String.eqb string_eqb_eq
                 (calendar_ok min_gap)); [assumption|apply calendar_ok_nil].
      * apply Hg. now left.
    + intros s' Hs'.
      rewrite (dd_update_value_other String.eqb string_eqb_eq).
      * apply Hg. now right.
      * intros ->. contradiction.
Qed.

Lemma Z_eqb_eq (a b : Z) : Z.eqb a b = true <-> a = b.
Proof. apply Z.eqb_eq. Qed.

Variable student_courses : list (string * list string).
Variable course : string.

Local Abbreviation taking :=
  (course_students_taking_this course student_courses).

Lemma daily_scanned_nil (st : sched_state) : daily_scanned st [] [] = st.
Proof. destruct st. unfold daily_scanned. simpl. now rewrite !app_nil_r. Qed.

Lemma daily_scanned_twice (st : sched_state) (ds ds' : list Z)
  (ks ks' : list string) :
  daily_scanned (daily_scanned st ds ks) ds' ks' = daily_scanned st (ds ++ ds') (ks ++ ks').
Proof.
  unfold daily_scanned. simpl. now rewrite !map_app, !app_assoc.
Qed.

(** A scan either rejects every date and leaves the state it began with,
    up to entries with default values, or commits the course on a date
    that is not full and is compatible with the calendar of every student
    of the course. *)
Lemma try_dates_cases (dates_to_try : list Z) :
  forall st,
  exists ds ks,
    (forall d, dict_get_default Z.eqb 0 d (exams_per_day (daily_scanned st ds ks))
               = dict_get_default Z.eqb 0 d (exams_per_day st))
    /\ (forall s, dates_of s (student_exam_dates (daily_scanned st ds ks))
                  = dates_of s (student_exam_dates st))
    /\ (try_dates cfg student_courses course dates_to_try st
        = (daily_scanned st ds ks, false)
        \/ exists d,
             In d dates_to_try
             /\ try_dates cfg student_courses course dates_to_try st
                = (commit course d taking (daily_scanned st ds ks), true)
             /\ dict_get_default Z.eqb 0 d (exams_per_day st)
                < MAX_EXAMS_PER_DAY
             /\ forall s, In s taking ->
                          Forall (fun o => compatible min_gap o d)
                            (dates_of s (student_exam_dates st))).
Proof.
  induction dates_to_try as [|d dates IH]; intro st.
  - exists [], []. rewrite daily_scanned_nil. repeat split; auto.
  - cbn [try_dates].
    destruct (dd_touch_extends Z.eqb 0 d (exams_per_day st)) as [ds0 Hds0].
    assert (Hepd : forall d', dict_get_default Z.eqb 0 d'
                                (dd_touch Z.eqb 0 d (exams_per_day st))
                              = dict_get_default Z.eqb 0 d' (exams_per_day st))
      by (intro d'; apply (dd_touch_value _ Z_eqb_eq)).
    rewrite Hds0 in *.
    assert (Hst1 : {| st_schedule := st_schedule st;
                      course_dates := course_dates st;
                      student_exam_dates := student_exam_dates st;
                      exams_per_day :=
                        exams_per_day st ++ map (fun x => (x, 0)) ds0;
                      unscheduled_courses := unscheduled_courses st |}
                   = daily_scanned st ds0 []).
    { unfold daily_scanned. simpl. now rewrite app_nil_r. }
    rewrite Hst1.
    destruct (MAX_EXAMS_PER_DAY
              <=? dict_get_default Z.eqb 0 d
                    (exams_per_day st ++ map (fun x => (x, 0)) ds0)) eqn:Hfull.
    + destruct (IH (daily_scanned st ds0 [])) as (ds & ks & He & Hs & Hres).
      rewrite daily_scanned_twice in *. simpl app in *.
      exists (ds0 ++ ds), ks. split; [|split].
      * intro d'. rewrite He. simpl. apply Hepd.
      * intro s. rewrite Hs. simpl. now rewrite app_nil_r.
      * destruct Hres as [Hres|(d' & Hin & Hres & Hroom & Hg)].
        -- left. exact Hres.
        -- right. exists d'. split; [now right|]. split; [exact Hres|].
           split.
           ++ simpl in Hroom. now rewrite Hepd in Hroom.
           ++ intros s Hin'. specialize (Hg s Hin'). simpl in Hg.
              now rewrite app_nil_r in Hg.
    + apply Z.leb_gt in Hfull. rewrite Hepd in Hfull.
      simpl student_exam_dates. rewrite app_nil_r.
      destruct (check_students cfg d taking (student_exam_dates st))
        as [conflicts sed] eqn:Hcheck.
      destruct (check_students_spec _ _ _ _ _ Hcheck)
        as (Hval & [ks0 Hext] & Hguard).
      simpl st_schedule. simpl course_dates. simpl exams_per_day.
      simpl unscheduled_courses.
      assert (Hst2 : {| st_schedule := st_schedule st;
                        course_dates := course_dates st;
                        student_exam_dates := sed;
                        exams_per_day :=
                          exams_per_day st ++ map (fun x => (x, 0)) ds0;
                        unscheduled_courses := unscheduled_courses st |}
                     = daily_scanned st ds0 ks0).
      { unfold daily_scanned. now rewrite Hext. }
      rewrite Hst2.
      destruct conflicts.
      * destruct (IH (daily_scanned st ds0 ks0)) as (ds & ks & He & Hs & Hres).
        rewrite daily_scanned_twice in *.
        exists (ds0 ++ ds), (ks0 ++ ks). split; [|split].
        -- intro d'. rewrite He. simpl. apply Hepd.
        -- intro s. rewrite Hs. simpl. rewrite <- Hext. apply Hval.
        -- destruct Hres as [Hres|(d' & Hin & Hres & Hroom & Hg)].
           ++ left. exact Hres.
           ++ right. exists d'. split; [now right|]. split; [exact Hres|].
              split.
              ** simpl in Hroom. now rewrite Hepd in Hroom.
              ** intros s Hin'. specialize (Hg s Hin'). simpl in Hg.
                 rewrite <- Hext, Hval in Hg. exact Hg.
      * exists ds0, ks0. split; [|split].
        -- intro d'. simpl. apply Hepd.
        -- intro s. simpl. rewrite <- Hext. apply Hval.
        -- right. exists d. split; [now left|]. split; [reflexivity|].
           split; [exact Hfull|]. now apply Hguard.
Qed.

Lemma NoDup_keys_filter {V : Type} (f : string * V -> bool)
  (d : list (string * V)) :
  NoDup (map fst d) -> NoDup (map fst (filter f d)).
Proof.
  induction d as [|e d IH]; simpl; intro Hnd; [constructor|].
  inversion Hnd as [|? ? Hnotin Hnd']; subst.
  destruct (f e); simpl; [|auto].
  constructor; [|auto].
  intro Hin. apply Hnotin. apply in_map_iff in Hin.
  destruct Hin as (x & Hx & Hin). apply filter_In in Hin.
  apply in_map_iff. exists x. tauto.
Qed.

Lemma commit_student_exam_dates (d : Z) (l : list string)
  (st : sched_state) :
  student_exam_dates (commit course d l st)
  = fst (record_students course d l (student_exam_dates st) (st_schedule st)).
Proof.
  unfold commit.
  now destruct (record_students course d l (student_exam_dates st)
                  (st_schedule st)).
Qed.

Lemma commit_schedule (d : Z) (l : list string) (st : sched_state) :
  st_schedule (commit course d l st)
  = st_schedule st
      ++ repeat {| course_code := Some course; date := Some (ValidDate d) |}
           (length l).
Proof.
  unfold commit. rewrite <- record_students_schedule
    with (sed := student_exam_dates st).
  now destruct (record_students course d l (student_exam_dates st)
                  (st_schedule st)).
Qed.

Lemma commit_course_dates (d : Z) (l : list string) (st : sched_state) :
  course_dates (commit course d l st)
  = dict_set String.eqb course d (course_dates st).
Proof.
  unfold commit.
  now destruct (record_students course d l (student_exam_dates st)
                  (st_schedule st)).
Qed.

Lemma commit_exams_per_day (d : Z) (l : list string) (st : sched_state) :
  exams_per_day (commit course d l st)
  = dd_update Z.eqb 0 (fun n => n + 1) d (exams_per_day st).
Proof.
  unfold commit.
  now destruct (record_students course d l (student_exam_dates st)
                  (st_schedule st)).
Qed.

Lemma commit_unscheduled (d : Z) (l : list string) (st : sched_state) :
  unscheduled_courses (commit course d l st) = unscheduled_courses st.
Proof.
  unfold commit.
  now destruct (record_students course d l (student_exam_dates st)
                  (st_schedule st)).
Qed.

(** A scan keeps the calendar invariant. *)
Lemma try_dates_calendars (dates_to_try : list Z) (st : sched_state) :
  NoDup (map fst student_courses) ->
  calendars_ok (student_exam_dates st) ->
  calendars_ok
    (student_exam_dates
       (fst (try_dates cfg student_courses course dates_to_try st))).
Proof.
  intros Hnd Hok.
  destruct (try_dates_cases dates_to_try st) as (ds & ks & _ & Hs & Hres).
  assert (Hok' : calendars_ok (student_exam_dates (daily_scanned st ds ks))).
  { simpl. apply Forall_app. split; [assumption|].
    apply Forall_forall. intros [s l] Hin. apply in_map_iff in Hin.
    destruct Hin as (x & [= <- <-] & _). apply calendar_ok_nil. }
  destruct Hres as [->|(d & _ & -> & _ & Hg)]; [exact Hok'|].
  cbn [fst]. rewrite commit_student_exam_dates.
  apply record_students_calendars.
  - now apply NoDup_keys_filter.
  - exact Hok'.
  - intros s Hin. rewrite Hs. now apply Hg.
Qed.

(** Giving a course a date adds at most one course to that day and none
    to another. *)
Lemma courses_on_day_set (d d' : Z) (c : string) (cd : list (string * Z)) :
  courses_on_day (fun x => x) d' (dict_set String.eqb c d cd)
  <= courses_on_day (fun x => x) d' cd + (if d =? d' then 1 else 0).
Proof.
  unfold courses_on_day.
  induction cd as [|[c0 d0] cd IH]; simpl.
  - destruct (d =? d'); simpl; lia.
  - destruct (String.eqb c c0); simpl.
    + destruct (d =? d'), (d0 =? d'); simpl length; lia.
    + destruct (d0 =? d'); simpl length; lia.
Qed.

Lemma courses_on_day_nonneg {S : Type} (day_of : S -> Z) (d : Z)
  (cd : list (string * S)) :
  0 <= courses_on_day day_of d cd.
Proof. unfold courses_on_day. lia. Qed.

(** A scan keeps the day-load bound. *)
Lemma try_dates_day_load (dates_to_try : list Z) (st : sched_state) :
  day_load_ok (fun x => x) MAX_EXAMS_PER_DAY
    (course_dates st) (exams_per_day st) ->
  let st' := fst (try_dates cfg student_courses course dates_to_try st) in
  day_load_ok (fun x => x) MAX_EXAMS_PER_DAY
    (course_dates st') (exams_per_day st').
Proof.
  intros Hok st'. subst st'.
  destruct (try_dates_cases dates_to_try st) as (ds & ks & He & _ & Hres).
  destruct Hres as [->|(d & _ & -> & Hroom & _)]; cbn [fst]; intro d'.
  - rewrite He. simpl. apply Hok.
  - rewrite commit_course_dates, commit_exams_per_day.
    destruct (Hok d') as [H1 H2].
    pose proof (courses_on_day_set d d' course (course_dates st)) as Hset.
    simpl course_dates.
    destruct (Z.eq_dec d' d) as [->|Hne].
    + rewrite (dd_update_value_same _ Z_eqb_eq), He.
      rewrite Z.eqb_refl in Hset. lia.
    + rewrite (dd_update_value_other _ Z_eqb_eq), He by assumption.
      assert (E : (d =? d') = false) by (apply Z.eqb_neq; congruence).
      rewrite E in Hset. lia.
Qed.

(** The body of the loop over the courses changes the scheduling state as
    its scan does; it adds the course to [unscheduled_courses] when the
    scan found no date. *)
Lemma schedule_course_fields (dates_to_try : list Z) (st : sched_state) :
  let r := try_dates cfg student_courses course dates_to_try st in
  let st' := schedule_course cfg student_courses course dates_to_try st in
  st_schedule st' = st_schedule (fst r)
  /\ course_dates st' = course_dates (fst r)
  /\ student_exam_dates st' = student_exam_dates (fst r)
  /\ exams_per_day st' = exams_per_day (fst r)
  /\ unscheduled_courses st'
     = if snd r then unscheduled_courses (fst r)
       else unscheduled_courses (fst r) ++ [course].
Proof.
  unfold schedule_course.
  destruct (try_dates cfg student_courses course dates_to_try st)
    as [st1 found].
  destruct found; simpl; auto.
Qed.

End DailyScheduler.

Section DailyRun.

Import Py ScheduleGenerator Spec Reach.

Variable cfg : config.

Lemma student_courses_of_NoDup (students : list (string * student)) :
  NoDup (map fst (student_courses_of students)).
Proof.
  unfold student_courses_of.
  assert (H : forall d, NoDup (map fst d) ->
                        NoDup (map fst
                                 (fold_left
                                    (fun d (s : string * student) =>
                                       dict_set String.eqb (fst s)
                                         (courses (snd s)) d)
                                    students d))).
  { induction students as [|s students IH]; simpl; intros d Hd; [assumption|].
    apply IH. now apply (dict_set_NoDup _ string_eqb_eq). }
  apply H. constructor.
Qed.

(** Every state of a run satisfies the calendar invariant and the
    day-load bound. *)
Lemma daily_invariants (student_courses : list (string * list string))
  (st : sched_state) :
  NoDup (map fst student_courses) ->
  daily cfg student_courses st ->
  calendars_ok (MIN_DAYS_BETWEEN_EXAMS cfg) (student_exam_dates st).
Proof.
  intros Hnd Hreach. induction Hreach as [|st c ds Hr IH|st c ds Hr IH].
  - constructor.
  - destruct (schedule_course_fields cfg student_courses c ds st)
      as (_ & _ & -> & _). now apply try_dates_calendars.
  - now apply try_dates_calendars.
Qed.

Lemma daily_day_load (student_courses : list (string * list string))
  (st : sched_state) :
  daily cfg student_courses st ->
  day_load_ok (fun x => x) MAX_EXAMS_PER_DAY
    (course_dates st) (exams_per_day st).
Proof.
  intro Hreach. induction Hreach as [|st c ds Hr IH|st c ds Hr IH].
  - intro d. unfold courses_on_day, MAX_EXAMS_PER_DAY. simpl.
    unfold dict_get_default. simpl. lia.
  - destruct (schedule_course_fields cfg student_courses c ds st)
      as (_ & -> & _ & -> & _). now apply try_dates_day_load.
  - now apply try_dates_day_load.
Qed.

Lemma schedule_courses_daily (shuffle : nat -> list Z -> list Z)
  (student_courses : list (string * list string)) (todo : list string) :
  forall n st,
    daily cfg student_courses st ->
    daily cfg student_courses
      (schedule_courses cfg shuffle student_courses n todo st).
Proof.
  induction todo as [|c todo IH]; simpl; intros n st Hr; [assumption|].
  apply IH. now constructor.
Qed.

Lemma final_state_daily (shuffle : nat -> list Z -> list Z)
  (data : api_data) :
  daily cfg (student_courses_of (students_full_details data))
    (final_state cfg shuffle data).
Proof. apply schedule_courses_daily. constructor. Qed.

(** *** The verifier on calendars that satisfy the invariant *)

Lemma gap_conflicts_none (sid : string) (cd : list (string * Z))
  (sc : list (string * list string)) (l : list Z) :
  (forall a b, In a l -> In b l ->
               ~ (0 < b - a < MIN_DAYS_BETWEEN_EXAMS cfg)) ->
  gap_conflicts cfg sid cd sc l = [].
Proof.
  induction l as [|d1 l IH]; [reflexivity|].
  intro H. destruct l as [|d2 l]; [reflexivity|].
  cbn [gap_conflicts].
  destruct ((0 <? d2 - d1) && (d2 - d1 <? MIN_DAYS_BETWEEN_EXAMS cfg)) eqn:E.
  - apply andb_true_iff in E. rewrite !Z.ltb_lt in E.
    exfalso. apply (H d1 d2); [now left|right; now left|exact E].
  - simpl app. apply IH. intros a b Ha Hb. apply H; now right.
Qed.

Lemma calendar_ok_no_gap (l : list Z) (a b : Z) :
  calendar_ok (MIN_DAYS_BETWEEN_EXAMS cfg) l ->
  In a l -> In b l -> ~ (0 < b - a < MIN_DAYS_BETWEEN_EXAMS cfg).
Proof.
  intros Hok Ha Hb.
  destruct (ForallOrdPairs_In Hok a b Ha Hb) as [->|[[_ H]|[_ H]]]; lia.
Qed.

Lemma check_final_schedule_conflicts_none
  (sed : list (string * list Z)) (cd : list (string * Z))
  (sc : list (string * list string)) :
  calendars_ok (MIN_DAYS_BETWEEN_EXAMS cfg) sed ->
  check_final_schedule_conflicts cfg sed cd sc = [].
Proof.
  intro Hok.
  assert (Hall : flat_map
                   (fun s => gap_conflicts cfg (fst s) cd sc
                               (sorted_set (snd s))) sed = []).
  { induction Hok as [|x l Hx Hl IH]; [reflexivity|].
    cbn [flat_map]. rewrite IH, app_nil_r.
    apply gap_conflicts_none. intros a b Ha Hb.
    apply (calendar_ok_no_gap (snd x));
      [exact Hx|now apply sorted_set_In|now apply sorted_set_In]. }
  unfold check_final_schedule_conflicts.
  destruct sed as [|e sed]; [reflexivity|].
  destruct cd as [|c cd]; [reflexivity|].
  destruct sc as [|s sc]; [reflexivity|].
  exact Hall.
Qed.

End DailyRun.

(** ** The date-only scheduler: the claims *)

Section DailyClaims.

Import Py ScheduleGenerator Spec Reach.

(** A course that the scan leaves unscheduled changes nothing but the
    list of unscheduled courses, up to the entries with default values
    that reading the [defaultdict]s adds. *)
Lemma daily_unscheduled_attempt (cfg : config)
  (student_courses : list (string * list string)) (course : string)
  (dates_to_try : list Z) (st : sched_state) :
  snd (try_dates cfg student_courses course dates_to_try st) = false ->
  let st' := schedule_course cfg student_courses course dates_to_try st in
  st_schedule st' = st_schedule st
  /\ course_dates st' = course_dates st
  /\ (forall d, dict_get_default Z.eqb 0 d (exams_per_day st')
                = dict_get_default Z.eqb 0 d (exams_per_day st))
  /\ (forall s, dict_get_default String.eqb [] s (student_exam_dates st')
                = dict_get_default String.eqb [] s (student_exam_dates st))
  /\ unscheduled_courses st' = unscheduled_courses st ++ [course]
  /\ (exists ds, exams_per_day st'
                 = exams_per_day st ++ map (fun d => (d, 0)) ds)
  /\ (exists ks, student_exam_dates st'
                 = student_exam_dates st ++ map (fun s => (s, [])) ks).
Proof.
  intros Hfail st'. subst st'.
  destruct (schedule_course_fields cfg student_courses course dates_to_try st)
    as (-> & -> & -> & -> & ->).
  destruct (try_dates_cases cfg student_courses course dates_to_try st)
    as (ds & ks & He & Hs & [Hres|(d & _ & Hres & _)]);
    rewrite Hres in *; [|discriminate].
  cbn [fst snd]. repeat split; auto.
  - now exists ds.
  - now exists ks.
Qed.

Lemma dates_from_nil (n : nat) :
  forall start,
    (forall d, start <= d < start + Z.of_nat n -> 5 <= weekday d) ->
    dates_from true n start = [].
Proof.
  induction n as [|n IH]; intros start H; [reflexivity|].
  cbn [dates_from]. rewrite IH by (intros d Hd; apply H; lia).
  assert (E : (5 <=? weekday start) = true) by (apply Z.leb_le, H; lia).
  now rewrite E.
Qed.

Lemma available_dates_nil (cfg : config) :
  SPECIFIC_END_DATE cfg < SPECIFIC_START_DATE cfg
  \/ (skip_weekends cfg = true
      /\ forall d, SPECIFIC_START_DATE cfg <= d <= SPECIFIC_END_DATE cfg ->
                   5 <= weekday d) ->
  available_dates cfg = [].
Proof.
  unfold available_dates. intros [Hlt|[Hskip Hwe]].
  - replace (Z.to_nat (SPECIFIC_END_DATE cfg - SPECIFIC_START_DATE cfg + 1))
      with O by lia. reflexivity.
  - rewrite Hskip. apply dates_from_nil. intros d Hd. apply Hwe. lia.
Qed.

Lemma dict_set_not_nil {V : Type} (k : string) (v : V)
  (d : list (string * V)) :
  dict_set String.eqb k v d <> [].
Proof. destruct d as [|[k0 v0] d]; simpl; [|destruct (String.eqb k k0)]; discriminate. Qed.

Lemma student_courses_of_not_nil (students : list (string * student)) :
  students <> [] -> student_courses_of students <> [].
Proof.
  assert (H : forall (l : list (string * student)) d,
             d <> [] ->
             fold_left
               (fun d (s : string * student) =>
                  dict_set String.eqb (fst s) (courses (snd s)) d)
               l d <> []).
  { induction l as [|x l IH]; simpl; intros d Hd; [exact Hd|].
    apply IH. apply dict_set_not_nil. }
  unfold student_courses_of. intro Hne.
  destruct students as [|s students]; [contradiction|]. simpl.
  apply H. discriminate.
Qed.

(** With courses, students and a date in the window, the scheduler
    returns a schedule. *)
Lemma generate_schedule_locally_returns (cfg : config)
  (shuffle : nat -> list Z -> list Z) (data : api_data) :
  all_course_codes data <> [] ->
  students_full_details data <> [] ->
  available_dates cfg <> [] ->
  exists response,
    generate_schedule_locally cfg shuffle data
    = Some (response,
            student_exam_dates (final_state cfg shuffle data),
            course_dates (final_state cfg shuffle data)).
Proof.
  intros Hc Hs Hd. unfold generate_schedule_locally.
  apply student_courses_of_not_nil in Hs.
  destruct (all_course_codes data); [contradiction|].
  destruct (student_courses_of (students_full_details data));
    [contradiction|].
  destruct (available_dates cfg); [contradiction|].
  eauto.
Qed.

(** C8. When the window has no usable date, because it ends before it
    starts or because all its days are Saturdays and Sundays while
    weekends are skipped, [generate_schedule_locally] returns the triple
    of [None]s before the loop over the courses, and [main] stops
    without a schedule: no course gets a date. *)
Theorem C8_empty_window_stops_the_run (cfg : config)
  (shuffle : nat -> list Z -> list Z) (data : api_data) :
  SPECIFIC_END_DATE cfg < SPECIFIC_START_DATE cfg
  \/ (skip_weekends cfg = true
      /\ forall d, SPECIFIC_START_DATE cfg <= d <= SPECIFIC_END_DATE cfg ->
                   5 <= weekday d) ->
  available_dates cfg = []
  /\ generate_schedule_locally cfg shuffle data = None
  /\ forall local_only api_key answer course_info students sd,
       main cfg shuffle local_only api_key answer course_info students
       <> Finished sd.
Proof.
  intro Hwin.
  assert (Hgen : forall key data',
             generate_schedule_locally
               {| DEEPSEEK_API_KEY := key;
                  MIN_DAYS_BETWEEN_EXAMS := MIN_DAYS_BETWEEN_EXAMS cfg;
                  skip_weekends := skip_weekends cfg;
                  SPECIFIC_START_DATE := SPECIFIC_START_DATE cfg;
                  SPECIFIC_END_DATE := SPECIFIC_END_DATE cfg |}
               shuffle data' = None).
  { intros key data'. unfold generate_schedule_locally.
    rewrite available_dates_nil by exact Hwin.
    destruct (all_course_codes data'); [reflexivity|].
    now destruct (student_courses_of (students_full_details data')). }
  split; [now apply available_dates_nil|]. split.
  - destruct cfg. apply Hgen.
  - intros local_only api_key answer course_info students sd.
    unfold main.
    destruct course_info as [|ci course_info]; [discriminate|].
    destruct students as [|s students]; [discriminate|].
    destruct (prepare_data_for_api (s :: students) (ci :: course_info));
      [|discriminate].
    destruct (local_only || _).
    + rewrite Hgen. discriminate.
    + unfold call_deepseek_api. rewrite Hgen.
      destruct (String.eqb _ ""); [discriminate|].
      destruct answer; discriminate.
Qed.

End DailyClaims.

(** ** The time-slot scheduler *)

Section SlottedScheduler.

Import Py FakeData Spec Reach.

Variable cfg : config.
Variable student_courses : list (string * list string).
Variable course : string.

Lemma slotted_scanned_nil (st : sched_state) : slotted_scanned st [] = st.
Proof. destruct st. unfold slotted_scanned. simpl. now rewrite app_nil_r. Qed.

Lemma slotted_scanned_twice (st : sched_state) (ds ds' : list Z) :
  slotted_scanned (slotted_scanned st ds) ds' = slotted_scanned st (ds ++ ds').
Proof. unfold slotted_scanned. simpl. now rewrite map_app, app_assoc. Qed.

(** A scan of slots either rejects every slot and leaves the state it
    began with, up to zero counters, or commits the course on a slot whose
    day is not full. *)
Lemma try_slots_cases (slots_to_try : list (Z * string)) :
  forall st,
  exists ds,
    (forall d,
        dict_get_default Z.eqb 0 d (exams_per_day (slotted_scanned st ds))
        = dict_get_default Z.eqb 0 d (exams_per_day st))
    /\ (try_slots cfg student_courses course slots_to_try st
        = (slotted_scanned st ds, false)
        \/ exists slot,
             In slot slots_to_try
             /\ try_slots cfg student_courses course slots_to_try st
                = (commit course slot
                     (course_students course student_courses)
                     (slotted_scanned st ds), true)
             /\ dict_get_default Z.eqb 0 (fst slot) (exams_per_day st) < 5).
Proof.
  induction slots_to_try as [|slot slots IH]; intro st.
  - exists []. rewrite slotted_scanned_nil. split; auto.
  - cbn [try_slots].
    destruct (dd_touch_extends Z.eqb 0 (fst slot) (exams_per_day st))
      as [ds0 Hds0].
    assert (Hepd : forall d', dict_get_default Z.eqb 0 d'
                                (dd_touch Z.eqb 0 (fst slot) (exams_per_day st))
                              = dict_get_default Z.eqb 0 d' (exams_per_day st))
      by (intro d'; apply (dd_touch_value _ Z_eqb_eq)).
    rewrite Hds0 in *.
    change {| schedule := schedule st;
              course_dates := course_dates st;
              student_exam_dates := student_exam_dates st;
              exams_per_day := exams_per_day st ++ map (fun x => (x, 0)) ds0;
              unscheduled_courses := unscheduled_courses st |}
      with (slotted_scanned st ds0).
    destruct (IH (slotted_scanned st ds0)) as (ds & He & Hres).
    rewrite slotted_scanned_twice in *.
    assert (He' : forall d,
               dict_get_default Z.eqb 0 d
                 (exams_per_day (slotted_scanned st (ds0 ++ ds)))
               = dict_get_default Z.eqb 0 d (exams_per_day st))
      by (intro d'; rewrite He; simpl; apply Hepd).
    assert (Hrest :
              exists ds1,
                (forall d,
                    dict_get_default Z.eqb 0 d
                      (exams_per_day (slotted_scanned st ds1))
                    = dict_get_default Z.eqb 0 d (exams_per_day st))
                /\ (try_slots cfg student_courses course slots
                      (slotted_scanned st ds0)
                    = (slotted_scanned st ds1, false)
                    \/ exists slot0,
                         In slot0 (slot :: slots)
                         /\ try_slots cfg student_courses course slots
                              (slotted_scanned st ds0)
                            = (commit course slot0
                                 (course_students course student_courses)
                                 (slotted_scanned st ds1), true)
                         /\ dict_get_default Z.eqb 0 (fst slot0)
                              (exams_per_day st) < 5)).
    { exists (ds0 ++ ds). split; [exact He'|].
      destruct Hres as [Hres|(slot0 & Hin & Hres & Hroom)].
      - now left.
      - right. exists slot0. split; [now right|]. split; [exact Hres|].
        simpl in Hroom. now rewrite Hepd in Hroom. }
    destruct (5 <=? dict_get_default Z.eqb 0 (fst slot)
                      (exams_per_day st ++ map (fun x => (x, 0)) ds0))
      eqn:Hfull; [exact Hrest|].
    apply Z.leb_gt in Hfull. rewrite Hepd in Hfull.
    destruct (check_students cfg (fst slot)
                (course_students course student_courses)
                (student_exam_dates (slotted_scanned st ds0)));
      [exact Hrest|].
    exists ds0. split; [intro d'; simpl; apply Hepd|].
    right. exists slot. split; [now left|]. split; [reflexivity|exact Hfull].
Qed.

Lemma courses_on_day_set_slot (slot : Z * string) (d' : Z) (c : string)
  (cd : list (string * (Z * string))) :
  courses_on_day fst d' (dict_set String.eqb c slot cd)
  <= courses_on_day fst d' cd + (if fst slot =? d' then 1 else 0).
Proof.
  unfold courses_on_day.
  induction cd as [|[c0 s0] cd IH]; simpl.
  - destruct (fst slot =? d'); simpl; lia.
  - destruct (String.eqb c c0); simpl.
    + destruct (fst slot =? d'), (fst s0 =? d'); simpl length; lia.
    + destruct (fst s0 =? d'); simpl length; lia.
Qed.

(** A scan of slots keeps the day-load bound. *)
Lemma try_slots_day_load (slots_to_try : list (Z * string))
  (st : sched_state) :
  day_load_ok fst 5 (course_dates st) (exams_per_day st) ->
  let st' := fst (try_slots cfg student_courses course slots_to_try st) in
  day_load_ok fst 5 (course_dates st') (exams_per_day st').
Proof.
  intros Hok st'. subst st'.
  destruct (try_slots_cases slots_to_try st) as (ds & He & Hres).
  destruct Hres as [->|(slot & _ & -> & Hroom)]; cbn [fst]; intro d'.
  - rewrite He. simpl. apply Hok.
  - destruct (Hok d') as [H1 H2].
    pose proof (courses_on_day_set_slot slot d' course (course_dates st))
      as Hset.
    cbn [commit course_dates exams_per_day slotted_scanned].
    fold (exams_per_day (slotted_scanned st ds)).
    destruct (Z.eq_dec d' (fst slot)) as [->|Hne].
    + rewrite (dd_update_value_same _ Z_eqb_eq), He.
      rewrite Z.eqb_refl in Hset. lia.
    + rewrite (dd_update_value_other _ Z_eqb_eq), He by assumption.
      assert (E : (fst slot =? d') = false) by (apply Z.eqb_neq; congruence).
      rewrite E in Hset. lia.
Qed.

Lemma slotted_schedule_course_fields (slots_to_try : list (Z * string))
  (st : sched_state) :
  let r := try_slots cfg student_courses course slots_to_try st in
  let st' := schedule_course cfg student_courses course slots_to_try st in
  schedule st' = schedule (fst r)
  /\ course_dates st' = course_dates (fst r)
  /\ student_exam_dates st' = student_exam_dates (fst r)
  /\ exams_per_day st' = exams_per_day (fst r)
  /\ unscheduled_courses st'
     = if snd r then unscheduled_courses (fst r)
       else unscheduled_courses (fst r) ++ [course].
Proof.
  unfold schedule_course.
  destruct (try_slots cfg student_courses course slots_to_try st)
    as [st1 found].
  destruct found; simpl; auto.
Qed.

(** A course that the scan of slots leaves unscheduled changes nothing
    but the list of unscheduled courses, up to zero counters. *)
Lemma slotted_unscheduled_attempt (slots_to_try : list (Z * string))
  (st : sched_state) :
  snd (try_slots cfg student_courses course slots_to_try st) = false ->
  let st' := schedule_course cfg student_courses course slots_to_try st in
  schedule st' = schedule st
  /\ course_dates st' = course_dates st
  /\ (forall d, dict_get_default Z.eqb 0 d (exams_per_day st')
                = dict_get_default Z.eqb 0 d (exams_per_day st))
  /\ student_exam_dates st' = student_exam_dates st
  /\ unscheduled_courses st' = unscheduled_courses st ++ [course]
  /\ (exists ds, exams_per_day st'
                 = exams_per_day st ++ map (fun d => (d, 0)) ds).
Proof.
  intros Hfail st'. subst st'.
  destruct (slotted_schedule_course_fields slots_to_try st)
    as (-> & -> & -> & -> & ->).
  destruct (try_slots_cases slots_to_try st)
    as (ds & He & [Hres|(d & _ & Hres & _)]);
    rewrite Hres in *; [|discriminate].
  cbn [fst snd]. repeat split; auto.
  now exists ds.
Qed.

End SlottedScheduler.

Lemma slotted_day_load (cfg : FakeData.config)
  (student_courses : list (string * list string))
  (st : FakeData.sched_state) :
  Reach.slotted cfg student_courses st ->
  Spec.day_load_ok fst 5 (FakeData.course_dates st)
    (FakeData.exams_per_day st).
Proof.
  intro Hreach. induction Hreach as [|st c ds Hr IH|st c ds Hr IH].
  - intro d. unfold Spec.courses_on_day. simpl.
    unfold Py.dict_get_default. simpl. lia.
  - destruct (slotted_schedule_course_fields cfg student_courses c ds st)
      as (_ & -> & _ & -> & _). now apply try_slots_day_load.
  - now apply try_slots_day_load.
Qed.

Lemma schedule_courses_slotted (cfg : FakeData.config)
  (shuffle : nat -> list (Z * string) -> list (Z * string))
  (student_courses : list (string * list string)) (todo : list string) :
  forall n st,
    Reach.slotted cfg student_courses st ->
    Reach.slotted cfg student_courses
      (FakeData.schedule_courses cfg shuffle student_courses n todo st).
Proof.
  induction todo as [|c todo IH]; simpl; intros n st Hr; [assumption|].
  apply IH. now constructor.
Qed.

(** ** The day load and the unscheduled courses, for both schedulers *)

(** A commit happens on a day that is not full and adds one to the
    counter of that day only. *)
Lemma daily_commit_counter (cfg : ScheduleGenerator.config)
  (student_courses : list (string * list string)) (course : string)
  (dates_to_try : list Z) (st st' : ScheduleGenerator.sched_state) :
  ScheduleGenerator.try_dates cfg student_courses course dates_to_try st
  = (st', true) ->
  exists d,
    In d dates_to_try
    /\ Py.dict_get_default Z.eqb 0 d (ScheduleGenerator.exams_per_day st)
       < ScheduleGenerator.MAX_EXAMS_PER_DAY
    /\ forall d',
         Py.dict_get_default Z.eqb 0 d' (ScheduleGenerator.exams_per_day st')
         = Py.dict_get_default Z.eqb 0 d' (ScheduleGenerator.exams_per_day st)
           + (if d' =? d then 1 else 0).
Proof.
  intro Hres.
  destruct (try_dates_cases cfg student_courses course dates_to_try st)
    as (ds & ks & He & _ & [Hfail|(d & Hin & Hok & Hroom & _)]).
  - rewrite Hfail in Hres. discriminate.
  - rewrite Hok in Hres. injection Hres as <-.
    exists d. split; [assumption|]. split; [assumption|].
    intro d'. rewrite commit_exams_per_day.
    destruct (Z.eq_dec d' d) as [->|Hne].
    + rewrite (dd_update_value_same _ Z_eqb_eq), He, Z.eqb_refl. reflexivity.
    + rewrite (dd_update_value_other _ Z_eqb_eq), He by assumption.
      assert (E : (d' =? d) = false) by now apply Z.eqb_neq.
      rewrite E. lia.
Qed.

Lemma slotted_commit_counter (cfg : FakeData.config)
  (student_courses : list (string * list string)) (course : string)
  (slots_to_try : list (Z * string)) (st st' : FakeData.sched_state) :
  FakeData.try_slots cfg student_courses course slots_to_try st
  = (st', true) ->
  exists slot,
    In slot slots_to_try
    /\ Py.dict_get_default Z.eqb 0 (fst slot) (FakeData.exams_per_day st) < 5
    /\ forall d',
         Py.dict_get_default Z.eqb 0 d' (FakeData.exams_per_day st')
         = Py.dict_get_default Z.eqb 0 d' (FakeData.exams_per_day st)
           + (if d' =? fst slot then 1 else 0).
Proof.
  intro Hres.
  destruct (try_slots_cases cfg student_courses course slots_to_try st)
    as (ds & He & [Hfail|(slot & Hin & Hok & Hroom)]).
  - rewrite Hfail in Hres. discriminate.
  - rewrite Hok in Hres. injection Hres as <-.
    exists slot. split; [assumption|]. split; [assumption|].
    intro d'. cbn [FakeData.commit FakeData.exams_per_day].
    destruct (Z.eq_dec d' (fst slot)) as [->|Hne].
    + rewrite (dd_update_value_same _ Z_eqb_eq), He, Z.eqb_refl. reflexivity.
    + rewrite (dd_update_value_other _ Z_eqb_eq), He by assumption.
      assert (E : (d' =? fst slot) = false) by now apply Z.eqb_neq.
      rewrite E. lia.
Qed.

(** C2. In every state that a run of either scheduler goes through, and
    for every date d, the number of courses committed to d is at most the
    counter of d, which is at most MAX_EXAMS_PER_DAY (5): a scan commits
    only on a date whose counter is below the maximum, and a commit adds
    one to the counter of the committed date and leaves the others.  The
    state in which a run ends is one of these states. *)
Theorem C2_day_load_never_exceeds_maximum :
  (forall cfg student_courses st,
      Reach.daily cfg student_courses st ->
      Spec.day_load_ok (fun x => x) ScheduleGenerator.MAX_EXAMS_PER_DAY
        (ScheduleGenerator.course_dates st)
        (ScheduleGenerator.exams_per_day st))
  /\ (forall cfg student_courses course dates_to_try st st',
         ScheduleGenerator.try_dates cfg student_courses course dates_to_try st
         = (st', true) ->
         exists d,
           In d dates_to_try
           /\ Py.dict_get_default Z.eqb 0 d (ScheduleGenerator.exams_per_day st)
              < ScheduleGenerator.MAX_EXAMS_PER_DAY
           /\ forall d',
                Py.dict_get_default Z.eqb 0 d'
                  (ScheduleGenerator.exams_per_day st')
                = Py.dict_get_default Z.eqb 0 d'
                    (ScheduleGenerator.exams_per_day st)
                  + (if d' =? d then 1 else 0))
  /\ (forall cfg shuffle data,
         Reach.daily cfg
           (ScheduleGenerator.student_courses_of
              (ScheduleGenerator.students_full_details data))
           (ScheduleGenerator.final_state cfg shuffle data))
  /\ (forall cfg student_courses st,
         Reach.slotted cfg student_courses st ->
         Spec.day_load_ok fst 5
           (FakeData.course_dates st) (FakeData.exams_per_day st))
  /\ (forall cfg student_courses course slots_to_try st st',
         FakeData.try_slots cfg student_courses course slots_to_try st
         = (st', true) ->
         exists slot,
           In slot slots_to_try
           /\ Py.dict_get_default Z.eqb 0 (fst slot) (FakeData.exams_per_day st)
              < 5
           /\ forall d',
                Py.dict_get_default Z.eqb 0 d' (FakeData.exams_per_day st')
                = Py.dict_get_default Z.eqb 0 d' (FakeData.exams_per_day st)
                  + (if d' =? fst slot then 1 else 0))
  /\ (forall cfg shuffle data st,
         FakeData.final_state cfg shuffle data = Some st ->
         Reach.slotted cfg (FakeData.student_courses_of (FakeData.students data))
           st).
Proof.
  split; [exact daily_day_load|].
  split; [exact daily_commit_counter|].
  split; [exact final_state_daily|].
  split; [exact slotted_day_load|].
  split; [exact slotted_commit_counter|].
  intros cfg shuffle data st H. unfold FakeData.final_state in H.
  destruct (FakeData.available_datetimes cfg); [discriminate|].
  injection H as <-. apply schedule_courses_slotted. constructor.
Qed.

(** The bound in the state that course A reaches from the initial state
    when Monday 26 and Tuesday 27 May 2025 are tried. *)
Lemma C2_day_load_witness :
  Spec.day_load_ok (fun x => x) ScheduleGenerator.MAX_EXAMS_PER_DAY
    (ScheduleGenerator.course_dates
       (ScheduleGenerator.schedule_course Examples.cfg_gap2
          [("s1", ["A"; "B"])]%string "A" [739397; 739398]
          ScheduleGenerator.initial_state))
    (ScheduleGenerator.exams_per_day
       (ScheduleGenerator.schedule_course Examples.cfg_gap2
          [("s1", ["A"; "B"])]%string "A" [739397; 739398]
          ScheduleGenerator.initial_state)).
Proof.
  apply (proj1 C2_day_load_never_exceeds_maximum Examples.cfg_gap2
           [("s1", ["A"; "B"])]%string).
  apply Reach.daily_course. apply Reach.daily_init.
Defined.

(** C10. When the scan finds no acceptable slot for a course, the body of
    the loop leaves the committed schedule list and the course-date map
    as they were, leaves the counter of every day and the exam-date list
    of every student as they were, and appends the course to the list of
    unscheduled courses.  The two [defaultdict]s of the date-only
    scheduler may have gained entries with the default value (a zero
    counter, an empty list) for the days and students that were looked
    at; in the time-slot scheduler the exam-date dict is not touched. *)
Theorem C10_unscheduled_course_leaves_state :
  (forall cfg student_courses course dates_to_try st,
      snd (ScheduleGenerator.try_dates cfg student_courses course
             dates_to_try st) = false ->
      let st' :=
        ScheduleGenerator.schedule_course cfg student_courses course
          dates_to_try st in
      ScheduleGenerator.st_schedule st' = ScheduleGenerator.st_schedule st
      /\ ScheduleGenerator.course_dates st' = ScheduleGenerator.course_dates st
      /\ (forall d,
             Py.dict_get_default Z.eqb 0 d (ScheduleGenerator.exams_per_day st')
             = Py.dict_get_default Z.eqb 0 d
                 (ScheduleGenerator.exams_per_day st))
      /\ (forall s,
             Py.dict_get_default String.eqb [] s
               (ScheduleGenerator.student_exam_dates st')
             = Py.dict_get_default String.eqb [] s
                 (ScheduleGenerator.student_exam_dates st))
      /\ ScheduleGenerator.unscheduled_courses st'
         = ScheduleGenerator.unscheduled_courses st ++ [course]
      /\ (exists ds,
             ScheduleGenerator.exams_per_day st'
             = ScheduleGenerator.exams_per_day st ++ map (fun d => (d, 0)) ds)
      /\ (exists ks,
             ScheduleGenerator.student_exam_dates st'
             = ScheduleGenerator.student_exam_dates st
                 ++ map (fun s => (s, [])) ks))
  /\ (forall cfg student_courses course slots_to_try st,
         snd (FakeData.try_slots cfg student_courses course slots_to_try st)
         = false ->
         let st' :=
           FakeData.schedule_course cfg student_courses course slots_to_try
             st in
         FakeData.schedule st' = FakeData.schedule st
         /\ FakeData.course_dates st' = FakeData.course_dates st
         /\ (forall d,
                Py.dict_get_default Z.eqb 0 d (FakeData.exams_per_day st')
                = Py.dict_get_default Z.eqb 0 d (FakeData.exams_per_day st))
         /\ FakeData.student_exam_dates st' = FakeData.student_exam_dates st
         /\ FakeData.unscheduled_courses st'
            = FakeData.unscheduled_courses st ++ [course]
         /\ (exists ds,
                FakeData.exams_per_day st'
                = FakeData.exams_per_day st ++ map (fun d => (d, 0)) ds)).
Proof.
  split.
  - exact daily_unscheduled_attempt.
  - exact slotted_unscheduled_attempt.
Qed.

(** Course A, taken by s1, finds Monday taken by s1's exam in B and is
    left unscheduled: the schedule, the course dates and the calendars
    are those of before. *)
Lemma C10_unscheduled_witness :
  let st' :=
    ScheduleGenerator.schedule_course Examples.cfg_gap2
      [("s1", ["A"; "B"])]%string "A" [739397] Examples.st_monday_taken in
  ScheduleGenerator.st_schedule st'
  = ScheduleGenerator.st_schedule Examples.st_monday_taken
  /\ ScheduleGenerator.course_dates st'
     = ScheduleGenerator.course_dates Examples.st_monday_taken
  /\ ScheduleGenerator.unscheduled_courses st' = ["A"%string].
Proof.
  destruct (proj1 C10_unscheduled_course_leaves_state Examples.cfg_gap2
              [("s1", ["A"; "B"])]%string "A"%string [739397]
              Examples.st_monday_taken)
    as (H1 & H2 & _ & _ & H5 & _).
  - vm_compute. reflexivity.
  - split; [exact H1|]. split; [exact H2|exact H5].
Defined.

(** The witness of C8. *)
Lemma C8_weekend_window_witness :
  ScheduleGenerator.generate_schedule_locally Examples.cfg_weekend
    Examples.keep_order Examples.data_abc = None.
Proof.
  apply (C8_empty_window_stops_the_run Examples.cfg_weekend
           Examples.keep_order Examples.data_abc).
  right. split; [reflexivity|].
  intros d Hd. simpl in Hd.
  assert (Hcase : d = 739395 \/ d = 739396) by lia.
  destruct Hcase as [->| ->]; vm_compute; discriminate.
Defined.

(** C3 (what the code does). Line 407 appends to [schedule] inside the
    loop over the students of the course: with two students enrolled in A
    and none in B, both courses get a date, yet the schedule list holds
    two records for A and none for B, and the statistics count two
    scheduled courses. *)
Theorem C3_schedule_has_one_record_per_student :
  ScheduleGenerator.generate_schedule_locally
    ScheduleGenerator.default_config Examples.keep_order
    Examples.data_two_on_a
  = Some
      ({| ScheduleGenerator.schedule :=
            Some
              [{| ScheduleGenerator.course_code := Some "A"%string;
                  ScheduleGenerator.date :=
                    Some (ScheduleGenerator.ValidDate 739397) |};
               {| ScheduleGenerator.course_code := Some "A"%string;
                  ScheduleGenerator.date :=
                    Some (ScheduleGenerator.ValidDate 739397) |}];
          ScheduleGenerator.stats :=
            Some
              {| ScheduleGenerator.total_courses_requested := 2;
                 ScheduleGenerator.total_courses_scheduled := 2;
                 ScheduleGenerator.total_scheduling_days_used := 1;
                 ScheduleGenerator.total_students := 2;
                 ScheduleGenerator.unresolved_student_conflicts := 0;
                 ScheduleGenerator.courses_not_scheduled := 0 |};
          ScheduleGenerator.issues := [];
          ScheduleGenerator.final_conflicts := None |},
       [("s1", [739397]); ("s2", [739397])]%string,
       [("A", 739397); ("B", 739397)]%string).
Proof. vm_compute. reflexivity. Qed.

(** ** The conflict verifier *)

Section Verifier.

Import Py ScheduleGenerator Spec.

Variable cfg : config.
Variable course_dates : list (string * Z).
Variable student_courses : list (string * list string).

(** The records of a student are those of the adjacent pairs of the list
    whose gap is positive and below the minimum and on which a course of
    the student is found. *)
Lemma gap_conflicts_In (sid : string) (r : conflict) (l : list Z) :
  In r (gap_conflicts cfg sid course_dates student_courses l)
  <-> exists l1 d1 d2 l2,
        l = l1 ++ d1 :: d2 :: l2
        /\ 0 < d2 - d1 < MIN_DAYS_BETWEEN_EXAMS cfg
        /\ exams (gap_record course_dates student_courses sid d1 d2) <> []
        /\ r = gap_record course_dates student_courses sid d1 d2.
Proof.
  induction l as [|a l IH]; [|destruct l as [|b l]].
  - simpl. split; [tauto|]. intros (l1 & d1 & d2 & l2 & H & _).
    now destruct l1.
  - simpl. split; [tauto|]. intros (l1 & d1 & d2 & l2 & H & _).
    destruct l1 as [|x [|y l1]]; discriminate.
  - cbn [gap_conflicts]. rewrite in_app_iff, IH. split.
    + intros [Hhead|(l1 & d1 & d2 & l2 & Hl & Hrest)].
      * destruct ((0 <? b - a) && (b - a <? MIN_DAYS_BETWEEN_EXAMS cfg))
          eqn:E; [|destruct Hhead].
        apply andb_true_iff in E. rewrite !Z.ltb_lt in E.
        destruct (courses_on a sid course_dates student_courses
                  ++ courses_on b sid course_dates student_courses)
          as [|c cs] eqn:Ecs; [destruct Hhead|].
        destruct Hhead as [<-|[]].
        exists [], a, b, l. split; [reflexivity|]. split; [exact E|].
        unfold gap_record. cbn [exams]. rewrite Ecs.
        split; [discriminate|reflexivity].
      * exists (a :: l1), d1, d2, l2. rewrite Hl. split; [reflexivity|].
        exact Hrest.
    + intros (l1 & d1 & d2 & l2 & Hl & Hgap & Hex & ->).
      destruct l1 as [|x l1].
      * injection Hl as <- <- <-. left.
        assert (E : (0 <? b - a) && (b - a <? MIN_DAYS_BETWEEN_EXAMS cfg)
                    = true)
          by (apply andb_true_iff; rewrite !Z.ltb_lt; exact Hgap).
        rewrite E. unfold gap_record in *. cbn [exams] in Hex.
        destruct (courses_on a sid course_dates student_courses
                  ++ courses_on b sid course_dates student_courses)
          as [|c cs]; [contradiction|]. now left.
      * injection Hl as <- Hl. right.
        exists l1, d1, d2, l2. repeat split; auto; lia.
Qed.

End Verifier.

Section VerifierClaims.

Import Py ScheduleGenerator Spec.

(** C4 (as the code has it). The verifier sorts the distinct exam dates
    of every student of the exam-date map: dates that occur twice
    collapse before any comparison.  Its records are exactly the
    "Insufficient Days Conflict" records of the adjacent pairs of that
    list whose gap is positive and below MIN_DAYS_BETWEEN_EXAMS and on
    which it finds a course of the student, each with the courses of both
    dates; no record is about a single day.  When one of its three
    arguments is empty it returns no record. *)
Theorem C4_verifier_flags_gaps_between_distinct_dates (cfg : config)
  (sed : list (string * list Z)) (cd : list (string * Z))
  (sc : list (string * list string)) :
  (forall dates,
      StronglySorted Z.lt (sorted_set dates)
      /\ forall d, In d (sorted_set dates) <-> In d dates)
  /\ (forall r,
         In r (check_final_schedule_conflicts cfg sed cd sc) ->
         type r = "Insufficient Days Conflict"%string
         /\ date1 r < date2 r
         /\ exists dates l1 l2,
              In (student_id r, dates) sed
              /\ sorted_set dates = l1 ++ date1 r :: date2 r :: l2
              /\ 0 < date2 r - date1 r < MIN_DAYS_BETWEEN_EXAMS cfg
              /\ exams r <> []
              /\ r = gap_record cd sc (student_id r) (date1 r) (date2 r))
  /\ (sed <> [] -> cd <> [] -> sc <> [] ->
      forall sid dates l1 d1 d2 l2,
        In (sid, dates) sed ->
        sorted_set dates = l1 ++ d1 :: d2 :: l2 ->
        0 < d2 - d1 < MIN_DAYS_BETWEEN_EXAMS cfg ->
        exams (gap_record cd sc sid d1 d2) <> [] ->
        In (gap_record cd sc sid d1 d2)
          (check_final_schedule_conflicts cfg sed cd sc))
  /\ (sed = [] \/ cd = [] \/ sc = [] ->
      check_final_schedule_conflicts cfg sed cd sc = []).
Proof.
  split; [|split; [|split]].
  - intro dates. split; [apply sorted_set_increasing|].
    intro d. apply sorted_set_In.
  - intros r Hr.
    assert (Hin : In r (flat_map
                          (fun s => gap_conflicts cfg (fst s) cd sc
                                      (sorted_set (snd s))) sed)).
    { unfold check_final_schedule_conflicts in Hr.
      destruct sed; [destruct Hr|]. destruct cd; [destruct Hr|].
      destruct sc; [destruct Hr|]. exact Hr. }
    apply in_flat_map in Hin. destruct Hin as ([sid dates] & Hs & Hin).
    apply gap_conflicts_In in Hin.
    destruct Hin as (l1 & d1 & d2 & l2 & Hl & Hgap & Hex & ->).
    cbn [fst snd] in *.
    change (student_id (gap_record cd sc sid d1 d2)) with sid.
    change (date1 (gap_record cd sc sid d1 d2)) with d1.
    change (date2 (gap_record cd sc sid d1 d2)) with d2.
    split; [reflexivity|]. split; [lia|].
    exists dates, l1, l2.
    split; [exact Hs|]. split; [exact Hl|]. split; [exact Hgap|].
    split; [exact Hex|reflexivity].
  - intros Hsed Hcd Hsc sid dates l1 d1 d2 l2 Hs Hl Hgap Hex.
    unfold check_final_schedule_conflicts.
    destruct sed as [|e sed']; [contradiction|].
    destruct cd as [|c cd']; [contradiction|].
    destruct sc as [|s sc']; [contradiction|].
    apply in_flat_map. exists (sid, dates). split; [exact Hs|].
    apply gap_conflicts_In. exists l1, d1, d2, l2. cbn [fst snd]. auto.
  - unfold check_final_schedule_conflicts.
    intros [->|[->| ->]]; [reflexivity| |].
    + now destruct sed.
    + destruct sed; [reflexivity|]. now destruct cd.
Qed.

(** Exams on Monday and Tuesday with a minimum gap of two days: the
    record of the pair is reported. *)
Lemma C4_gap_record_witness :
  In (gap_record [("A", 739397); ("B", 739398)]%string
        [("s1", ["A"; "B"])]%string "s1" 739397 739398)
    (check_final_schedule_conflicts Examples.cfg_gap2
       [("s1", [739398; 739397])]%string
       [("A", 739397); ("B", 739398)]%string
       [("s1", ["A"; "B"])]%string).
Proof.
  apply (C4_verifier_flags_gaps_between_distinct_dates Examples.cfg_gap2
           [("s1", [739398; 739397])]%string
           [("A", 739397); ("B", 739398)]%string
           [("s1", ["A"; "B"])]%string)
    with (dates := [739398; 739397]) (l1 := []) (l2 := []).
  - discriminate.
  - discriminate.
  - discriminate.
  - now left.
  - vm_compute. reflexivity.
  - simpl. lia.
  - vm_compute. discriminate.
Defined.

(** C4 (the claim fails). A remote schedule puts the two courses of
    student s1 on the same Monday; the student's exam-date list holds
    that date twice, and the verifier returns no record at all. *)
Lemma C4_same_day_exams_raise_no_record :
  build_student_exam_dates_from_schedule
    [Examples.item "A" 739397; Examples.item "B" 739397] Examples.students_s1
  = [("s1"%string, [739397; 739397])]
  /\ check_final_schedule_conflicts Examples.cfg_gap2
       [("s1"%string, [739397; 739397])]
       [("A", 739397); ("B", 739397)]%string
       (student_courses_of Examples.students_s1) = [].
Proof. split; vm_compute; reflexivity. Qed.

(** C5 (as the code has it). [call_deepseek_api] falls back to the greedy
    scheduler exactly when no key is set, the request fails or the answer
    is not JSON; a JSON answer is returned as it is, with the exam dates
    built from it.  The final conflict check of [main] keeps the schedule
    it is given, whatever the verifier returns, and records the
    verifier's list in [final_conflicts] and its length in the
    statistics; with the local scheduler, [main] is this check applied to
    what [generate_schedule_locally] returned. *)
Theorem C5_conflicts_are_recorded_not_acted_upon (cfg : config)
  (shuffle : nat -> list Z -> list Z) :
  (forall answer data,
      DEEPSEEK_API_KEY cfg = ""%string
      \/ answer = RequestFailed \/ answer = NotJson ->
      call_deepseek_api cfg shuffle answer data
      = LocalTriple (generate_schedule_locally cfg shuffle data))
  /\ (forall sd data,
         DEEPSEEK_API_KEY cfg <> ""%string ->
         call_deepseek_api cfg shuffle (JsonObject sd) data
         = ApiPair sd
             (build_student_exam_dates_from_schedule
                (match schedule sd with Some l => l | None => [] end)
                (students_full_details data)))
  /\ (forall students sd sed cd out,
         final_conflict_check cfg students (Some sd) (Some sed) (Some cd)
         = Finished out ->
         schedule out = schedule sd
         /\ issues out = issues sd
         /\ final_conflicts out
            = Some (check_final_schedule_conflicts cfg sed cd
                      (student_courses_of students))
         /\ exists st,
              stats out = Some st
              /\ unresolved_student_conflicts st
                 = Z.of_nat
                     (length (check_final_schedule_conflicts cfg sed cd
                                (student_courses_of students))))
  /\ (forall students sd st sched sed cd,
         schedule sd = Some sched -> stats sd = Some st ->
         exists out,
           final_conflict_check cfg students (Some sd) (Some sed) (Some cd)
           = Finished out).
Proof.
  split; [|split; [|split]].
  - intros answer data H. unfold call_deepseek_api.
    destruct (String.eqb (DEEPSEEK_API_KEY cfg) "") eqn:E; [reflexivity|].
    destruct H as [H|[->| ->]]; [|reflexivity|reflexivity].
    rewrite H in E. discriminate.
  - intros sd data H. unfold call_deepseek_api.
    apply String.eqb_neq in H. now rewrite H.
  - intros students sd sed cd out H. unfold final_conflict_check in H.
    destruct (schedule sd) eqn:Es; [|discriminate].
    destruct (stats sd) eqn:Est; [|discriminate].
    injection H as <-. cbn. repeat split; eauto.
  - intros students sd st sched sed cd Hs Hst.
    unfold final_conflict_check. rewrite Hs, Hst. eauto.
Qed.

(** An answer that is not JSON, with a key configured: the result is the
    one of the greedy scheduler. *)
Lemma C5_fallback_witness :
  call_deepseek_api Examples.cfg_gap2 Examples.keep_order NotJson
    Examples.data_abc
  = LocalTriple
      (generate_schedule_locally Examples.cfg_gap2 Examples.keep_order
         Examples.data_abc).
Proof.
  apply (C5_conflicts_are_recorded_not_acted_upon Examples.cfg_gap2
           Examples.keep_order).
  right. right. reflexivity.
Defined.

(** C5 (the claim fails). The remote service answers with exams of
    student s1 on Monday and Tuesday while the minimum gap is two days.
    The verifier flags the pair; the final conflict check, given this
    schedule, keeps it and records the conflict; and [main], run on this
    answer, does not end with the output of the greedy scheduler (what it
    ends with when the local scheduler is forced): the pair returned at
    line 312 is unpacked into three names at line 866. *)
Lemma C5_flagged_remote_schedule_is_not_replaced :
  let sed :=
    build_student_exam_dates_from_schedule
      [Examples.item "A" 739397; Examples.item "B" 739398]
      Examples.students_s1 in
  let cd := [("A", 739397); ("B", 739398)]%string in
  check_final_schedule_conflicts Examples.cfg_gap2 sed cd
    (student_courses_of Examples.students_s1) <> []
  /\ (exists out,
         final_conflict_check Examples.cfg_gap2 Examples.students_s1
           (Some Examples.remote_next_day) (Some sed) (Some cd)
         = Finished out
         /\ schedule out = schedule Examples.remote_next_day
         /\ final_conflicts out <> Some [])
  /\ main Examples.cfg_gap2 Examples.keep_order false ""
       (JsonObject Examples.remote_next_day) Examples.course_info_ab
       Examples.students_s1 = Crashed
  /\ main Examples.cfg_gap2 Examples.keep_order false ""
       (JsonObject Examples.remote_next_day) Examples.course_info_ab
       Examples.students_s1
     <> main Examples.cfg_gap2 Examples.keep_order true ""
          (JsonObject Examples.remote_next_day) Examples.course_info_ab
          Examples.students_s1.
Proof.
  cbv zeta. split; [vm_compute; discriminate|].
  split; [eexists; split; [vm_compute; reflexivity|];
          split; [reflexivity|vm_compute; discriminate]|].
  split; [vm_compute; reflexivity|vm_compute; discriminate].
Qed.

End VerifierClaims.

(** ** The enrollment index *)

Section EnrollmentIndex.

Import Py FakeData Spec.

Lemma add_enrollment_course_list (students : list (string * student))
  (e : enrollment) (sid : string) :
  course_list sid (add_enrollment students e)
  = course_list sid students
    ++ (if String.eqb (id e) sid then [course_code e] else []).
Proof.
  unfold add_enrollment, course_list, dict_mem.
  destruct (String.eqb (id e) sid) eqn:E.
  - apply String.eqb_eq in E. subst sid.
    destruct (dict_get String.eqb (id e) students) as [s|] eqn:G.
    + rewrite G, (dict_get_set_same _ string_eqb_eq). reflexivity.
    + rewrite !(dict_get_set_same _ string_eqb_eq). reflexivity.
  - apply String.eqb_neq in E.
    assert (E' : sid <> id e) by congruence.
    destruct (dict_get String.eqb (id e) students) as [s|] eqn:G.
    + rewrite G, (dict_get_set_other _ string_eqb_eq) by exact E'.
      now rewrite app_nil_r.
    + rewrite (dict_get_set_same _ string_eqb_eq).
      rewrite !(dict_get_set_other _ string_eqb_eq) by exact E'.
      now rewrite app_nil_r.
Qed.

Lemma add_enrollment_mem (students : list (string * student))
  (e : enrollment) (sid : string) :
  dict_mem String.eqb sid (add_enrollment students e)
  = dict_mem String.eqb sid students || String.eqb (id e) sid.
Proof.
  unfold add_enrollment, dict_mem.
  destruct (String.eqb (id e) sid) eqn:E.
  - apply String.eqb_eq in E. subst sid. rewrite orb_true_r.
    destruct (dict_get String.eqb (id e) students) as [s|] eqn:G.
    + now rewrite G, (dict_get_set_same _ string_eqb_eq).
    + now rewrite !(dict_get_set_same _ string_eqb_eq).
  - apply String.eqb_neq in E.
    assert (E' : sid <> id e) by congruence. rewrite orb_false_r.
    destruct (dict_get String.eqb (id e) students) as [s|] eqn:G.
    + now rewrite G, (dict_get_set_other _ string_eqb_eq) by exact E'.
    + rewrite (dict_get_set_same _ string_eqb_eq).
      now rewrite !(dict_get_set_other _ string_eqb_eq) by exact E'.
Qed.

Lemma fold_add_enrollment (enrollments : list enrollment) (sid : string) :
  forall students,
    course_list sid (fold_left add_enrollment enrollments students)
    = course_list sid students ++ records_of sid enrollments
    /\ dict_mem String.eqb sid (fold_left add_enrollment enrollments students)
       = dict_mem String.eqb sid students
         || existsb (fun e => String.eqb (id e) sid) enrollments.
Proof.
  unfold records_of.
  induction enrollments as [|e es IH]; simpl; intro students.
  - now rewrite app_nil_r, orb_false_r.
  - destruct (IH (add_enrollment students e)) as [-> ->].
    rewrite add_enrollment_course_list, add_enrollment_mem.
    destruct (String.eqb (id e) sid); simpl.
    + now rewrite <- app_assoc, orb_true_r.
    + now rewrite app_nil_r, orb_false_r.
Qed.

Lemma count_occ_records_of (sid c : string) (enrollments : list enrollment) :
  count_occ string_dec (records_of sid enrollments) c
  = record_count sid c enrollments.
Proof.
  unfold records_of, record_count.
  induction enrollments as [|e es IH]; simpl; [reflexivity|].
  destruct (String.eqb (id e) sid); simpl; [|exact IH].
  destruct (string_dec (course_code e) c) as [->|Hne].
  - rewrite String.eqb_refl. simpl. now rewrite IH.
  - apply String.eqb_neq in Hne. now rewrite Hne.
Qed.

(** C9 (as the code has it). [group_enrollments_by_student] appends the
    course of every enrollment record to the list of its student: the
    list of a student holds the courses of the student's records, one
    entry per record and in their order, so a course is listed as many
    times as the pair (student, course) occurs in the input.  A student
    is in the result exactly when some record names the student. *)
Theorem C9_one_course_entry_per_enrollment_record
  (enrollments : list enrollment) (sid : string) :
  dict_mem String.eqb sid (group_enrollments_by_student enrollments)
  = existsb (fun e => String.eqb (id e) sid) enrollments
  /\ forall s,
       dict_get String.eqb sid (group_enrollments_by_student enrollments)
       = Some s ->
       courses s = records_of sid enrollments
       /\ forall c,
            count_occ string_dec (courses s) c
            = record_count sid c enrollments.
Proof.
  unfold group_enrollments_by_student.
  destruct (fold_add_enrollment enrollments sid []) as [Hc Hm].
  split; [exact Hm|].
  intros s Hs. unfold course_list in Hc. rewrite Hs in Hc. simpl in Hc.
  split; [exact Hc|]. intro c. rewrite Hc. apply count_occ_records_of.
Qed.

(** The student whose enrollment in A is recorded twice has three
    entries. *)
Lemma C9_duplicates_witness :
  courses
    {| s_name := "s1"; s_department := "CE"; s_academic_level := "Dip";
       courses := ["A"; "A"; "B"]%string |}
  = records_of "s1" Examples.enrollments_dup.
Proof.
  apply (C9_one_course_entry_per_enrollment_record Examples.enrollments_dup
           "s1"%string).
  vm_compute. reflexivity.
Defined.

(** C9 (the claim fails). The pair (s1, A) occurs twice in the input and
    A occurs twice in the course list of s1; the pair of A and B, which
    one student shares, is then counted twice by the conflict analyzer,
    and A is counted as sharing a student with itself. *)
Lemma C9_duplicate_enrollment_is_kept :
  group_enrollments_by_student Examples.enrollments_dup
  = [("s1"%string,
      {| s_name := "s1"; s_department := "CE"; s_academic_level := "Dip";
         courses := ["A"; "A"; "B"]%string |})]
  /\ count_occ string_dec
       (course_list "s1"
          (group_enrollments_by_student Examples.enrollments_dup))
       "A"%string = 2%nat
  /\ analyze_course_conflicts
       (group_enrollments_by_student Examples.enrollments_dup)
     = Some [("A_B", 2); ("A_A", 1)]%string.
Proof. repeat split; vm_compute; reflexivity. Qed.

End EnrollmentIndex.

(** ** The order in which the courses are tried *)

Section CourseOrder.

Import Py Spec.

(** A stable descending arrangement by one key is one by any key that
    agrees with it on the elements of the list. *)
Lemma stable_desc_ext {A : Type} (key1 key2 : A -> Z) (input output : list A) :
  (forall x, In x input -> key1 x = key2 x) ->
  stable_desc key1 input output -> stable_desc key2 input output.
Proof.
  intros Hext (Hperm & Hsorted & Hfilter).
  assert (Hout : forall x, In x output -> key1 x = key2 x).
  { intros x Hx. apply Hext.
    now apply (Permutation_in _ (Permutation_sym Hperm)). }
  split; [exact Hperm|]. split.
  - clear Hperm Hfilter Hext.
    induction Hsorted as [|x l Hs IH Hx]; [constructor|].
    constructor.
    + apply IH. intros y Hy. apply Hout. now right.
    + rewrite Forall_forall in Hx |- *. intros y Hy.
      rewrite <- (Hout x), <- (Hout y); [now apply Hx|now right|now left].
  - intro k.
    rewrite (filter_ext_in (fun x => key2 x =? k) (fun x => key1 x =? k) output),
            (filter_ext_in (fun x => key2 x =? k) (fun x => key1 x =? k) input).
    + apply Hfilter.
    + intros x Hx. now rewrite Hext.
    + intros x Hx. now rewrite Hout.
Qed.

(** Counting the courses of one student. *)
Lemma count_courses_value (l : list string) (c : string) :
  forall count,
    dict_get_default String.eqb 0 c
      (fold_left
         (fun count course =>
            dd_update String.eqb 0 (fun n => n + 1) course count)
         l count)
    = dict_get_default String.eqb 0 c count
      + Z.of_nat (count_occ string_dec l c).
Proof.
  induction l as [|x l IH]; simpl; intro count; [lia|].
  rewrite IH. destruct (string_dec x c) as [->|Hne].
  - rewrite (dd_update_value_same _ string_eqb_eq). lia.
  - rewrite (dd_update_value_other _ string_eqb_eq) by congruence. lia.
Qed.

(** [course_student_count] holds, for every course, the number of times
    the course is listed among the courses of the students. *)
Lemma course_student_count_value (sc : list (string * list string))
  (c : string) :
  dict_get_default String.eqb 0 c (ScheduleGenerator.course_student_count sc)
  = enrolment_count sc c.
Proof.
  unfold ScheduleGenerator.course_student_count, enrolment_count.
  assert (H : forall count,
             dict_get_default String.eqb 0 c
               (fold_left
                  (fun count (s : string * list string) =>
                     fold_left
                       (fun count course =>
                          dd_update String.eqb 0 (fun n => n + 1) course count)
                       (snd s) count)
                  sc count)
             = dict_get_default String.eqb 0 c count
               + fold_right Z.add 0
                   (map (fun s => Z.of_nat (count_occ string_dec (snd s) c))
                      sc)).
  { induction sc as [|s sc IH]; simpl; intro count; [lia|].
    rewrite IH, count_courses_value. lia. }
  rewrite H. reflexivity.
Qed.

(** Setting a value for every key of a list leaves the other keys. *)
Lemma fold_dict_set_other (f : string -> Z) (l : list string) (c : string) :
  ~ In c l ->
  forall d,
    dict_get_default String.eqb 0 c
      (fold_left (fun ccc course => dict_set String.eqb course (f course) ccc)
         l d)
    = dict_get_default String.eqb 0 c d.
Proof.
  induction l as [|x l IH]; simpl; intros Hl d; [reflexivity|].
  rewrite IH by tauto.
  apply (dict_get_default_set_other _ string_eqb_eq). intros ->. tauto.
Qed.

Lemma fold_dict_set_value (f : string -> Z) (l : list string) (c : string) :
  In c l ->
  forall d,
    dict_get_default String.eqb 0 c
      (fold_left (fun ccc course => dict_set String.eqb course (f course) ccc)
         l d)
    = f c.
Proof.
  induction l as [|x l IH]; simpl; intros Hin d; [destruct Hin|].
  destruct (in_dec string_dec c l) as [Hl|Hl]; [now apply IH|].
  destruct Hin as [->|Hin]; [|contradiction].
  rewrite fold_dict_set_other by exact Hl.
  apply (dict_get_default_set_same _ string_eqb_eq).
Qed.

(** [course_conflict_count] holds, for every course of the input, the
    sum of the counts that [conflict_pairs] has for it. *)
Lemma course_conflict_count_value (data : FakeData.api_data) (c : string) :
  In c (FakeData.all_courses data) ->
  dict_get_default String.eqb 0 c (FakeData.course_conflict_count data)
  = FakeData.conflict_count
      (FakeData.conflict_pairs (FakeData.conflict_analysis data)) c.
Proof.
  intro Hin. unfold FakeData.course_conflict_count.
  now apply (fold_dict_set_value
               (FakeData.conflict_count
                  (FakeData.conflict_pairs (FakeData.conflict_analysis data)))).
Qed.

(** C6 (as the code has it). The date-only scheduler tries the courses in
    descending order of the number of times a course is listed among the
    courses of the students; the time-slot scheduler tries them in
    descending order of the sum of the counts that the supplied conflict
    list gives for the course.  In both, courses of equal key stay in the
    order of the input list of courses ([sorted] is stable); the course
    code does not decide a tie. *)
Theorem C6_courses_are_tried_by_descending_key :
  (forall all_course_codes students,
      stable_desc
        (enrolment_count (ScheduleGenerator.student_courses_of students))
        all_course_codes
        (ScheduleGenerator.sorted_courses all_course_codes
           (ScheduleGenerator.student_courses_of students)))
  /\ (forall data,
         stable_desc
           (FakeData.conflict_count
              (FakeData.conflict_pairs (FakeData.conflict_analysis data)))
           (FakeData.all_courses data)
           (FakeData.sorted_courses data)).
Proof.
  split.
  - intros codes students.
    apply (stable_desc_ext
             (fun c => dict_get_default String.eqb 0 c
                         (ScheduleGenerator.course_student_count
                            (ScheduleGenerator.student_courses_of students)))).
    + intros c _. apply course_student_count_value.
    + apply sorted_desc_stable.
  - intro data.
    apply (stable_desc_ext
             (fun x => dict_get_default String.eqb 0 x
                         (FakeData.course_conflict_count data))).
    + intros c Hc. now apply course_conflict_count_value.
    + apply sorted_desc_stable.
Qed.

(** C6 (the claim fails). With one student in A, B and C and two students
    in D alone, D has no conflict pressure and A has pressure 2, yet the
    date-only scheduler tries D first.  With no shared student at all, it
    tries B before A, the order of the input, and so does the time-slot
    scheduler. *)
Lemma C6_order_is_not_by_conflict_pressure :
  ScheduleGenerator.sorted_courses ["A"; "B"; "C"; "D"]%string
    (ScheduleGenerator.student_courses_of Examples.students_abc_d)
  = ["D"; "A"; "B"; "C"]%string
  /\ ~ spec_course_order
         (spec_conflict_pressure
            (ScheduleGenerator.sorted_pairs Examples.students_abc_d))
         (ScheduleGenerator.sorted_courses ["A"; "B"; "C"; "D"]%string
            (ScheduleGenerator.student_courses_of Examples.students_abc_d))
  /\ ~ spec_course_order
         (spec_conflict_pressure
            (ScheduleGenerator.sorted_pairs Examples.students_c))
         (ScheduleGenerator.sorted_courses ["B"; "A"]%string
            (ScheduleGenerator.student_courses_of Examples.students_c))
  /\ ~ spec_course_order
         (spec_conflict_pressure [])
         (FakeData.sorted_courses Examples.fake_data_ba).
Proof.
  split; [vm_compute; reflexivity|].
  assert (Hhead : forall pressure a b l,
             spec_course_order pressure (a :: b :: l) ->
             spec_course_before pressure a b).
  { intros pressure a b l H. inversion H as [|? ? _ Hall]; subst.
    now inversion Hall. }
  split; [|split]; intro H.
  - apply (Hhead _ "D" "A" ["B"; "C"])%string in H.
    destruct H as [H|[H _]]; vm_compute in H; discriminate.
  - apply (Hhead _ "B" "A" [])%string in H.
    destruct H as [H|[_ H]]; vm_compute in H; discriminate.
  - apply (Hhead _ "B" "A" [])%string in H.
    destruct H as [H|[_ H]]; vm_compute in H; discriminate.
Qed.

End CourseOrder.

(** ** The conflict analyzer *)

Section KeyCounting.

Import Py Spec.

Lemma str_in_In (x : string) (l : list string) :
  str_in x l = true <-> In x l.
Proof.
  unfold str_in. rewrite existsb_exists. split.
  - intros (y & Hy & E). apply String.eqb_eq in E. now subst.
  - intro H. exists x. split; [assumption|apply String.eqb_refl].
Qed.

Lemma dict_mem_keys (k : string) (d : list (string * Z)) :
  dict_mem String.eqb k d = str_in k (map fst d).
Proof.
  unfold dict_mem.
  induction d as [|[k0 v0] d IH]; simpl; [reflexivity|].
  destruct (String.eqb k k0); [reflexivity|exact IH].
Qed.

Lemma In_dict_get (k : string) (v : Z) (d : list (string * Z)) :
  NoDup (map fst d) -> In (k, v) d -> dict_get String.eqb k d = Some v.
Proof.
  induction d as [|[k0 v0] d IH]; simpl; intros Hnd Hin; [destruct Hin|].
  inversion Hnd as [|? ? Hnotin Hnd']; subst.
  destruct Hin as [[= -> ->]|Hin].
  - now rewrite String.eqb_refl.
  - destruct (String.eqb k k0) eqn:E; [|auto].
    apply String.eqb_eq in E. subst k0. exfalso. apply Hnotin.
    apply in_map_iff. now exists (k, v).
Qed.

Lemma dict_set_twice (k : string) (v v0 : Z) (d : list (string * Z)) :
  dict_set String.eqb k v (dict_set String.eqb k v0 d)
  = dict_set String.eqb k v d.
Proof.
  induction d as [|[k1 v1] d IH]; simpl.
  - now rewrite String.eqb_refl.
  - destruct (String.eqb k k1) eqn:E; simpl; rewrite E; [reflexivity|].
    now rewrite IH.
Qed.

(** Counting a key adds it after the keys already there, unless it is
    one of them. *)
Lemma count_key_keys (k : string) (d : list (string * Z)) :
  map fst (dd_update String.eqb 0 (fun n => n + 1) k d)
  = if str_in k (map fst d) then map fst d else map fst d ++ [k].
Proof.
  unfold dd_update. rewrite <- dict_mem_keys. unfold dict_mem.
  destruct (dict_get String.eqb k d) as [v|] eqn:G.
  - now apply (dict_set_keys_present String.eqb) with (v0 := v).
  - rewrite (dict_set_absent String.eqb) by exact G.
    now rewrite map_app.
Qed.

Lemma count_keys_first_seen (keys : list string) :
  forall d, map fst (count_keys keys d) = first_seen_from (map fst d) keys.
Proof.
  unfold count_keys, first_seen_from.
  induction keys as [|k keys IH]; simpl; intro d; [reflexivity|].
  now rewrite IH, count_key_keys.
Qed.

Lemma count_keys_value (keys : list string) (k : string) :
  forall d,
    dict_get_default String.eqb 0 k (count_keys keys d)
    = dict_get_default String.eqb 0 k d
      + Z.of_nat (count_occ string_dec keys k).
Proof.
  unfold count_keys.
  induction keys as [|x keys IH]; simpl; intro d; [lia|].
  rewrite IH. destruct (string_dec x k) as [->|Hne].
  - rewrite (dd_update_value_same _ string_eqb_eq). lia.
  - rewrite (dd_update_value_other _ string_eqb_eq) by congruence. lia.
Qed.

Lemma count_keys_NoDup (keys : list string) :
  forall d, NoDup (map fst d) -> NoDup (map fst (count_keys keys d)).
Proof.
  unfold count_keys.
  induction keys as [|x keys IH]; simpl; intros d Hd; [exact Hd|].
  apply IH. unfold dd_update. now apply (dict_set_NoDup _ string_eqb_eq).
Qed.

Lemma count_keys_app (keys1 keys2 : list string) (d : list (string * Z)) :
  count_keys (keys1 ++ keys2) d = count_keys keys2 (count_keys keys1 d).
Proof. unfold count_keys. apply fold_left_app. Qed.

Lemma first_seen_from_In (keys : list string) (k : string) :
  forall seen,
    In k (first_seen_from seen keys) <-> In k seen \/ In k keys.
Proof.
  unfold first_seen_from.
  induction keys as [|x keys IH]; simpl; intro seen; [tauto|].
  rewrite IH. destruct (str_in x seen) eqn:E.
  - apply str_in_In in E. split; [tauto|].
    intros [H|[<-|H]]; auto.
  - rewrite in_app_iff. simpl. tauto.
Qed.

(** The dict that counts a list of keys, sorted by descending count, is
    ranked as [ranked_by_count] says. *)
Lemma count_keys_ranked (keys : list string) :
  ranked_by_count keys (count_keys keys [])
    (sorted_desc snd (count_keys keys [])).
Proof.
  assert (Hnd : NoDup (map fst (count_keys keys [])))
    by (apply count_keys_NoDup; constructor).
  assert (Hperm := sorted_desc_perm snd (count_keys keys [])).
  split; [apply sorted_desc_stable|].
  split; [apply (count_keys_first_seen keys [])|].
  split.
  - eapply Permutation_NoDup; [|exact Hnd]. now apply Permutation_map.
  - intros k n. split.
    + intro Hin. apply (Permutation_in _ (Permutation_sym Hperm)) in Hin.
      split.
      * assert (Hk : In k (map fst (count_keys keys [])))
          by (apply in_map_iff; now exists (k, n)).
        rewrite count_keys_first_seen in Hk.
        apply first_seen_from_In in Hk. simpl in Hk. tauto.
      * pose proof (count_keys_value keys k []) as Hv.
        unfold dict_get_default in Hv at 1.
        rewrite (In_dict_get k n _ Hnd Hin) in Hv.
        rewrite Hv. reflexivity.
    + intros [Hk ->]. apply (Permutation_in _ Hperm).
      assert (Hk' : In k (map fst (count_keys keys []))).
      { rewrite count_keys_first_seen. apply first_seen_from_In. now right. }
      apply in_map_iff in Hk'. destruct Hk' as ([k' n] & E & Hin).
      simpl in E. subst k'.
      pose proof (count_keys_value keys k []) as Hv.
      unfold dict_get_default in Hv at 1.
      rewrite (In_dict_get k n _ Hnd Hin) in Hv.
      simpl in Hv. now rewrite <- Hv.
Qed.

End KeyCounting.

Section AnalyzerKeys.

Import Py Spec.

(** The date-only analyzer counts the keys of [daily_pair_keys]. *)
Lemma daily_count_pairs_from (c1 : string) (later : list string) :
  forall cp,
    ScheduleGenerator.count_pairs_from c1 later cp
    = count_keys (map (ScheduleGenerator.pair_key c1) later) cp.
Proof.
  induction later as [|c2 later IH]; simpl; intro cp; [reflexivity|].
  now rewrite IH.
Qed.

Lemma daily_count_pairs (l : list string) :
  forall cp,
    ScheduleGenerator.count_pairs l cp
    = count_keys
        (map (fun p => ScheduleGenerator.pair_key (fst p) (snd p))
           (pairs_of l)) cp.
Proof.
  induction l as [|c1 later IH]; simpl; intro cp; [reflexivity|].
  rewrite IH, daily_count_pairs_from, map_app, map_map, count_keys_app.
  reflexivity.
Qed.

Lemma daily_course_pairs (students : list (string * ScheduleGenerator.student)) :
  ScheduleGenerator.course_pairs students
  = count_keys (daily_pair_keys students) [].
Proof.
  unfold ScheduleGenerator.course_pairs, daily_pair_keys.
  generalize (@nil (string * Z)).
  induction students as [|s students IH]; simpl; intro cp; [reflexivity|].
  now rewrite IH, daily_count_pairs, count_keys_app.
Qed.

(** The time-slot analyzer counts the keys of [slotted_pair_keys]: lines
    161-164 are the increment of a [defaultdict], written out. *)
Lemma slotted_count_pair (c1 c2 : string) (cp : list (string * Z)) :
  FakeData.count_pair c1 c2 cp
  = dd_update String.eqb 0 (fun n => n + 1) (canonical_key c1 c2) cp.
Proof.
  unfold FakeData.count_pair, canonical_key, dd_update.
  assert (H : forall k,
             dict_set String.eqb k
               (dict_get_default String.eqb 0 k
                  (if dict_mem String.eqb k cp then cp
                   else dict_set String.eqb k 0 cp) + 1)
               (if dict_mem String.eqb k cp then cp
                else dict_set String.eqb k 0 cp)
             = dict_set String.eqb k
                 (dict_get_default String.eqb 0 k cp + 1) cp).
  { intro k. unfold dict_mem, dict_get_default.
    destruct (dict_get String.eqb k cp) as [v|] eqn:G.
    - now rewrite G.
    - rewrite (dict_get_set_same _ string_eqb_eq). apply dict_set_twice. }
  destruct (FakeData.str_gt c1 c2); apply H.
Qed.

Lemma slotted_count_pairs_from (c1 : string) (later : list string) :
  forall cp,
    FakeData.count_pairs_from c1 later cp
    = count_keys (map (canonical_key c1) later) cp.
Proof.
  induction later as [|c2 later IH]; simpl; intro cp; [reflexivity|].
  now rewrite IH, slotted_count_pair.
Qed.

Lemma slotted_count_pairs (l : list string) :
  forall cp,
    FakeData.count_pairs l cp
    = count_keys (map (fun p => canonical_key (fst p) (snd p)) (pairs_of l))
        cp.
Proof.
  induction l as [|c1 later IH]; simpl; intro cp; [reflexivity|].
  rewrite IH, slotted_count_pairs_from, map_app, map_map, count_keys_app.
  reflexivity.
Qed.

Lemma slotted_course_pairs (students : list (string * FakeData.student)) :
  FakeData.course_pairs students
  = count_keys (slotted_pair_keys students) [].
Proof.
  unfold FakeData.course_pairs, slotted_pair_keys.
  generalize (@nil (string * Z)).
  induction students as [|s students IH]; simpl; intro cp; [reflexivity|].
  now rewrite IH, slotted_count_pairs, count_keys_app.
Qed.

(** *** The canonical order of a pair *)

Lemma ascii_compare_trans_lt (a b c : ascii) :
  Ascii.compare a b = Lt -> Ascii.compare b c = Lt -> Ascii.compare a c = Lt.
Proof.
  unfold Ascii.compare. rewrite !N.compare_lt_iff. apply N.lt_trans.
Qed.

(** [<=] on strings is transitive. *)
Lemma string_leb_trans (a b c : string) :
  String.leb a b = true -> String.leb b c = true -> String.leb a c = true.
Proof.
  unfold String.leb. revert b c.
  induction a as [|x a IH]; intros [|y b] [|z c]; simpl; try easy.
  destruct (Ascii.compare x y) eqn:Exy; [| |easy].
  - apply Ascii.compare_eq_iff in Exy. subst y.
    destruct (Ascii.compare x z); [apply IH|easy|easy].
  - destruct (Ascii.compare y z) eqn:Eyz; [| |easy].
    + apply Ascii.compare_eq_iff in Eyz. subst z. now rewrite Exy.
    + now rewrite (ascii_compare_trans_lt x y z Exy Eyz).
Qed.

Lemma pairs_of_In (l : list string) (a b : string) :
  In (a, b) (pairs_of l) -> In a l /\ In b l.
Proof.
  induction l as [|x l IH]; simpl; [tauto|].
  rewrite in_app_iff, in_map_iff.
  intros [(y & [= <- <-] & Hy)|H]; [tauto|]. specialize (IH H). tauto.
Qed.

Lemma pairs_of_sorted (R : string -> string -> Prop) (l : list string) :
  StronglySorted R l ->
  Forall (fun p => R (fst p) (snd p)) (pairs_of l).
Proof.
  induction 1 as [|x l Hs IH Hx]; simpl; [constructor|].
  apply Forall_app. split; [|exact IH].
  apply Forall_forall. intros p Hp. apply in_map_iff in Hp.
  destruct Hp as (y & <- & Hy). rewrite Forall_forall in Hx. now apply Hx.
Qed.

(** The date-only analyzer names a pair by the smaller course first. *)
Lemma daily_pairs_canonical (l : list string) :
  Forall (fun p => String.leb (fst p) (snd p) = true)
    (pairs_of (sorted_asc String.leb l)).
Proof.
  apply (pairs_of_sorted (fun a b => String.leb a b = true)).
  apply sorted_asc_sorted; [apply String.leb_total|apply string_leb_trans].
Qed.

(** The time-slot analyzer gives two courses the same key in either
    order, with the smaller course first. *)
Lemma canonical_key_sym (a b : string) :
  canonical_key a b = canonical_key b a.
Proof.
  unfold canonical_key, FakeData.str_gt.
  rewrite (String.compare_antisym b a).
  destruct (String.compare a b) eqn:E; simpl; try reflexivity.
  apply String.compare_eq_iff in E. now subst.
Qed.

Lemma canonical_key_ordered (a b : string) :
  exists x y,
    canonical_key a b = FakeData.pair_key x y
    /\ String.leb x y = true
    /\ ((x = a /\ y = b) \/ (x = b /\ y = a)).
Proof.
  unfold canonical_key, FakeData.str_gt, String.leb.
  destruct (String.compare a b) eqn:E.
  - exists a, b. rewrite E. auto.
  - exists a, b. rewrite E. auto.
  - exists b, a. rewrite (String.compare_antisym b a), E. simpl. auto.
Qed.

(** *** Keys that split into their two courses *)

Lemma split_underscore_plain (s : string) :
  no_underscore s = true -> split_underscore s = [s].
Proof.
  induction s as [|c s IH]; simpl; [reflexivity|].
  intro H. apply andb_true_iff in H. destruct H as [Hc Hs].
  apply negb_true_iff in Hc. rewrite Hc, (IH Hs). reflexivity.
Qed.

Lemma split_pair_key (a b : string) :
  no_underscore a = true -> no_underscore b = true ->
  split_pair (a ++ "_" ++ b)%string = Some (a, b).
Proof.
  intros Ha Hb. unfold split_pair.
  change (a ++ "_" ++ b)%string with (a ++ String "_"%char b)%string.
  assert (H : split_underscore (a ++ String "_"%char b)%string = [a; b]).
  { induction a as [|c a IH]; simpl.
    - now rewrite split_underscore_plain.
    - simpl in Ha. apply andb_true_iff in Ha. destruct Ha as [Hc Ha].
      apply negb_true_iff in Hc. rewrite Hc, (IH Ha). reflexivity. }
  now rewrite H.
Qed.

Lemma forallb_firstn {A : Type} (f : A -> bool) (n : nat) (l : list A) :
  forallb f l = true -> forallb f (firstn n l) = true.
Proof.
  revert n. induction l as [|x l IH]; intros [|n]; simpl; auto.
  intro H. apply andb_true_iff in H. destruct H as [-> H]. now apply IH.
Qed.

End AnalyzerKeys.

Section AnalyzerClaims.

Import Py Spec.

Lemma daily_analyze_returns (students : list (string * ScheduleGenerator.student)) :
  forallb (fun s => forallb no_underscore (ScheduleGenerator.courses (snd s)))
    students = true ->
  ScheduleGenerator.analyze_course_conflicts students
  = Some (ScheduleGenerator.sorted_pairs students).
Proof.
  intro Hplain. unfold ScheduleGenerator.analyze_course_conflicts.
  rewrite forallb_firstn; [reflexivity|].
  apply forallb_forall. intros [k n] Hin.
  unfold ScheduleGenerator.sorted_pairs in Hin.
  rewrite daily_course_pairs in Hin.
  apply (count_keys_ranked (daily_pair_keys students)) in Hin.
  destruct Hin as [Hk _]. unfold daily_pair_keys in Hk.
  apply in_flat_map in Hk. destruct Hk as (s & Hs & Hk).
  apply in_map_iff in Hk. destruct Hk as ([a b] & <- & Hp).
  apply pairs_of_In in Hp. destruct Hp as [Ha Hb].
  apply sorted_asc_In in Ha, Hb.
  rewrite forallb_forall in Hplain. specialize (Hplain s Hs).
  rewrite forallb_forall in Hplain.
  cbn [fst snd]. unfold ScheduleGenerator.pair_key.
  now rewrite split_pair_key by auto.
Qed.

Lemma slotted_analyze_returns (students : list (string * FakeData.student)) :
  forallb (fun s => forallb no_underscore (FakeData.courses (snd s)))
    students = true ->
  FakeData.analyze_course_conflicts students
  = Some (FakeData.sorted_pairs students).
Proof.
  intro Hplain. unfold FakeData.analyze_course_conflicts.
  rewrite forallb_firstn; [reflexivity|].
  apply forallb_forall. intros [k n] Hin.
  unfold FakeData.sorted_pairs in Hin.
  rewrite slotted_course_pairs in Hin.
  apply (count_keys_ranked (slotted_pair_keys students)) in Hin.
  destruct Hin as [Hk _]. unfold slotted_pair_keys in Hk.
  apply in_flat_map in Hk. destruct Hk as (s & Hs & Hk).
  apply in_map_iff in Hk. destruct Hk as ([a b] & <- & Hp).
  apply pairs_of_In in Hp. destruct Hp as [Ha Hb].
  rewrite forallb_forall in Hplain. specialize (Hplain s Hs).
  rewrite forallb_forall in Hplain.
  cbn [fst snd].
  destruct (canonical_key_ordered a b) as (x & y & -> & _ & Hxy).
  unfold FakeData.pair_key.
  destruct Hxy as [[-> ->]|[-> ->]]; now rewrite split_pair_key by auto.
Qed.

(** C7 (as the code has it). Both analyzers count, for every student and
    every two positions i < j of the student's course list, the key of
    the two courses with the smaller code first, so that the two orders
    of a pair share one counter; the count of a key is the number of
    times it was met.  The pairs returned are sorted by descending count
    and pairs of equal count stay in the order in which they were first
    counted: no lexicographic order decides a tie.  The analyzers return
    this list whenever no course code has an underscore.  For the
    students s1:[A,B], s2:[A,B], s3:[A,C] of the specification the pair
    of A and B, with count 2, comes before the pair of A and C, with
    count 1. *)
Theorem C7_pairs_ranked_by_count_ties_as_first_counted :
  ScheduleGenerator.analyze_course_conflicts Examples.students_ranking
  = Some [("A_B", 2); ("A_C", 1)]%string
  /\ FakeData.analyze_course_conflicts Examples.fake_students_ranking
     = Some [("A_B", 2); ("A_C", 1)]%string
  /\ (forall students,
         ranked_by_count (daily_pair_keys students)
           (ScheduleGenerator.course_pairs students)
           (ScheduleGenerator.sorted_pairs students)
         /\ (forall out,
                ScheduleGenerator.analyze_course_conflicts students = Some out ->
                out = ScheduleGenerator.sorted_pairs students)
         /\ (forallb
               (fun s =>
                  forallb no_underscore (ScheduleGenerator.courses (snd s)))
               students = true ->
             ScheduleGenerator.analyze_course_conflicts students
             = Some (ScheduleGenerator.sorted_pairs students))
         /\ forall s,
              In s students ->
              Forall (fun p => String.leb (fst p) (snd p) = true)
                (pairs_of
                   (sorted_asc String.leb
                      (ScheduleGenerator.courses (snd s)))))
  /\ (forall students,
         ranked_by_count (slotted_pair_keys students)
           (FakeData.course_pairs students)
           (FakeData.sorted_pairs students)
         /\ (forall out,
                FakeData.analyze_course_conflicts students = Some out ->
                out = FakeData.sorted_pairs students)
         /\ (forallb
               (fun s => forallb no_underscore (FakeData.courses (snd s)))
               students = true ->
             FakeData.analyze_course_conflicts students
             = Some (FakeData.sorted_pairs students))
         /\ forall a b,
              canonical_key a b = canonical_key b a
              /\ exists x y,
                   canonical_key a b = FakeData.pair_key x y
                   /\ String.leb x y = true
                   /\ ((x = a /\ y = b) \/ (x = b /\ y = a))).
Proof.
  split; [vm_compute; reflexivity|].
  split; [vm_compute; reflexivity|].
  split; intro students.
  - split; [|split; [|split]].
    + unfold ScheduleGenerator.sorted_pairs. rewrite daily_course_pairs.
      apply count_keys_ranked.
    + intros out H. unfold ScheduleGenerator.analyze_course_conflicts in H.
      destruct (forallb _ _); [now injection H as <-|discriminate].
    + apply daily_analyze_returns.
    + intros s _. apply daily_pairs_canonical.
  - split; [|split; [|split]].
    + unfold FakeData.sorted_pairs. rewrite slotted_course_pairs.
      apply count_keys_ranked.
    + intros out H. unfold FakeData.analyze_course_conflicts in H.
      destruct (forallb _ _); [now injection H as <-|discriminate].
    + apply slotted_analyze_returns.
    + intros a b. split; [apply canonical_key_sym|].
      apply canonical_key_ordered.
Qed.

(** The analyzer returns on the example of the specification. *)
Lemma C7_example_witness :
  ScheduleGenerator.analyze_course_conflicts Examples.students_ranking
  = Some (ScheduleGenerator.sorted_pairs Examples.students_ranking).
Proof.
  apply C7_pairs_ranked_by_count_ties_as_first_counted.
  reflexivity.
Defined.

(** C7 (the claim fails). One student takes C and D, another A and B:
    both pairs have count 1 and the pair of C and D, counted first, is
    returned first by both analyzers, against the lexicographic order of
    the pairs. *)
Lemma C7_ties_are_not_in_lexicographic_order :
  ScheduleGenerator.analyze_course_conflicts Examples.students_cd_ab
  = Some [("C_D", 1); ("A_B", 1)]%string
  /\ FakeData.analyze_course_conflicts Examples.fake_students_cd_ab
     = Some [("C_D", 1); ("A_B", 1)]%string
  /\ ~ spec_ranked [("C_D", 1); ("A_B", 1)]%string.
Proof.
  split; [vm_compute; reflexivity|].
  split; [vm_compute; reflexivity|].
  intro H. inversion H as [|? ? _ Hall]; subst.
  inversion Hall as [|? ? Hhead _]; subst.
  destruct Hhead as [Hlt|[_ Hle]].
  - simpl in Hlt. lia.
  - vm_compute in Hle. discriminate.
Qed.

End AnalyzerClaims.

(** ** Further properties of the date-only scheduler *)

Section DailyRunFacts.

Import Py ScheduleGenerator Spec Reach.

Variable cfg : config.
Variable student_courses : list (string * list string).

(** What the body of the loop over the courses does to a state: it
    leaves it, but for default entries and the course added to the
    unscheduled ones, or it commits the course on a date of the list that
    is not full and that no student of the course is near. *)
Lemma schedule_course_step (course : string) (dates_to_try : list Z)
  (st : sched_state) :
  exists ds ks,
    (forall d, dict_get_default Z.eqb 0 d
                 (exams_per_day (daily_scanned st ds ks))
               = dict_get_default Z.eqb 0 d (exams_per_day st))
    /\ (forall s, dict_get_default String.eqb [] s
                    (student_exam_dates (daily_scanned st ds ks))
                  = dict_get_default String.eqb [] s (student_exam_dates st))
    /\ ((st_schedule
           (schedule_course cfg student_courses course dates_to_try st)
         = st_schedule st
         /\ course_dates
              (schedule_course cfg student_courses course dates_to_try st)
            = course_dates st
         /\ student_exam_dates
              (schedule_course cfg student_courses course dates_to_try st)
            = student_exam_dates (daily_scanned st ds ks)
         /\ exams_per_day
              (schedule_course cfg student_courses course dates_to_try st)
            = exams_per_day (daily_scanned st ds ks)
         /\ unscheduled_courses
              (schedule_course cfg student_courses course dates_to_try st)
            = unscheduled_courses st ++ [course])
        \/ exists d,
             In d dates_to_try
             /\ schedule_course cfg student_courses course dates_to_try st
                = commit course d
                    (course_students_taking_this course student_courses)
                    (daily_scanned st ds ks)
             /\ dict_get_default Z.eqb 0 d (exams_per_day st)
                < MAX_EXAMS_PER_DAY).
Proof.
  destruct (try_dates_cases cfg student_courses course dates_to_try st)
    as (ds & ks & He & Hs & Hres).
  exists ds, ks. split; [exact He|]. split; [exact Hs|].
  unfold schedule_course.
  destruct Hres as [->|(d & Hin & -> & Hroom & _)].
  - left. simpl. auto.
  - right. exists d. auto.
Qed.

(** A property of the states that every step of the loop over the
    courses keeps holds when the loop ends. *)
Lemma schedule_courses_keeps (P : sched_state -> Prop)
  (shuffle : nat -> list Z -> list Z) (all : list string) :
  (forall n c st,
      In c all -> P st ->
      P (schedule_course cfg student_courses c
           (shuffle n (available_dates cfg)) st)) ->
  forall todo,
    incl todo all ->
    forall n st,
      P st -> P (schedule_courses cfg shuffle student_courses n todo st).
Proof.
  intros Hstep todo. induction todo as [|c todo IH]; simpl;
    intros Hincl n st HP; [exact HP|].
  apply IH.
  - intros x Hx. apply Hincl. now right.
  - apply Hstep; [apply Hincl; now left|exact HP].
Qed.

Lemma dict_mem_set (k k' : string) (v : Z) (d : list (string * Z)) :
  dict_mem String.eqb k' (dict_set String.eqb k v d)
  = String.eqb k' k || dict_mem String.eqb k' d.
Proof.
  unfold dict_mem. destruct (String.eqb k' k) eqn:E.
  - apply String.eqb_eq in E. subst. 
    now rewrite (dict_get_set_same _ string_eqb_eq).
  - apply String.eqb_neq in E.
    now rewrite (dict_get_set_other _ string_eqb_eq).
Qed.

Lemma In_dict_set (k k' : string) (v v' : Z) (d : list (string * Z)) :
  In (k', v') (dict_set String.eqb k v d) -> In (k', v') d \/ v' = v.
Proof.
  induction d as [|[k0 v0] d IH]; simpl.
  - intros [[= <- <-]|[]]. now right.
  - destruct (String.eqb k k0); simpl.
    + intros [[= <- <-]|H]; auto.
    + intros [H|H]; auto. destruct (IH H); auto.
Qed.

Lemma dict_set_length_le (k : string) (v : Z) (d : list (string * Z)) :
  (length (dict_set String.eqb k v d) <= S (length d))%nat.
Proof.
  induction d as [|[k0 v0] d IH]; simpl; [lia|].
  destruct (String.eqb k k0); simpl; lia.
Qed.

(** The commit records the date once for every student of the course. *)
Lemma record_students_dates (course : string) (d : Z)
  (taking : list string) (s : string) :
  forall sed sched,
    dict_get_default String.eqb [] s
      (fst (record_students course d taking sed sched))
    = dict_get_default String.eqb [] s sed
      ++ repeat d (count_occ string_dec taking s).
Proof.
  induction taking as [|x taking IH]; simpl; intros sed sched.
  - now rewrite app_nil_r.
  - rewrite IH. destruct (string_dec x s) as [->|Hne].
    + rewrite (dd_update_value_same _ string_eqb_eq), <- app_assoc.
      reflexivity.
    + rewrite (dd_update_value_other _ string_eqb_eq) by congruence.
      reflexivity.
Qed.

Lemma total_app {K V : Type} (m : V -> Z) (d1 d2 : list (K * V)) :
  total m (d1 ++ d2) = total m d1 + total m d2.
Proof.
  unfold total. induction d1 as [|e d1 IH]; simpl; [reflexivity|].
  rewrite IH. lia.
Qed.

Lemma total_defaults {V : Type} (m : V -> Z) (dflt : V) (ks : list string) :
  m dflt = 0 -> total m (map (fun k => (k, dflt)) ks) = 0.
Proof.
  intro H. unfold total. induction ks as [|k ks IH]; simpl; [reflexivity|].
  rewrite IH, H. reflexivity.
Qed.

Lemma total_dict_set {V : Type} (m : V -> Z) (dflt : V) (k : string) (v : V)
  (d : list (string * V)) :
  m dflt = 0 ->
  total m (dict_set String.eqb k v d)
  = total m d - m (dict_get_default String.eqb dflt k d) + m v.
Proof.
  intro H. unfold total, dict_get_default.
  induction d as [|[k0 v0] d IH]; simpl.
  - rewrite H. lia.
  - destruct (String.eqb k k0); simpl; [lia|]. rewrite IH. lia.
Qed.

Lemma record_students_sittings (course : string) (d : Z)
  (taking : list string) :
  forall sed sched,
    sittings (fst (record_students course d taking sed sched))
    = sittings sed + Z.of_nat (length taking).
Proof.
  unfold sittings.
  induction taking as [|x taking IH]; simpl length; intros sed sched.
  - simpl. lia.
  - cbn [record_students]. rewrite IH. unfold dd_update.
    rewrite (total_dict_set _ []) by reflexivity.
    rewrite length_app. simpl length. lia.
Qed.

End DailyRunFacts.

Section DailyRunProperties.

Import Py ScheduleGenerator Spec Reach.

Variable cfg : config.

(** What [generate_schedule_locally] returns is read off the state in
    which the loop over the courses ends. *)
Lemma generate_schedule_locally_Some (shuffle : nat -> list Z -> list Z)
  (data : api_data) (response : schedule_data)
  (sed : list (string * list Z)) (cd : list (string * Z)) :
  generate_schedule_locally cfg shuffle data = Some (response, sed, cd) ->
  response
  = response_of (all_course_codes data)
      (student_courses_of (students_full_details data))
      (final_state cfg shuffle data)
  /\ sed = student_exam_dates (final_state cfg shuffle data)
  /\ cd = course_dates (final_state cfg shuffle data)
  /\ all_course_codes data <> []
  /\ available_dates cfg <> [].
Proof.
  unfold generate_schedule_locally. intro H.
  destruct (all_course_codes data); [discriminate|].
  destruct (student_courses_of (students_full_details data));
    [discriminate|].
  destruct (available_dates cfg); [discriminate|].
  injection H as <- <- <-. repeat split; discriminate.
Qed.

Lemma dates_from_In (skip : bool) (n : nat) :
  forall start d,
    In d (dates_from skip n start) ->
    start <= d < start + Z.of_nat n /\ (skip = true -> weekday d < 5).
Proof.
  induction n as [|n IH]; intros start d; [intros []|].
  cbn [dates_from]. rewrite in_app_iff. intros [H|H].
  - destruct (negb (skip && (5 <=? weekday start))) eqn:E; [|destruct H].
    destruct H as [<-|[]]. split; [lia|]. intros ->. simpl in E.
    apply negb_true_iff, Z.leb_gt in E. exact E.
  - apply IH in H. split; [lia|tauto].
Qed.

Lemma available_dates_in_window (d : Z) :
  In d (available_dates cfg) -> in_window cfg d.
Proof.
  unfold available_dates, in_window. intro H. apply dates_from_In in H. 
  split; [lia|tauto].
Qed.

Lemma dates_from_NoDup (skip : bool) (n : nat) :
  forall start, NoDup (dates_from skip n start).
Proof.
  induction n as [|n IH]; intro start; [constructor|].
  cbn [dates_from].
  destruct (negb (skip && (5 <=? weekday start))); simpl; [|apply IH].
  constructor; [|apply IH].
  intro H. apply dates_from_In in H. lia.
Qed.

Section WithShuffle.

Variable shuffle : nat -> list Z -> list Z.
Variable data : api_data.

Local Abbreviation sc := (student_courses_of (students_full_details data)).
Local Abbreviation final := (final_state cfg shuffle data).

Lemma sorted_courses_incl :
  incl (sorted_courses (all_course_codes data) sc) (all_course_codes data).
Proof.
  intros c Hc. unfold sorted_courses in Hc.
  eapply Permutation_in; [|exact Hc].
  apply Permutation_sym, sorted_desc_perm.
Qed.

Lemma final_state_keeps (P : sched_state -> Prop) :
  P initial_state ->
  (forall n c st,
      In c (all_course_codes data) -> P st ->
      P (schedule_course cfg sc c (shuffle n (available_dates cfg)) st)) ->
  P final.
Proof.
  intros Hinit Hstep. unfold final_state.
  apply (schedule_courses_keeps cfg sc P shuffle (all_course_codes data));
    [exact Hstep|apply sorted_courses_incl|exact Hinit].
Qed.

(** Every course of the input ends with a date or among the unscheduled
    courses, and only courses of the input get a date. *)
Lemma final_state_accounts (c : string) :
  (In c (all_course_codes data) -> accounted final c)
  /\ (dict_mem String.eqb c (course_dates final) = true ->
      In c (all_course_codes data)).
Proof.
  assert (Hkeep : forall course dates st,
             accounted st c ->
             accounted (schedule_course cfg sc course dates st) c).
  { intros course dates st Hacc.
    destruct (schedule_course_step cfg sc course dates st)
      as (ds & ks & _ & _ & [(_ & Hcd & _ & _ & Hun)|(d & _ & Hst & _)]);
      unfold accounted in *.
    - rewrite Hcd, Hun. rewrite in_app_iff. tauto.
    - rewrite Hst, commit_course_dates, commit_unscheduled, dict_mem_set.
      simpl. destruct Hacc as [->|H]; [left; apply orb_true_r|now right]. }
  assert (Hnow : forall dates st,
             accounted (schedule_course cfg sc c dates st) c).
  { intros dates st.
    destruct (schedule_course_step cfg sc c dates st)
      as (ds & ks & _ & _ & [(_ & _ & _ & _ & Hun)|(d & _ & Hst & _)]);
      unfold accounted.
    - right. rewrite Hun, in_app_iff. right. now left.
    - left. rewrite Hst, commit_course_dates, dict_mem_set.
      now rewrite String.eqb_refl. }
  split.
  - intro Hin.
    assert (Hin' : In c (sorted_courses (all_course_codes data) sc))
      by (unfold sorted_courses; eapply Permutation_in;
          [apply sorted_desc_perm|exact Hin]).
    clear Hin. rename Hin' into Hin.
    unfold final_state. generalize 0%nat, initial_state.
    induction (sorted_courses (all_course_codes data) sc) as [|x todo IH];
      [destruct Hin|]. intros n st. simpl.
    destruct (in_dec string_dec c todo) as [Hlater|Hnot]; [now apply IH|].
    destruct Hin as [->|Hin]; [|contradiction].
    clear IH Hnot.
    generalize (Hnow (shuffle n (available_dates cfg)) st).
    generalize (schedule_course cfg sc c (shuffle n (available_dates cfg)) st).
    generalize (S n). induction todo as [|y todo IH]; simpl; intros m st' H;
      [exact H|]. apply IH. now apply Hkeep.
  - apply (final_state_keeps
             (fun st => dict_mem String.eqb c (course_dates st) = true ->
                        In c (all_course_codes data))).
    + discriminate.
    + intros n course st Hcourse IH.
      destruct (schedule_course_step cfg sc course
                  (shuffle n (available_dates cfg)) st)
        as (ds & ks & _ & _ & [(_ & Hcd & _)|(d & _ & Hst & _)]).
      * now rewrite Hcd.
      * rewrite Hst, commit_course_dates, dict_mem_set. simpl.
        destruct (String.eqb c course) eqn:E; [|exact IH].
        apply String.eqb_eq in E. now subst.
Qed.

(** The schedule list has one record per exam sitting. *)
Lemma final_state_sittings :
  Z.of_nat (length (st_schedule final)) = sittings (student_exam_dates final).
Proof.
  apply (final_state_keeps
           (fun st => Z.of_nat (length (st_schedule st))
                      = sittings (student_exam_dates st))).
  - reflexivity.
  - intros n course st _ IH.
    assert (Hscan : forall ds ks,
               sittings (student_exam_dates (daily_scanned st ds ks))
               = sittings (student_exam_dates st)).
    { intros ds ks. unfold sittings. simpl. rewrite total_app.
      rewrite (total_defaults _ []) by reflexivity. lia. }
    destruct (schedule_course_step cfg sc course
                (shuffle n (available_dates cfg)) st)
      as (ds & ks & _ & _ & [(Hs & _ & Hsed & _)|(d & _ & Hst & _)]).
    + now rewrite Hs, Hsed, Hscan.
    + rewrite Hst, commit_schedule, commit_student_exam_dates.
      rewrite record_students_sittings, Hscan, length_app, repeat_length.
      simpl st_schedule. lia.
Qed.

Hypothesis shuffle_In : forall n l x, In x (shuffle n l) -> In x l.

Lemma record_students_all (R : Z -> Prop) (course : string) (d : Z)
  (taking : list string) :
  forall sed sched,
    Forall (fun e => Forall R (snd e)) sed -> R d ->
    Forall (fun e => Forall R (snd e))
      (fst (record_students course d taking sed sched)).
Proof.
  induction taking as [|s l IH]; simpl; intros sed sched H0 Hd; [exact H0|].
  apply IH; [|exact Hd]. apply dd_update_Forall; [exact H0|].
  apply Forall_app. split; [|now repeat constructor].
  apply (dict_get_default_Forall String.eqb string_eqb_eq (Forall R));
    [exact H0|constructor].
Qed.

(** Every committed date, in the course-date map and in the calendars,
    is one of the available dates. *)
Lemma final_state_dates :
  (forall c d, In (c, d) (course_dates final) -> In d (available_dates cfg))
  /\ Forall (fun e => Forall (fun d => In d (available_dates cfg)) (snd e))
       (student_exam_dates final).
Proof.
  apply (final_state_keeps
           (fun st =>
              (forall c d, In (c, d) (course_dates st) ->
                           In d (available_dates cfg))
              /\ Forall
                   (fun e => Forall (fun d => In d (available_dates cfg))
                               (snd e))
                   (student_exam_dates st))).
  - split; [intros c d []|constructor].
  - intros n course st _ [Hcd Hsed].
    assert (Hscan : forall ds ks,
               Forall
                 (fun e => Forall (fun d => In d (available_dates cfg)) (snd e))
                 (student_exam_dates (daily_scanned st ds ks))).
    { intros ds ks. simpl. apply Forall_app. split; [exact Hsed|].
      apply Forall_forall. intros e He. apply in_map_iff in He.
      destruct He as (x & <- & _). constructor. }
    destruct (schedule_course_step cfg sc course
                (shuffle n (available_dates cfg)) st)
      as (ds & ks & _ & _ & [(_ & Hc & Hs & _)|(d & Hd & Hst & _)]).
    + rewrite Hc, Hs. split; [exact Hcd|apply Hscan].
    + apply shuffle_In in Hd.
      rewrite Hst, commit_course_dates, commit_student_exam_dates. split.
      * intros c d' Hin. apply In_dict_set in Hin.
        destruct Hin as [Hin| ->]; [now apply (Hcd c)|exact Hd].
      * apply record_students_all; [apply Hscan|exact Hd].
Qed.

Lemma window_load_update (d : Z) (epd : list (Z * Z)) (dates : list Z) :
  NoDup dates -> In d dates ->
  window_load dates (dd_update Z.eqb 0 (fun n => n + 1) d epd)
  = window_load dates epd + 1.
Proof.
  unfold window_load.
  induction 1 as [|x dates Hnotin Hnd IH]; simpl; intro Hin; [destruct Hin|].
  destruct Hin as [->|Hin].
  - rewrite (dd_update_value_same _ Z_eqb_eq).
    assert (Hrest : map (fun d0 => dict_get_default Z.eqb 0 d0
                                     (dd_update Z.eqb 0 (fun n => n + 1) d epd))
                      dates
                    = map (fun d0 => dict_get_default Z.eqb 0 d0 epd) dates).
    { apply map_ext_in. intros y Hy.
      apply (dd_update_value_other _ Z_eqb_eq). intros ->. contradiction. }
    rewrite Hrest. lia.
  - rewrite IH by exact Hin.
    rewrite (dd_update_value_other _ Z_eqb_eq); [lia|].
    intros ->. contradiction.
Qed.

(** The courses with a date are at most as many as the day counters of
    the window add up to. *)
Lemma final_state_load :
  Z.of_nat (length (course_dates final))
  <= window_load (available_dates cfg) (exams_per_day final).
Proof.
  apply (final_state_keeps
           (fun st => Z.of_nat (length (course_dates st))
                      <= window_load (available_dates cfg) (exams_per_day st))).
  - unfold window_load. simpl.
    induction (available_dates cfg) as [|x l IHl]; simpl; [lia|].
    change (dict_get_default Z.eqb 0 x []) with 0. lia.
  - intros n course st _ IH.
    destruct (schedule_course_step cfg sc course
                (shuffle n (available_dates cfg)) st)
      as (ds & ks & He & _ & [(_ & Hc & _ & Hepd & _)|(d & Hd & Hst & _)]).
    + rewrite Hc, Hepd. unfold window_load in *.
      erewrite map_ext; [exact IH|]. intro x. apply He.
    + apply shuffle_In in Hd.
      rewrite Hst, commit_course_dates, commit_exams_per_day.
      rewrite window_load_update;
        [|apply dates_from_NoDup|exact Hd].
      pose proof (dict_set_length_le course d
                    (course_dates (daily_scanned st ds ks))) as Hlen.
      simpl course_dates in *.
      assert (Hsame : window_load (available_dates cfg)
                        (exams_per_day (daily_scanned st ds ks))
                      = window_load (available_dates cfg) (exams_per_day st)).
      { unfold window_load. f_equal. apply map_ext. intro x. apply He. }
      rewrite Hsame. lia.
Qed.

End WithShuffle.

End DailyRunProperties.

(** X1. A run of the date-only scheduler accounts for every course of
    its input: the course has a date in the course-date map or the issues
    list says that it could not be scheduled; and only courses of the
    input get a date. *)
Theorem X1_every_course_is_accounted_for (cfg : ScheduleGenerator.config)
  (shuffle : nat -> list Z -> list Z) (data : ScheduleGenerator.api_data)
  (response : ScheduleGenerator.schedule_data)
  (sed : list (string * list Z)) (cd : list (string * Z)) (c : string) :
  ScheduleGenerator.generate_schedule_locally cfg shuffle data
  = Some (response, sed, cd) ->
  (In c (ScheduleGenerator.all_course_codes data) ->
   Py.dict_mem String.eqb c cd = true
   \/ In ("Course " ++ c ++ " could not be scheduled.")%string
        (ScheduleGenerator.issues response))
  /\ (Py.dict_mem String.eqb c cd = true ->
      In c (ScheduleGenerator.all_course_codes data)).
Proof.
  intro Hgen.
  destruct (generate_schedule_locally_Some cfg shuffle data _ _ _ Hgen)
    as (-> & _ & -> & _).
  destruct (final_state_accounts cfg shuffle data c) as [Hacc Honly].
  split; [|exact Honly].
  intro Hin. destruct (Hacc Hin) as [H|H]; [now left|right].
  cbn [ScheduleGenerator.response_of ScheduleGenerator.issues].
  apply in_map_iff. exists c. split; [reflexivity|exact H].
Qed.

Lemma X1_accounted_witness :
  Py.dict_mem String.eqb "C"%string
    (ScheduleGenerator.course_dates
       (ScheduleGenerator.final_state Examples.cfg_gap2 Examples.keep_order
          Examples.data_abc)) = true
  \/ In "Course C could not be scheduled."%string
       (ScheduleGenerator.issues
          (ScheduleGenerator.response_of ["A"; "B"; "C"]%string
             (ScheduleGenerator.student_courses_of Examples.students_ab)
             (ScheduleGenerator.final_state Examples.cfg_gap2
                Examples.keep_order Examples.data_abc))).
Proof.
  apply (X1_every_course_is_accounted_for Examples.cfg_gap2
           Examples.keep_order Examples.data_abc _
           (ScheduleGenerator.student_exam_dates
              (ScheduleGenerator.final_state Examples.cfg_gap2
                 Examples.keep_order Examples.data_abc))
           _ "C"%string).
  - vm_compute. reflexivity.
  - simpl. auto.
Defined.

(** X2. When the shuffle returns only dates of the list it is given,
    every date that a run of the date-only scheduler commits, in the
    course-date map and in the exam-date list of every student, lies in
    the configured window and, when weekends are skipped, is not a
    Saturday or a Sunday. *)
Theorem X2_committed_dates_lie_in_the_window (cfg : ScheduleGenerator.config)
  (shuffle : nat -> list Z -> list Z) (data : ScheduleGenerator.api_data)
  (response : ScheduleGenerator.schedule_data)
  (sed : list (string * list Z)) (cd : list (string * Z)) :
  (forall n l x, In x (shuffle n l) -> In x l) ->
  ScheduleGenerator.generate_schedule_locally cfg shuffle data
  = Some (response, sed, cd) ->
  (forall c d, In (c, d) cd -> Spec.in_window cfg d)
  /\ (forall s dates d,
         In (s, dates) sed -> In d dates -> Spec.in_window cfg d).
Proof.
  intros Hsh Hgen.
  destruct (generate_schedule_locally_Some cfg shuffle data _ _ _ Hgen)
    as (_ & -> & -> & _).
  destruct (final_state_dates cfg shuffle data Hsh) as [Hcd Hsed].
  split.
  - intros c d Hin. apply available_dates_in_window. now apply (Hcd c).
  - intros s dates d Hs Hd. apply available_dates_in_window.
    rewrite Forall_forall in Hsed. specialize (Hsed _ Hs).
    rewrite Forall_forall in Hsed. now apply Hsed.
Qed.

Lemma X2_window_witness : Spec.in_window Examples.cfg_gap2 739399.
Proof.
  assert (H := X2_committed_dates_lie_in_the_window Examples.cfg_gap2
                 Examples.keep_order Examples.data_abc
                 (ScheduleGenerator.response_of ["A"; "B"; "C"]%string
                    (ScheduleGenerator.student_courses_of Examples.students_ab)
                    (ScheduleGenerator.final_state Examples.cfg_gap2
                       Examples.keep_order Examples.data_abc))
                 [("s1", [739397; 739399]); ("s2", [739397])]%string
                 [("A", 739397); ("B", 739399); ("C", 739397)]%string).
  apply (proj1 (H (fun n l x Hx => Hx) ltac:(vm_compute; reflexivity))
           "B"%string).
  simpl. auto.
Defined.

(** X3. When the shuffle returns only dates of the list it is given, the
    number of courses to which a run of the date-only scheduler gives a
    date is at most MAX_EXAMS_PER_DAY times the number of available
    dates of the window. *)
Theorem X3_dated_courses_fit_the_capacity (cfg : ScheduleGenerator.config)
  (shuffle : nat -> list Z -> list Z) (data : ScheduleGenerator.api_data)
  (response : ScheduleGenerator.schedule_data)
  (sed : list (string * list Z)) (cd : list (string * Z)) :
  (forall n l x, In x (shuffle n l) -> In x l) ->
  ScheduleGenerator.generate_schedule_locally cfg shuffle data
  = Some (response, sed, cd) ->
  Z.of_nat (length cd)
  <= ScheduleGenerator.MAX_EXAMS_PER_DAY
     * Z.of_nat (length (ScheduleGenerator.available_dates cfg)).
Proof.
  intros Hsh Hgen.
  destruct (generate_schedule_locally_Some cfg shuffle data _ _ _ Hgen)
    as (_ & _ & -> & _).
  pose proof (final_state_load cfg shuffle data Hsh) as Hload.
  pose proof (daily_day_load cfg _ _ (final_state_daily cfg shuffle data))
    as Hday.
  assert (Hbound : forall l,
             Spec.window_load l
               (ScheduleGenerator.exams_per_day
                  (ScheduleGenerator.final_state cfg shuffle data))
             <= ScheduleGenerator.MAX_EXAMS_PER_DAY * Z.of_nat (length l)).
  { unfold Spec.window_load.
    induction l as [|x l IH]; [simpl; lia|].
    cbn [map fold_right length]. destruct (Hday x) as [_ Hx].
    unfold ScheduleGenerator.MAX_EXAMS_PER_DAY in *. lia. }
  specialize (Hbound (ScheduleGenerator.available_dates cfg)). lia.
Qed.

Lemma X3_capacity_witness :
  Z.of_nat
    (length
       (ScheduleGenerator.course_dates
          (ScheduleGenerator.final_state Examples.cfg_gap2 Examples.keep_order
             Examples.data_abc)))
  <= ScheduleGenerator.MAX_EXAMS_PER_DAY
     * Z.of_nat (length (ScheduleGenerator.available_dates Examples.cfg_gap2)).
Proof.
  apply (X3_dated_courses_fit_the_capacity Examples.cfg_gap2
           Examples.keep_order Examples.data_abc
           (ScheduleGenerator.response_of ["A"; "B"; "C"]%string
              (ScheduleGenerator.student_courses_of Examples.students_ab)
              (ScheduleGenerator.final_state Examples.cfg_gap2
                 Examples.keep_order Examples.data_abc))
           (ScheduleGenerator.student_exam_dates
              (ScheduleGenerator.final_state Examples.cfg_gap2
                 Examples.keep_order Examples.data_abc))).
  - intros n l x Hx. exact Hx.
  - vm_compute. reflexivity.
Defined.

(** X4. The statistic [total_courses_scheduled] of the date-only
    scheduler is the length of its schedule list, and this list has one
    record per exam sitting: the statistic equals the total number of
    entries of the exam-date lists of the students. *)
Theorem X4_scheduled_statistic_counts_sittings
  (cfg : ScheduleGenerator.config) (shuffle : nat -> list Z -> list Z)
  (data : ScheduleGenerator.api_data)
  (response : ScheduleGenerator.schedule_data)
  (sed : list (string * list Z)) (cd : list (string * Z)) :
  ScheduleGenerator.generate_schedule_locally cfg shuffle data
  = Some (response, sed, cd) ->
  exists st,
    ScheduleGenerator.stats response = Some st
    /\ ScheduleGenerator.total_courses_scheduled st = Spec.sittings sed.
Proof.
  intro Hgen.
  destruct (generate_schedule_locally_Some cfg shuffle data _ _ _ Hgen)
    as (-> & -> & _).
  eexists. split; [reflexivity|]. cbn.
  apply final_state_sittings.
Qed.

Lemma X4_sittings_witness :
  exists st,
    ScheduleGenerator.stats
      (ScheduleGenerator.response_of ["A"; "B"; "C"]%string
         (ScheduleGenerator.student_courses_of Examples.students_ab)
         (ScheduleGenerator.final_state Examples.cfg_gap2 Examples.keep_order
            Examples.data_abc)) = Some st
    /\ ScheduleGenerator.total_courses_scheduled st
       = Spec.sittings [("s1", [739397; 739399]); ("s2", [739397])]%string.
Proof.
  apply (X4_scheduled_statistic_counts_sittings Examples.cfg_gap2
           Examples.keep_order Examples.data_abc _ _
           [("A", 739397); ("B", 739399); ("C", 739397)]%string).
  vm_compute. reflexivity.
Defined.

(** ** The exam dates rebuilt from a schedule *)

Section RebuiltDates.

Import Py ScheduleGenerator Spec Reach.

Local Abbreviation dates_of := (dict_get_default String.eqb (@nil Z)).

Lemma taking_iff_takes (sc : list (string * list string)) (s c : string) :
  In s (course_students_taking_this c sc) <-> takes sc s c.
Proof.
  unfold course_students_taking_this, takes. rewrite in_map_iff. split.
  - intros ([s' l] & <- & H). apply filter_In in H. exists l. exact H.
  - intros (l & Hin & Hc). exists (s, l). split; [reflexivity|].
    apply filter_In. auto.
Qed.

(** Lines 221-223 add the date to the list of the students who take the
    course, and to no other list. *)
Lemma add_exam_date_In (c : string) (d d' : Z) (s : string)
  (sc : list (string * list string)) :
  forall sed,
    In d' (dates_of s (add_exam_date c d sc sed))
    <-> In d' (dates_of s sed) \/ (d' = d /\ takes sc s c).
Proof.
  unfold add_exam_date, takes.
  induction sc as [|[s0 l0] sc IH]; simpl; intro sed.
  - split; [tauto|]. intros [H|[_ (l & [] & _)]]. exact H.
  - rewrite IH. cbn [fst snd].
    destruct (str_in c l0) eqn:Ec.
    + destruct (string_dec s0 s) as [->|Hne].
      * rewrite (dd_update_value_same _ string_eqb_eq), in_app_iff. simpl.
        split.
        -- intros [[H|[<-|[]]]|[-> (l & Hl & Hc)]]; eauto 7.
        -- intros [H|[-> (l & [[= <-]|Hl] & Hc)]]; eauto 7.
      * rewrite (dd_update_value_other _ string_eqb_eq) by congruence.
        split.
        -- intros [H|[-> (l & Hl & Hc)]]; eauto 7.
        -- intros [H|[-> (l & [[= ? ?]|Hl] & Hc)]];
             [auto|congruence|eauto 7].
    + split.
      * intros [H|[-> (l & Hl & Hc)]]; eauto 7.
      * intros [H|[-> (l & [[= ? <-]|Hl] & Hc)]];
          [auto|congruence|eauto 7].
Qed.

Lemma dict_get_map_values {V W : Type} (f : V -> W) (k : string)
  (d : list (string * V)) :
  dict_get String.eqb k (map (fun e => (fst e, f (snd e))) d)
  = option_map f (dict_get String.eqb k d).
Proof.
  induction d as [|[k0 v0] d IH]; simpl; [reflexivity|].
  destruct (String.eqb k k0); [reflexivity|exact IH].
Qed.

Lemma In_map_values {V W : Type} (f : V -> W) (k : string) (w : W)
  (d : list (string * V)) :
  In (k, w) (map (fun e => (fst e, f (snd e))) d) ->
  exists v, In (k, v) d /\ w = f v.
Proof.
  rewrite in_map_iff. intros ([k0 v0] & [= <- <-] & H). eauto.
Qed.

Lemma rebuilt_exam_dates (schedule_list : list schedule_item)
  (students : list (string * student)) :
  (forall s d,
      In d (dates_of s
              (build_student_exam_dates_from_schedule schedule_list students))
      <-> exists item c,
            In item schedule_list
            /\ course_code item = Some c
            /\ date item = Some (ValidDate d)
            /\ takes (student_courses_of students) s c)
  /\ (forall s dates,
         In (s, dates)
           (build_student_exam_dates_from_schedule schedule_list students) ->
         StronglySorted (fun a b => Z.leb a b = true) dates).
Proof.
  unfold build_student_exam_dates_from_schedule. split.
  - intros s d.
    unfold dict_get_default. rewrite dict_get_map_values.
    set (sc := student_courses_of students).
    set (step := fun sed item =>
                   match course_code item, date item with
                   | Some course, Some (ValidDate exam_date) =>
                       add_exam_date course exam_date sc sed
                   | _, _ => sed
                   end).
    assert (Hfold : forall l sed,
               In d (dates_of s (fold_left step l sed))
               <-> In d (dates_of s sed)
                   \/ exists item c,
                        In item l
                        /\ course_code item = Some c
                        /\ date item = Some (ValidDate d)
                        /\ takes sc s c).
    { induction l as [|it l IH]; simpl; intro sed.
      - split; [tauto|]. intros [H|(it & c & [] & _)]. exact H.
      - rewrite IH. unfold step.
        destruct (course_code it) as [c0|] eqn:Ec;
          [destruct (date it) as [[d0|]|] eqn:Ed|].
        + rewrite add_exam_date_In. split.
          * intros [[H|[-> Ht]]|(it' & c & Hin & H)]; eauto 9.
          * intros [H|(it' & c & [<-|Hin] & Hc & Hd & Ht)]; eauto 9.
            left. right. rewrite Ec in Hc. rewrite Ed in Hd.
            injection Hc as ->. injection Hd as ->. auto.
        + split.
          * intros [H|(it' & c & Hin & H)]; eauto 9.
          * intros [H|(it' & c & [<-|Hin] & Hc & Hd & Ht)]; eauto 9.
            rewrite Ed in Hd. discriminate.
        + split.
          * intros [H|(it' & c & Hin & H)]; eauto 9.
          * intros [H|(it' & c & [<-|Hin] & Hc & Hd & Ht)]; eauto 9.
            rewrite Ed in Hd. discriminate.
        + split.
          * intros [H|(it' & c & Hin & H)]; eauto 9.
          * intros [H|(it' & c & [<-|Hin] & Hc & Hd & Ht)]; eauto 9.
            rewrite Ec in Hc. discriminate. }
    specialize (Hfold schedule_list []).
    unfold dict_get_default in Hfold.
    destruct (dict_get String.eqb s (fold_left step schedule_list []))
      as [l|]; simpl option_map; cbv iota.
    + rewrite sorted_asc_In, Hfold. simpl. tauto.
    + rewrite Hfold. simpl. tauto.
  - intros s dates Hin. apply In_map_values in Hin.
    destruct Hin as (v & _ & ->).
    apply sorted_asc_sorted.
    + intros a b. rewrite !Z.leb_le. lia.
    + intros a b c. rewrite !Z.leb_le. lia.
Qed.

(** X5. The exam-date map rebuilt from any schedule list: a date is in
    the list of a student exactly when some schedule item that has a
    course code and a date that parses carries this date for a course the
    student takes (items without one of the two keys, or with a date
    that does not parse, are skipped); and every list is in ascending
    order. *)
Theorem X5_rebuilt_exam_dates (schedule_list : list schedule_item)
  (students : list (string * student)) :
  (forall s d,
      In d (dates_of s
              (build_student_exam_dates_from_schedule schedule_list students))
      <-> exists item c,
            In item schedule_list
            /\ course_code item = Some c
            /\ date item = Some (ValidDate d)
            /\ takes (student_courses_of students) s c)
  /\ (forall s dates,
         In (s, dates)
           (build_student_exam_dates_from_schedule schedule_list students) ->
         StronglySorted (fun a b => Z.leb a b = true) dates).
Proof. exact (rebuilt_exam_dates schedule_list students). Qed.

(** The list rebuilt for s1 from a schedule with B on Wednesday and A on
    Monday is in ascending order. *)
Lemma X5_rebuilt_sorted_witness :
  StronglySorted (fun a b => Z.leb a b = true) [739397; 739399].
Proof.
  apply (proj2 (X5_rebuilt_exam_dates
                  [Examples.item "B" 739399; Examples.item "A" 739397]
                  Examples.students_s1) "s1"%string).
  vm_compute. left. reflexivity.
Defined.

(** The date-only scheduler keeps its schedule list and its exam-date
    map in step: a student has a date exactly when the list has a record
    with this date for a course of the student. *)
Lemma final_state_schedule_dates (cfg : config)
  (shuffle : nat -> list Z -> list Z) (data : api_data) (s : string) (d : Z) :
  In d (dates_of s (student_exam_dates (final_state cfg shuffle data)))
  <-> exists c,
        In {| course_code := Some c; date := Some (ValidDate d) |}
          (st_schedule (final_state cfg shuffle data))
        /\ takes (student_courses_of (students_full_details data)) s c.
Proof.
  apply (final_state_keeps cfg shuffle data
           (fun st =>
              In d (dates_of s (student_exam_dates st))
              <-> exists c,
                    In {| course_code := Some c; date := Some (ValidDate d) |}
                      (st_schedule st)
                    /\ takes (student_courses_of (students_full_details data)) s c)).
  - simpl. split; [intros []|intros (c & [] & _)].
  - intros n course st _ IH.
    destruct (schedule_course_step cfg (student_courses_of (students_full_details data)) course
                (shuffle n (available_dates cfg)) st)
      as (ds & ks & _ & Hs & [(Hsch & _ & Hsed & _)|(d0 & _ & Hst & _)]).
    + now rewrite Hsch, Hsed, Hs.
    + rewrite Hst, commit_schedule, commit_student_exam_dates.
      rewrite record_students_dates, Hs, in_app_iff, IH.
      simpl st_schedule.
      assert (Hrep : forall (A : Type) (x y : A) (k : nat),
                 In y (repeat x k) <-> (y = x /\ (0 < k)%nat)).
      { intros A x y k. induction k as [|k IHk]; simpl; [split; [tauto|lia]|].
        rewrite IHk. split; [intros [<-|[-> _]]; split; auto; lia|].
        intros [-> _]. now left. }
      rewrite Hrep.
      assert (Hocc : (0 < count_occ string_dec
                            (course_students_taking_this course (student_courses_of (students_full_details data))) s)%nat
                     <-> takes (student_courses_of (students_full_details data)) s course).
      { rewrite <- taking_iff_takes, (count_occ_In string_dec).
        unfold gt. reflexivity. }
      split.
      * intros [(c & Hin & Ht)|[-> Hk]].
        -- exists c. split; [|exact Ht]. apply in_or_app. now left.
        -- apply Hocc in Hk. exists course. split; [|exact Hk].
           apply in_or_app. right. apply Hrep. split; [reflexivity|].
           apply taking_iff_takes in Hk.
           destruct (course_students_taking_this course (student_courses_of (students_full_details data)));
             [destruct Hk|simpl; lia].
      * intros (c & Hin & Ht). apply in_app_or in Hin.
        destruct Hin as [Hin|Hin]; [left; eauto|].
        apply Hrep in Hin. destruct Hin as [[= -> ->] _].
        right. split; [reflexivity|]. now apply Hocc.
Qed.

(** X6. The exam-date map that [build_student_exam_dates_from_schedule]
    rebuilds from the schedule list of a run of the date-only scheduler
    has, for every student, the dates that the scheduler's own map has
    for the student. *)
Theorem X6_rebuilt_dates_are_the_scheduled_dates (cfg : config)
  (shuffle : nat -> list Z -> list Z) (data : api_data)
  (response : schedule_data) (sed : list (string * list Z))
  (cd : list (string * Z)) :
  generate_schedule_locally cfg shuffle data = Some (response, sed, cd) ->
  exists schedule_list,
    schedule response = Some schedule_list
    /\ forall s d,
         In d (dates_of s
                 (build_student_exam_dates_from_schedule schedule_list
                    (students_full_details data)))
         <-> In d (dates_of s sed).
Proof.
  intro Hgen.
  destruct (generate_schedule_locally_Some cfg shuffle data _ _ _ Hgen)
    as (-> & -> & _).
  eexists. split; [reflexivity|]. intros s d.
  rewrite final_state_schedule_dates.
  rewrite (proj1 (rebuilt_exam_dates _ _)). split.
  - intros ([c0 d0] & c & Hin & Hc & Hd & Ht). simpl in Hc, Hd. subst.
    exists c. split; assumption.
  - intros (c & Hin & Ht).
    exists {| course_code := Some c; date := Some (ValidDate d) |}, c.
    repeat split; assumption.
Qed.

Lemma X6_rebuilt_witness :
  exists schedule_list,
    schedule
      (response_of ["A"; "B"; "C"]%string
         (student_courses_of Examples.students_ab)
         (final_state Examples.cfg_gap2 Examples.keep_order Examples.data_abc))
    = Some schedule_list
    /\ forall s d,
         In d (dates_of s
                 (build_student_exam_dates_from_schedule schedule_list
                    (students_full_details Examples.data_abc)))
         <-> In d (dates_of s
                     [("s1", [739397; 739399]); ("s2", [739397])]%string).
Proof.
  apply (X6_rebuilt_dates_are_the_scheduled_dates Examples.cfg_gap2
           Examples.keep_order Examples.data_abc _ _
           [("A", 739397); ("B", 739399); ("C", 739397)]%string).
  vm_compute. reflexivity.
Defined.

End RebuiltDates.

(** ** What an empty report of the verifier means *)

Section VerifierCompleteness.

Import Py ScheduleGenerator Spec.

Lemma increasing_gaps (min_gap : Z) (l : list Z) :
  StronglySorted Z.lt l ->
  (forall l1 d1 d2 l2, l = l1 ++ d1 :: d2 :: l2 -> min_gap <= d2 - d1) ->
  forall a b, In a l -> In b l -> a < b -> min_gap <= b - a.
Proof.
  induction 1 as [|x l Hs IH Hx]; intros Hadj a b Ha Hb Hlt;
    [destruct Ha|].
  rewrite Forall_forall in Hx.
  assert (Hadj' : forall l1 d1 d2 l2,
             l = l1 ++ d1 :: d2 :: l2 -> min_gap <= d2 - d1).
  { intros l1 d1 d2 l2 ->. apply (Hadj (x :: l1) d1 d2 l2). reflexivity. }
  destruct Ha as [<-|Ha], Hb as [<-|Hb].
  - lia.
  - destruct l as [|y l]; [destruct Hb|].
    specialize (Hadj [] x y l eq_refl).
    destruct Hb as [<-|Hb]; [exact Hadj|].
    inversion Hs as [|? ? _ Hy]; subst.
    rewrite Forall_forall in Hy. specialize (Hy b Hb). lia.
  - specialize (Hx a Ha). lia.
  - now apply IH.
Qed.

(** X7. When [check_final_schedule_conflicts] returns no record, any two
    distinct exam dates of a student are at least
    MIN_DAYS_BETWEEN_EXAMS days apart, provided that the verifier can
    tell a course of the student on each of the student's dates (it
    passes over a pair of dates on which it finds no course). *)
Theorem X7_empty_report_means_gaps_are_kept (cfg : config)
  (sed : list (string * list Z)) (cd : list (string * Z))
  (sc : list (string * list string)) (s : string) (dates : list Z) :
  check_final_schedule_conflicts cfg sed cd sc = [] ->
  In (s, dates) sed ->
  (forall d, In d dates -> courses_on d s cd sc <> []) ->
  forall d1 d2,
    In d1 dates -> In d2 dates -> d1 <> d2 ->
    MIN_DAYS_BETWEEN_EXAMS cfg <= Z.abs (d1 - d2).
Proof.
  intros Hnone Hs Hknown d1 d2 H1 H2 Hne.
  assert (Hflat : flat_map
                    (fun e => gap_conflicts cfg (fst e) cd sc
                                (sorted_set (snd e))) sed = []).
  { unfold check_final_schedule_conflicts in Hnone.
    destruct sed as [|e sed']; [destruct Hs|].
    destruct cd as [|c cd'].
    - exfalso. now apply (Hknown d1 H1).
    - destruct sc as [|x sc']; [|exact Hnone].
      exfalso. apply (Hknown d1 H1).
      generalize (c :: cd'). intro l. unfold courses_on.
      induction l as [|y l IH]; [reflexivity|].
      cbn [filter]. unfold dict_get_default, str_in at 1. cbn [dict_get existsb].
      rewrite andb_false_r. exact IH. }
  assert (Hgap : gap_conflicts cfg s cd sc (sorted_set dates) = []).
  { destruct (gap_conflicts cfg s cd sc (sorted_set dates)) as [|r rs] eqn:E;
      [reflexivity|].
    assert (Hin : In r (flat_map
                          (fun e => gap_conflicts cfg (fst e) cd sc
                                      (sorted_set (snd e))) sed)).
    { apply in_flat_map. exists (s, dates). split; [exact Hs|].
      simpl. rewrite E. now left. }
    rewrite Hflat in Hin. destruct Hin. }
  assert (Hadj : forall l1 a b l2,
             sorted_set dates = l1 ++ a :: b :: l2 ->
             MIN_DAYS_BETWEEN_EXAMS cfg <= b - a).
  { intros l1 a b l2 Hl.
    destruct (Z_lt_le_dec (b - a) (MIN_DAYS_BETWEEN_EXAMS cfg)) as [Hlt|Hle];
      [exfalso|exact Hle].
    pose proof (sorted_set_increasing dates) as Hinc.
    rewrite Hl in Hinc.
    assert (Hab : a < b).
    { clear -Hinc. induction l1 as [|x l1 IH]; simpl in Hinc.
      - inversion Hinc as [|? ? _ Hall]; subst.
        now inversion Hall.
      - inversion Hinc; subst. auto. }
    assert (Hin : In (gap_record cd sc s a b)
                    (gap_conflicts cfg s cd sc (sorted_set dates))).
    { apply gap_conflicts_In. exists l1, a, b, l2.
      split; [exact Hl|]. split; [lia|]. split; [|reflexivity].
      cbn [gap_record exams]. intro Hnil. apply app_eq_nil in Hnil.
      apply (Hknown a); [|tauto].
      apply sorted_set_In. rewrite Hl. apply in_or_app. right. now left. }
    rewrite Hgap in Hin. destruct Hin. }
  pose proof (increasing_gaps (MIN_DAYS_BETWEEN_EXAMS cfg) (sorted_set dates)
                (sorted_set_increasing dates) Hadj) as Hall.
  apply sorted_set_In in H1, H2.
  destruct (Z_lt_le_dec d1 d2) as [Hlt|Hle].
  - specialize (Hall d1 d2 H1 H2 Hlt). lia.
  - assert (Hlt : d2 < d1) by lia.
    specialize (Hall d2 d1 H2 H1 Hlt). lia.
Qed.

(** Exams on Monday and Wednesday, a gap of two days being required. *)
Lemma X7_gaps_witness :
  MIN_DAYS_BETWEEN_EXAMS Examples.cfg_gap2 <= Z.abs (739397 - 739399).
Proof.
  apply (X7_empty_report_means_gaps_are_kept Examples.cfg_gap2
           [("s1", [739397; 739399])]%string
           [("A", 739397); ("B", 739399)]%string
           [("s1", ["A"; "B"])]%string "s1"%string [739397; 739399]).
  - vm_compute. reflexivity.
  - now left.
  - intros d [<-|[<-|[]]]; vm_compute; discriminate.
  - now left.
  - right. now left.
  - discriminate.
Defined.

End VerifierCompleteness.

(** ** The pair keys taken apart again *)

Section PairKeys.

Import Py Spec.

Lemma split_underscore_not_nil (s : string) : split_underscore s <> [].
Proof.
  destruct s as [|c s]; simpl; [discriminate|].
  destruct (Ascii.eqb c "_"); [discriminate|].
  destruct (split_underscore s); discriminate.
Qed.

Lemma split_underscore_one (s b : string) :
  split_underscore s = [b] -> s = b /\ no_underscore b = true.
Proof.
  revert b. induction s as [|c s IH]; simpl; intros b H.
  - injection H as <-. auto.
  - destruct (Ascii.eqb c "_") eqn:Ec.
    + injection H as _ Hs. exfalso.
      exact (split_underscore_not_nil _ Hs).
    + destruct (split_underscore s) as [|p ps] eqn:Es;
        [exfalso; exact (split_underscore_not_nil _ Es)|].
      injection H as <- ->. destruct (IH p eq_refl) as [-> Hp].
      simpl. now rewrite Ec, Hp.
Qed.

(** A key that splits into two pieces is the two pieces joined by an
    underscore, and the pieces have none. *)
Lemma split_pair_joins (k a b : string) :
  split_pair k = Some (a, b) ->
  (a ++ "_" ++ b)%string = k
  /\ no_underscore a = true /\ no_underscore b = true.
Proof.
  unfold split_pair.
  destruct (split_underscore k) as [|x [|y [|z l]]] eqn:E; try discriminate.
  intros [= -> ->].
  change (a ++ "_" ++ b)%string with (a ++ String "_"%char b)%string.
  revert a E. induction k as [|c k IH]; simpl; intros a E; [discriminate|].
  destruct (Ascii.eqb c "_") eqn:Ec.
  - injection E as <- E. apply Ascii.eqb_eq in Ec. subst c.
    apply split_underscore_one in E. destruct E as [-> Hb]. auto.
  - destruct (split_underscore k) as [|p ps] eqn:Es; [discriminate|].
    injection E as <- ->. destruct (IH p eq_refl) as (<- & Hp & Hb).
    simpl. rewrite Ec, Hp. auto.
Qed.

(** Taking the keys of some pairs apart gives entries that name the same
    pairs with the same counts. *)
Lemma conflict_entries_pairs (pairs : list (string * Z))
  (entries : list ScheduleGenerator.conflict_entry) :
  ScheduleGenerator.conflict_entries pairs = Some entries ->
  map (fun e =>
         (ScheduleGenerator.pair_key (ScheduleGenerator.course1 e)
            (ScheduleGenerator.course2 e),
          ScheduleGenerator.common_students e)) entries = pairs
  /\ Forall
       (fun e =>
          no_underscore (ScheduleGenerator.course1 e) = true
          /\ no_underscore (ScheduleGenerator.course2 e) = true) entries.
Proof.
  revert entries. induction pairs as [|[k n] pairs IH]; simpl; intros entries H.
  - injection H as <-. split; [reflexivity|constructor].
  - destruct (split_pair k) as [[a b]|] eqn:Ek; [|discriminate].
    destruct (ScheduleGenerator.conflict_entries pairs) as [es|];
      [|discriminate].
    injection H as <-. destruct (IH es eq_refl) as [Hmap Hall].
    apply split_pair_joins in Ek. destruct Ek as (Hk & Ha & Hb).
    simpl. unfold ScheduleGenerator.pair_key at 1. rewrite Hk, Hmap.
    split; [reflexivity|]. constructor; [simpl; auto|exact Hall].
Qed.

Lemma conflict_entries_returns (pairs : list (string * Z)) :
  Forall (fun p => split_pair (fst p) <> None) pairs ->
  exists entries, ScheduleGenerator.conflict_entries pairs = Some entries.
Proof.
  induction 1 as [|[k n] pairs Hk _ IH]; simpl; [eauto|].
  simpl in Hk. destruct (split_pair k) as [[a b]|]; [|contradiction].
  destruct IH as [es ->]. eauto.
Qed.

(** With course codes without underscore, every key of the date-only
    analyzer splits into its two courses. *)
Lemma daily_keys_split (students : list (string * ScheduleGenerator.student)) :
  forallb (fun s => forallb no_underscore (ScheduleGenerator.courses (snd s)))
    students = true ->
  Forall (fun p => split_pair (fst p) <> None)
    (ScheduleGenerator.sorted_pairs students).
Proof.
  intro Hplain. apply Forall_forall. intros [k n] Hin.
  unfold ScheduleGenerator.sorted_pairs in Hin.
  rewrite daily_course_pairs in Hin.
  apply (count_keys_ranked (daily_pair_keys students)) in Hin.
  destruct Hin as [Hk _]. unfold daily_pair_keys in Hk.
  apply in_flat_map in Hk. destruct Hk as (s & Hs & Hk).
  apply in_map_iff in Hk. destruct Hk as ([a b] & <- & Hp).
  apply pairs_of_In in Hp. destruct Hp as [Ha Hb].
  apply sorted_asc_In in Ha, Hb.
  rewrite forallb_forall in Hplain. specialize (Hplain s Hs).
  rewrite forallb_forall in Hplain.
  cbn [fst snd]. unfold ScheduleGenerator.pair_key.
  rewrite split_pair_key by auto. discriminate.
Qed.

Lemma Forall_firstn {A : Type} (P : A -> Prop) (n : nat) (l : list A) :
  Forall P l -> Forall P (firstn n l).
Proof.
  intro H. revert n. induction H as [|x l Hx Hl IH]; intros [|n]; simpl;
    constructor; auto.
Qed.

Lemma prepare_data_for_api_spec
  (students : list (string * ScheduleGenerator.student))
  (course_info : list (string * string)) :
  (forall data,
      ScheduleGenerator.prepare_data_for_api students course_info = Some data ->
      ScheduleGenerator.all_course_codes data = map fst course_info
      /\ ScheduleGenerator.students_full_details data = students
      /\ map (fun e =>
                (ScheduleGenerator.pair_key (ScheduleGenerator.course1 e)
                   (ScheduleGenerator.course2 e),
                 ScheduleGenerator.common_students e))
           (ScheduleGenerator.conflict_analysis data)
         = firstn 50 (ScheduleGenerator.sorted_pairs students)
      /\ (length (ScheduleGenerator.conflict_analysis data) <= 50)%nat)
  /\ (forallb
        (fun s => forallb no_underscore (ScheduleGenerator.courses (snd s)))
        students = true ->
      exists data,
        ScheduleGenerator.prepare_data_for_api students course_info
        = Some data).
Proof.
  split.
  - intros data H. unfold ScheduleGenerator.prepare_data_for_api in H.
    destruct (ScheduleGenerator.analyze_course_conflicts students)
      as [out|] eqn:Ea; [|discriminate].
    assert (Hout : out = ScheduleGenerator.sorted_pairs students).
    { unfold ScheduleGenerator.analyze_course_conflicts in Ea.
      destruct (forallb _ _); [now injection Ea as <-|discriminate]. }
    subst out.
    destruct (ScheduleGenerator.conflict_entries
                (firstn 50 (ScheduleGenerator.sorted_pairs students)))
      as [es|] eqn:Ee; [|discriminate].
    injection H as <-. cbn.
    destruct (conflict_entries_pairs _ _ Ee) as [Hmap _].
    repeat split; [exact Hmap|].
    rewrite <- (length_map
                  (fun e =>
                     (ScheduleGenerator.pair_key (ScheduleGenerator.course1 e)
                        (ScheduleGenerator.course2 e),
                      ScheduleGenerator.common_students e))), Hmap.
    apply firstn_le_length.
  - intro Hplain. unfold ScheduleGenerator.prepare_data_for_api.
    rewrite (daily_analyze_returns students Hplain).
    destruct (conflict_entries_returns
                (firstn 50 (ScheduleGenerator.sorted_pairs students)))
      as [es ->]; [|eauto].
    apply Forall_firstn. now apply daily_keys_split.
Qed.

(** X8. When [prepare_data_for_api] returns, the course codes it passes
    on are the keys of [course_info], the students are passed on
    unchanged, and [conflict_analysis] names, entry by entry, the first
    50 pairs of the conflict analyzer: joining the two course codes of an
    entry with an underscore gives back the key of the pair, with its
    count.  It returns whenever no course code of a student has an
    underscore. *)
Theorem X8_conflict_analysis_names_the_first_pairs
  (students : list (string * ScheduleGenerator.student))
  (course_info : list (string * string)) :
  (forall data,
      ScheduleGenerator.prepare_data_for_api students course_info = Some data ->
      ScheduleGenerator.all_course_codes data = map fst course_info
      /\ ScheduleGenerator.students_full_details data = students
      /\ map (fun e =>
                (ScheduleGenerator.pair_key (ScheduleGenerator.course1 e)
                   (ScheduleGenerator.course2 e),
                 ScheduleGenerator.common_students e))
           (ScheduleGenerator.conflict_analysis data)
         = firstn 50 (ScheduleGenerator.sorted_pairs students)
      /\ (length (ScheduleGenerator.conflict_analysis data) <= 50)%nat)
  /\ (forallb
        (fun s => forallb no_underscore (ScheduleGenerator.courses (snd s)))
        students = true ->
      exists data,
        ScheduleGenerator.prepare_data_for_api students course_info
        = Some data).
Proof. exact (prepare_data_for_api_spec students course_info). Qed.

Lemma X8_prepare_witness :
  exists data,
    ScheduleGenerator.prepare_data_for_api Examples.students_ranking
      Examples.course_info_ab = Some data.
Proof.
  apply (X8_conflict_analysis_names_the_first_pairs Examples.students_ranking
           Examples.course_info_ab).
  reflexivity.
Defined.

End PairKeys.

(** ** What [main] ends with *)

Section MainRuns.

Import Py ScheduleGenerator Spec.

Variable cfg : config.
Variable shuffle : nat -> list Z -> list Z.

(** The final conflict check on what the greedy scheduler returned
    finishes and finds nothing. *)
Lemma final_conflict_check_local (key : string)
  (students : list (string * student)) (data : api_data)
  (response : schedule_data) (sed : list (string * list Z))
  (cd : list (string * Z)) :
  generate_schedule_locally (with_key cfg key) shuffle data
  = Some (response, sed, cd) ->
  exists out st,
    final_conflict_check (with_key cfg key) students
      (Some response) (Some sed) (Some cd) = Finished out
    /\ schedule out = schedule response
    /\ issues out = issues response
    /\ final_conflicts out = Some []
    /\ stats out = Some st
    /\ unresolved_student_conflicts st = 0.
Proof.
  intro Hgen.
  destruct (generate_schedule_locally_Some _ _ _ _ _ _ Hgen)
    as (-> & -> & -> & _).
  assert (Hnone : forall sc,
             check_final_schedule_conflicts (with_key cfg key)
               (student_exam_dates (final_state (with_key cfg key) shuffle data))
               (course_dates (final_state (with_key cfg key) shuffle data)) sc
             = []).
  { intro sc. apply check_final_schedule_conflicts_none.
    apply (daily_invariants (with_key cfg key)
             (student_courses_of (students_full_details data))).
    - apply student_courses_of_NoDup.
    - apply final_state_daily. }
  unfold final_conflict_check. cbn [response_of schedule stats issues].
  rewrite Hnone. eexists. eexists. split; [reflexivity|].
  cbn. auto.
Qed.

(** X9. [main] with the greedy scheduler: when the local scheduler is
    forced, no key is available, the request fails or the answer is not
    JSON, and there are courses, students whose course codes have no
    underscore, and an available date in the window, [main] reaches its
    output with the schedule of [generate_schedule_locally], an empty
    [final_conflicts] list and 0 unresolved conflicts. *)
Theorem X9_main_with_the_greedy_scheduler_reports_no_conflict
  (local_only : bool) (api_key : string) (answer : api_answer)
  (course_info : list (string * string))
  (students : list (string * student)) :
  local_only = true \/ chosen_key cfg api_key = ""%string
  \/ answer = RequestFailed \/ answer = NotJson ->
  course_info <> [] ->
  students <> [] ->
  forallb (fun s => forallb no_underscore (courses (snd s))) students = true ->
  available_dates cfg <> [] ->
  exists out st data response sed cd,
    main cfg shuffle local_only api_key answer course_info students
    = Finished out
    /\ prepare_data_for_api students course_info = Some data
    /\ generate_schedule_locally (with_key cfg (chosen_key cfg api_key))
         shuffle data = Some (response, sed, cd)
    /\ schedule out = schedule response
    /\ final_conflicts out = Some []
    /\ stats out = Some st
    /\ unresolved_student_conflicts st = 0.
Proof.
  intros Hlocal Hci Hst Hplain Hdates.
  destruct (proj2 (prepare_data_for_api_spec students
                     course_info) Hplain) as [data Hprep].
  destruct (proj1 (prepare_data_for_api_spec students
                     course_info) data Hprep) as (Hcodes & Hstud & _).
  destruct (generate_schedule_locally_returns
              (with_key cfg (chosen_key cfg api_key)) shuffle data)
    as [response Hgen].
  { rewrite Hcodes. destruct course_info; [contradiction|discriminate]. }
  { now rewrite Hstud. }
  { exact Hdates. }
  destruct (final_conflict_check_local (chosen_key cfg api_key) students data
              _ _ _ Hgen) as (out & st & Hfin & Hs & _ & Hfc & Hstats & Hun).
  exists out, st, data, response. eexists. eexists.
  split; [|repeat split; eauto].
  unfold main.
  destruct course_info as [|ci course_info']; [contradiction|].
  destruct students as [|s students']; [contradiction|].
  rewrite Hprep.
  fold (chosen_key cfg api_key).
  fold (with_key cfg (chosen_key cfg api_key)).
  destruct (local_only || negb (negb (String.eqb (chosen_key cfg api_key) "")))
    eqn:Euse.
  - rewrite Hgen. exact Hfin.
  - apply orb_false_iff in Euse. destruct Euse as [Hlo Hkey].
    rewrite negb_involutive in Hkey.
    unfold call_deepseek_api. cbn [DEEPSEEK_API_KEY with_key].
    rewrite Hkey.
    destruct Hlocal as [->|[Hk|[->| ->]]].
    + discriminate.
    + rewrite Hk in Hkey. discriminate.
    + rewrite Hgen. exact Hfin.
    + rewrite Hgen. exact Hfin.
Qed.

(** X10. Whatever the options and the answer of the remote service,
    [main] reaches its output only with a schedule of the greedy
    scheduler, verified without conflict: a JSON answer received with a
    key never gets there. *)
Theorem X10_main_outputs_only_greedy_schedules
  (local_only : bool) (api_key : string) (answer : api_answer)
  (course_info : list (string * string))
  (students : list (string * student)) (out : schedule_data) :
  main cfg shuffle local_only api_key answer course_info students
  = Finished out ->
  (local_only = true \/ chosen_key cfg api_key = ""%string
   \/ answer = RequestFailed \/ answer = NotJson)
  /\ final_conflicts out = Some []
  /\ exists data response sed cd,
       prepare_data_for_api students course_info = Some data
       /\ generate_schedule_locally (with_key cfg (chosen_key cfg api_key))
            shuffle data = Some (response, sed, cd)
       /\ schedule out = schedule response.
Proof.
  unfold main.
  destruct course_info as [|ci course_info']; [discriminate|].
  destruct students as [|s students']; [discriminate|].
  destruct (prepare_data_for_api (s :: students') (ci :: course_info'))
    as [data|] eqn:Hprep; [|discriminate].
  fold (chosen_key cfg api_key).
  fold (with_key cfg (chosen_key cfg api_key)).
  assert (Hlocal :
            forall r,
              match r with
              | Some (sd, sed, cd) =>
                  final_conflict_check (with_key cfg (chosen_key cfg api_key))
                    (s :: students') (Some sd) (Some sed) (Some cd)
              | None =>
                  final_conflict_check (with_key cfg (chosen_key cfg api_key))
                    (s :: students') None None None
              end = Finished out ->
              r = generate_schedule_locally
                    (with_key cfg (chosen_key cfg api_key)) shuffle data ->
              final_conflicts out = Some []
              /\ exists data0 response sed cd,
                   Some data = Some data0
                   /\ generate_schedule_locally
                        (with_key cfg (chosen_key cfg api_key)) shuffle data0
                      = Some (response, sed, cd)
                   /\ schedule out = schedule response).
  { intros [[[sd sed] cd]|] Hfin Hr; [|discriminate].
    symmetry in Hr.
    destruct (final_conflict_check_local (chosen_key cfg api_key)
                (s :: students') data _ _ _ Hr)
      as (out' & st & Hfin' & Hs & _ & Hfc & _).
    rewrite Hfin' in Hfin. injection Hfin as ->.
    split; [exact Hfc|]. exists data, sd, sed, cd. auto. }
  destruct (local_only || negb (negb (String.eqb (chosen_key cfg api_key) "")))
    eqn:Euse.
  - intro H. split; [|exact (Hlocal _ H eq_refl)].
    apply orb_true_iff in Euse. destruct Euse as [->|Hk]; [now left|].
    rewrite negb_involutive in Hk. apply String.eqb_eq in Hk. auto.
  - unfold call_deepseek_api. cbn [DEEPSEEK_API_KEY with_key].
    apply orb_false_iff in Euse. destruct Euse as [_ Hk].
    rewrite negb_involutive in Hk. rewrite Hk.
    destruct answer; [| |discriminate]; intro H;
      (split; [auto|exact (Hlocal _ H eq_refl)]).
Qed.

End MainRuns.

(** A run with the local scheduler forced, on two courses and one
    student. *)
Lemma X9_local_run_witness :
  exists out st data response sed cd,
    ScheduleGenerator.main Examples.cfg_gap2 Examples.keep_order true ""
      ScheduleGenerator.NotJson Examples.course_info_ab Examples.students_s1
    = ScheduleGenerator.Finished out
    /\ ScheduleGenerator.prepare_data_for_api Examples.students_s1
         Examples.course_info_ab = Some data
    /\ ScheduleGenerator.generate_schedule_locally
         (Spec.with_key Examples.cfg_gap2
            (Spec.chosen_key Examples.cfg_gap2 ""))
         Examples.keep_order data = Some (response, sed, cd)
    /\ ScheduleGenerator.schedule out = ScheduleGenerator.schedule response
    /\ ScheduleGenerator.final_conflicts out = Some []
    /\ ScheduleGenerator.stats out = Some st
    /\ ScheduleGenerator.unresolved_student_conflicts st = 0.
Proof.
  apply (X9_main_with_the_greedy_scheduler_reports_no_conflict
           Examples.cfg_gap2 Examples.keep_order true ""%string
           ScheduleGenerator.NotJson Examples.course_info_ab
           Examples.students_s1).
  - now left.
  - discriminate.
  - discriminate.
  - reflexivity.
  - vm_compute. discriminate.
Defined.

Lemma X10_local_run_witness :
  ScheduleGenerator.final_conflicts
    {| ScheduleGenerator.schedule :=
         Some [Examples.item "A" 739397; Examples.item "B" 739399];
       ScheduleGenerator.stats :=
         Some
           {| ScheduleGenerator.total_courses_requested := 2;
              ScheduleGenerator.total_courses_scheduled := 2;
              ScheduleGenerator.total_scheduling_days_used := 3;
              ScheduleGenerator.total_students := 1;
              ScheduleGenerator.unresolved_student_conflicts := 0;
              ScheduleGenerator.courses_not_scheduled := 0 |};
       ScheduleGenerator.issues := [];
       ScheduleGenerator.final_conflicts := Some [] |} = Some [].
Proof.
  apply (X10_main_outputs_only_greedy_schedules Examples.cfg_gap2
           Examples.keep_order true ""%string ScheduleGenerator.NotJson
           Examples.course_info_ab Examples.students_s1).
  vm_compute. reflexivity.
Defined.

(** ** What the analyzer counts *)

Section SharedStudents.

Import Py Spec.

Variables a b : string.
Hypothesis a_plain : no_underscore a = true.
Hypothesis b_plain : no_underscore b = true.
Hypothesis a_before_b : String.leb a b = true.
Hypothesis a_not_b : a <> b.

Local Abbreviation is_ab :=
  (fun p : string * string => String.eqb (fst p) a && String.eqb (snd p) b).

(** Among pairs of codes without underscore, only the pair of [a] and
    [b] has their key. *)
Lemma key_count_is_pair_count (pairs : list (string * string)) :
  Forall (fun p => no_underscore (fst p) = true
                   /\ no_underscore (snd p) = true) pairs ->
  count_occ string_dec
    (map (fun p => ScheduleGenerator.pair_key (fst p) (snd p)) pairs)
    (ScheduleGenerator.pair_key a b)
  = length (filter is_ab pairs).
Proof.
  induction 1 as [|[x y] pairs [Hx Hy] _ IH]; [reflexivity|].
  cbn [map count_occ filter fst snd] in *.
  destruct (string_dec (ScheduleGenerator.pair_key x y)
              (ScheduleGenerator.pair_key a b)) as [E|E].
  - assert (Hs : Some (x, y) = Some (a, b)).
    { rewrite <- (split_pair_key x y Hx Hy), <- (split_pair_key a b a_plain b_plain).
      unfold ScheduleGenerator.pair_key in E. now rewrite E. }
    injection Hs as -> ->. rewrite !String.eqb_refl. simpl. now rewrite IH.
  - destruct (String.eqb x a && String.eqb y b) eqn:Eb; [|exact IH].
    apply andb_true_iff in Eb. destruct Eb as [Ex Ey].
    apply String.eqb_eq in Ex, Ey. subst. contradiction.
Qed.

Lemma no_pair_without_first (l : list string) :
  ~ In a l -> filter is_ab (pairs_of l) = [].
Proof.
  intro Hnot.
  destruct (filter is_ab (pairs_of l)) as [|[x y] r] eqn:E; [reflexivity|].
  assert (Hin : In (x, y) (filter is_ab (pairs_of l)))
    by (rewrite E; now left).
  apply filter_In in Hin. destruct Hin as [Hin Hab].
  apply andb_true_iff in Hab. destruct Hab as [Hx _].
  apply String.eqb_eq in Hx. simpl in Hx. subst x.
  apply pairs_of_In in Hin. tauto.
Qed.

Lemma filter_pairs_with (x : string) (l : list string) :
  length (filter is_ab (map (pair x) l))
  = if String.eqb x a then count_occ string_dec l b else 0%nat.
Proof.
  induction l as [|y l IH]; simpl; [now destruct (String.eqb x a)|].
  destruct (String.eqb x a) eqn:Ex; simpl.
  - destruct (string_dec y b) as [->|Hne].
    + rewrite String.eqb_refl. simpl. now rewrite IH.
    + apply String.eqb_neq in Hne. now rewrite Hne.
  - exact IH.
Qed.

(** In a sorted list without repetition, the pair of [a] and [b] is met
    once if both are in the list and not at all otherwise. *)
Lemma sorted_pairs_count (l : list string) :
  NoDup l -> StronglySorted (fun x y => String.leb x y = true) l ->
  length (filter is_ab (pairs_of l))
  = if str_in a l && str_in b l then 1%nat else 0%nat.
Proof.
  intros Hnd Hs. induction Hs as [|x l Hs IH Hx]; [reflexivity|].
  inversion Hnd as [|? ? Hnotin Hnd']; subst.
  cbn [pairs_of]. rewrite filter_app, length_app, filter_pairs_with.
  unfold str_in in *. cbn [existsb].
  destruct (String.eqb x a) eqn:Exa.
  - apply String.eqb_eq in Exa. subst x.
    rewrite no_pair_without_first by exact Hnotin. simpl length.
    rewrite String.eqb_refl. simpl orb.
    assert (Eba : String.eqb b a = false)
      by (apply String.eqb_neq; congruence).
    rewrite Eba. simpl orb.
    destruct (existsb (String.eqb b) l) eqn:Eb.
    + assert (Hb : In b l) by (apply str_in_In; exact Eb).
      apply (NoDup_count_occ' string_dec) in Hb; [|exact Hnd'].
      rewrite Hb. reflexivity.
    + assert (Hb : ~ In b l).
      { intro Hb. apply str_in_In in Hb. unfold str_in in Hb. congruence. }
      apply (count_occ_not_In string_dec) in Hb. rewrite Hb. reflexivity.
  - rewrite (IH Hnd'). rewrite (String.eqb_sym a x), Exa. simpl orb.
    destruct (existsb (String.eqb a) l) eqn:Ea; [|reflexivity].
    simpl andb.
    destruct (String.eqb b x) eqn:Ebx; [|reflexivity].
    exfalso. apply String.eqb_eq in Ebx. subst x.
    assert (Ha : In a l) by (apply str_in_In; exact Ea).
    rewrite Forall_forall in Hx. specialize (Hx a Ha).
    apply a_not_b. now apply String.leb_antisym.
Qed.

Lemma str_in_sorted (x : string) (l : list string) :
  str_in x (sorted_asc String.leb l) = str_in x l.
Proof.
  destruct (str_in x l) eqn:E.
  - apply str_in_In. apply sorted_asc_In. now apply str_in_In.
  - destruct (str_in x (sorted_asc String.leb l)) eqn:E'; [|reflexivity].
    apply str_in_In, sorted_asc_In, str_in_In in E'. congruence.
Qed.

Lemma count_occ_flat_map {A : Type} (f : A -> list string) (k : string)
  (l : list A) :
  Z.of_nat (count_occ string_dec (flat_map f l) k)
  = fold_right Z.add 0
      (map (fun x => Z.of_nat (count_occ string_dec (f x) k)) l).
Proof.
  induction l as [|x l IH]; simpl; [reflexivity|].
  rewrite count_occ_app, Nat2Z.inj_add, IH. reflexivity.
Qed.

(** The count that the date-only analyzer keeps for the pair of [a] and
    [b] is the number of students who take both. *)
Lemma daily_pair_count (students : list (string * ScheduleGenerator.student)) :
  Forall
    (fun s =>
       NoDup (ScheduleGenerator.courses (snd s))
       /\ forallb no_underscore (ScheduleGenerator.courses (snd s)) = true)
    students ->
  dict_get_default String.eqb 0 (ScheduleGenerator.pair_key a b)
    (ScheduleGenerator.course_pairs students)
  = sharing students a b.
Proof.
  intro Hall. rewrite daily_course_pairs, count_keys_value.
  change (dict_get_default String.eqb 0 (ScheduleGenerator.pair_key a b) [])
    with 0.
  unfold daily_pair_keys. rewrite count_occ_flat_map. unfold sharing.
  induction Hall as [|s students [Hnd Hplain] _ IH]; [reflexivity|].
  cbn [map fold_right filter]. rewrite Z.add_0_l in *. rewrite IH.
  set (l := ScheduleGenerator.courses (snd s)) in *.
  rewrite key_count_is_pair_count.
  - rewrite sorted_pairs_count.
    + rewrite !str_in_sorted.
      destruct (str_in a l && str_in b l); simpl length; lia.
    + eapply Permutation_NoDup; [apply sorted_asc_perm|exact Hnd].
    + apply sorted_asc_sorted;
        [apply String.leb_total|apply string_leb_trans].
  - apply Forall_forall. intros [x y] Hp. apply pairs_of_In in Hp.
    destruct Hp as [Hx Hy]. apply sorted_asc_In in Hx, Hy.
    rewrite forallb_forall in Hplain. simpl. auto.
Qed.

End SharedStudents.

(** X11. For students whose course lists have no repeated course and no
    course code with an underscore, the count that the date-only
    analyzer keeps under the key of two distinct courses, the smaller
    code first, is the number of students who take both courses. *)
Theorem X11_pair_count_is_the_number_of_shared_students
  (students : list (string * ScheduleGenerator.student)) (a b : string) :
  Spec.no_underscore a = true -> Spec.no_underscore b = true ->
  String.leb a b = true -> a <> b ->
  Forall
    (fun s =>
       NoDup (ScheduleGenerator.courses (snd s))
       /\ forallb Spec.no_underscore (ScheduleGenerator.courses (snd s))
          = true)
    students ->
  Py.dict_get_default String.eqb 0 (ScheduleGenerator.pair_key a b)
    (ScheduleGenerator.course_pairs students)
  = Spec.sharing students a b.
Proof.
  intros Ha Hb Hle Hne Hall.
  exact (daily_pair_count a b Ha Hb Hle Hne students Hall).
Qed.

(** A and B in the example of the specification: two students. *)
Lemma X11_shared_students_witness :
  Py.dict_get_default String.eqb 0 (ScheduleGenerator.pair_key "A" "B")
    (ScheduleGenerator.course_pairs Examples.students_ranking)
  = Spec.sharing Examples.students_ranking "A" "B".
Proof.
  apply (X11_pair_count_is_the_number_of_shared_students
           Examples.students_ranking "A"%string "B"%string).
  - reflexivity.
  - reflexivity.
  - reflexivity.
  - discriminate.
  - repeat constructor; simpl; intuition discriminate.
Defined.

(** ** Further properties of the time-slot script *)

Section SlottedDicts.

Import Py FakeData Spec.

Lemma dict_set_again {V : Type} (k : string) (v v0 : V)
  (d : list (string * V)) :
  dict_set String.eqb k v (dict_set String.eqb k v0 d)
  = dict_set String.eqb k v d.
Proof.
  induction d as [|[k1 v1] d IH]; simpl.
  - now rewrite String.eqb_refl.
  - destruct (String.eqb k k1) eqn:E; simpl; rewrite E; [reflexivity|].
    now rewrite IH.
Qed.

(** "If the key is absent, enter the default; then update the value":
    the idiom of lines 131-139, 330-336 and 431-433 is the update of a
    [defaultdict]. *)
Lemma enter_then_update {V : Type} (dflt : V) (f : V -> V) (k : string)
  (d : list (string * V)) :
  (let d1 := if dict_mem String.eqb k d then d
             else dict_set String.eqb k dflt d in
   dict_set String.eqb k (f (dict_get_default String.eqb dflt k d1)) d1)
  = dd_update String.eqb dflt f k d.
Proof.
  unfold dd_update, dict_mem, dict_get_default. cbv zeta.
  destruct (dict_get String.eqb k d) as [v|] eqn:G.
  - now rewrite G.
  - rewrite (dict_get_set_same _ string_eqb_eq). apply dict_set_again.
Qed.

Lemma set_conflict_is_update (x y : string) (n : Z)
  (cp : list (string * list (string * Z))) :
  set_conflict x y n cp
  = dd_update String.eqb [] (dict_set String.eqb y n) x cp.
Proof. unfold set_conflict. apply (enter_then_update [] (dict_set String.eqb y n)). Qed.

Lemma set_conflict_count (x y : string) (n : Z)
  (cp : list (string * list (string * Z))) (a b : string) :
  pair_count (set_conflict x y n cp) a b
  = if String.eqb a x && String.eqb b y then n else pair_count cp a b.
Proof.
  rewrite set_conflict_is_update. unfold pair_count.
  destruct (String.eqb a x) eqn:Ea.
  - apply String.eqb_eq in Ea. subst x.
    rewrite (dd_update_value_same _ string_eqb_eq).
    destruct (String.eqb b y) eqn:Eb; simpl.
    + apply String.eqb_eq in Eb. subst y.
      apply (dict_get_default_set_same _ string_eqb_eq).
    + apply String.eqb_neq in Eb.
      now apply (dict_get_default_set_other _ string_eqb_eq).
  - apply String.eqb_neq in Ea. simpl.
    now rewrite (dd_update_value_other _ string_eqb_eq).
Qed.

(** X12. The counts that the time-slot scheduler reads for its course
    order are symmetric: after lines 324-336, [conflict_pairs[a][b]] and
    [conflict_pairs[b][a]] hold the same count, for every conflict list
    and every two courses. *)
Theorem X12_conflict_pairs_are_symmetric (analysis : list conflict_entry)
  (a b : string) :
  pair_count (conflict_pairs analysis) a b
  = pair_count (conflict_pairs analysis) b a.
Proof.
  unfold conflict_pairs.
  assert (H : forall cp,
             (forall x y, pair_count cp x y = pair_count cp y x) ->
             forall x y,
               pair_count
                 (fold_left
                    (fun cp conflict =>
                       set_conflict (course2 conflict) (course1 conflict)
                         (common_students conflict)
                         (set_conflict (course1 conflict) (course2 conflict)
                            (common_students conflict) cp))
                    analysis cp) x y
               = pair_count
                   (fold_left
                      (fun cp conflict =>
                         set_conflict (course2 conflict) (course1 conflict)
                           (common_students conflict)
                           (set_conflict (course1 conflict) (course2 conflict)
                              (common_students conflict) cp))
                      analysis cp) y x).
  { induction analysis as [|e l IH]; simpl; intros cp Hsym; [exact Hsym|].
    apply IH. intros x y. rewrite !set_conflict_count, (Hsym x y).
    destruct (String.eqb x (course2 e)), (String.eqb y (course1 e)),
      (String.eqb y (course2 e)), (String.eqb x (course1 e)); reflexivity. }
  apply H. intros x y. reflexivity.
Qed.

(** *** The enrollment index *)

Lemma add_enrollment_is_update (students : list (string * student))
  (e : enrollment) :
  add_enrollment students e
  = dd_update String.eqb
      {| s_name := name e; s_department := department e;
         s_academic_level := academic_level e; courses := [] |}
      (fun s => {| s_name := s_name s; s_department := s_department s;
                   s_academic_level := s_academic_level s;
                   courses := courses s ++ [course_code e] |})
      (id e) students.
Proof.
  unfold add_enrollment, dd_update, dict_mem, dict_get_default.
  destruct (dict_get String.eqb (id e) students) as [s|] eqn:G.
  - now rewrite G.
  - rewrite (dict_get_set_same _ string_eqb_eq). apply dict_set_again.
Qed.

Lemma dict_mem_keys_any {V : Type} (k : string) (d : list (string * V)) :
  dict_mem String.eqb k d = str_in k (map fst d).
Proof.
  unfold dict_mem.
  induction d as [|[k0 v0] d IH]; simpl; [reflexivity|].
  destruct (String.eqb k k0); [reflexivity|exact IH].
Qed.

Lemma update_keys {V : Type} (dflt : V) (f : V -> V) (k : string)
  (d : list (string * V)) :
  map fst (dd_update String.eqb dflt f k d)
  = if str_in k (map fst d) then map fst d else map fst d ++ [k].
Proof.
  unfold dd_update. rewrite <- dict_mem_keys_any. unfold dict_mem.
  destruct (dict_get String.eqb k d) as [v|] eqn:G.
  - now apply (dict_set_keys_present String.eqb) with (v0 := v).
  - rewrite (dict_set_absent String.eqb) by exact G. now rewrite map_app.
Qed.

Lemma total_update {V : Type} (m : V -> Z) (dflt : V) (f : V -> V)
  (k : string) (d : list (string * V)) :
  total m (dd_update String.eqb dflt f k d)
  = total m d
    + (m (f (dict_get_default String.eqb dflt k d))
       - (if dict_mem String.eqb k d
          then m (dict_get_default String.eqb dflt k d) else 0)).
Proof.
  unfold dd_update, total, dict_get_default, dict_mem.
  induction d as [|[k0 v0] d IH]; simpl; [lia|].
  destruct (String.eqb k k0); simpl; [lia|]. rewrite IH. lia.
Qed.

(** X13. [group_enrollments_by_student] loses no record and repeats no
    student: the course lists of the result have as many entries
    altogether as there are enrollment records, and the students of the
    result are the distinct student ids of the records, in the order in
    which they first occur. *)
Theorem X13_enrollment_index_keeps_every_record
  (enrollments : list enrollment) :
  total (fun s => Z.of_nat (length (courses s)))
    (group_enrollments_by_student enrollments)
  = Z.of_nat (length enrollments)
  /\ map fst (group_enrollments_by_student enrollments)
     = first_seen_from [] (map id enrollments)
  /\ NoDup (map fst (group_enrollments_by_student enrollments)).
Proof.
  unfold group_enrollments_by_student.
  assert (H : forall students,
             total (fun s => Z.of_nat (length (courses s)))
               (fold_left add_enrollment enrollments students)
             = total (fun s => Z.of_nat (length (courses s))) students
               + Z.of_nat (length enrollments)
             /\ map fst (fold_left add_enrollment enrollments students)
                = first_seen_from (map fst students) (map id enrollments)
             /\ (NoDup (map fst students) ->
                 NoDup (map fst (fold_left add_enrollment enrollments
                                   students)))).
  { induction enrollments as [|e es IH]; intro students.
    - simpl. repeat split; [lia|auto].
    - cbn [fold_left length map].
      destruct (IH (add_enrollment students e)) as (Ht & Hk & Hn).
      split; [|split].
      + rewrite Ht, add_enrollment_is_update, total_update. cbn [courses].
        unfold dict_mem, dict_get_default.
        destruct (dict_get String.eqb (id e) students);
          cbn [courses]; rewrite ?length_app; simpl length; lia.
      + rewrite Hk, add_enrollment_is_update, update_keys. reflexivity.
      + intro Hnd. apply Hn.
        unfold add_enrollment, dict_mem.
        destruct (dict_get String.eqb (id e) students) eqn:G.
        * rewrite G. now apply (dict_set_NoDup _ string_eqb_eq).
        * rewrite (dict_get_set_same _ string_eqb_eq).
          now repeat apply (dict_set_NoDup _ string_eqb_eq). }
  destruct (H []) as (Ht & Hk & Hn).
  split; [rewrite Ht; reflexivity|]. split; [exact Hk|].
  apply Hn. constructor.
Qed.

End SlottedDicts.

(** ** The run and the report of the time-slot scheduler *)

Section SlottedRun.

Import Py FakeData Spec Reach.

Variable cfg : config.

Local Abbreviation slots_ok :=
  (Forall (fun e : string * list (Z * string) =>
             calendar_ok (MIN_DAYS_BETWEEN_EXAMS cfg) (map fst (snd e)))).

Lemma calendar_snoc (min_gap : Z) (l : list Z) (d : Z) :
  calendar_ok min_gap l ->
  Forall (fun o => compatible min_gap o d) l ->
  calendar_ok min_gap (l ++ [d]).
Proof.
  unfold calendar_ok. induction 1 as [|a l Ha Hl IH]; simpl; intro Hd.
  - repeat constructor.
  - inversion Hd as [|? ? Had Hd']; subst.
    constructor; [|auto].
    apply Forall_app. split; [assumption|].
    constructor; [exact Had|constructor].
Qed.

Lemma calendar_NoDup (min_gap : Z) (l : list Z) :
  calendar_ok min_gap l -> NoDup l.
Proof.
  unfold calendar_ok. induction 1 as [|a l Ha Hl IH]; constructor; auto.
  intro Hin. rewrite Forall_forall in Ha. destruct (Ha a Hin) as [Hne _].
  now apply Hne.
Qed.

Lemma slotted_record_students_is_updates (slot : Z * string)
  (taking : list string) :
  forall sed,
    record_students slot taking sed
    = fold_left
        (fun d s => dd_update String.eqb [] (fun l => l ++ [slot]) s d)
        taking sed.
Proof.
  induction taking as [|s taking IH]; intro sed; [reflexivity|].
  cbn [record_students fold_left].
  rewrite <- (enter_then_update [] (fun l => l ++ [slot]) s sed).
  apply IH.
Qed.

(** A student's exams do not rule the day out: the day is compatible
    with each of them. *)
Lemma exam_conflicts_false (test_date : Z) (exams : list (Z * string)) :
  no_same_day_exams cfg = true ->
  exam_conflicts cfg test_date exams = false ->
  Forall (fun o => compatible (MIN_DAYS_BETWEEN_EXAMS cfg) o test_date)
    (map fst exams).
Proof.
  intros Hsame. unfold exam_conflicts. rewrite Hsame.
  induction exams as [|o exams IH]; simpl; intro H; [constructor|].
  apply orb_false_iff in H. destruct H as [Ho Hrest].
  constructor; [|auto].
  apply orb_false_iff in Ho. destruct Ho as [H1 H2].
  rewrite andb_true_r in H1. apply Z.eqb_neq in H1.
  split; [congruence|].
  apply andb_false_iff in H2.
  rewrite Z.ltb_ge, Z.ltb_ge in H2. lia.
Qed.

Lemma slotted_check_students_false (test_date : Z) (taking : list string)
  (sed : list (string * list (Z * string))) :
  no_same_day_exams cfg = true ->
  check_students cfg test_date taking sed = false ->
  forall s, In s taking ->
    Forall (fun o => compatible (MIN_DAYS_BETWEEN_EXAMS cfg) o test_date)
      (map fst (dict_get_default String.eqb [] s sed)).
Proof.
  intros Hsame. unfold check_students.
  induction taking as [|s0 taking IH]; simpl; intros H s Hin; [tauto|].
  apply orb_false_iff in H. destruct H as [H0 Hrest].
  destruct Hin as [<-|Hin]; [|now apply IH].
  unfold dict_get_default.
  destruct (dict_get String.eqb s0 sed) as [exams|]; [|constructor].
  now apply exam_conflicts_false.
Qed.

Lemma slotted_record_students_calendars (slot : Z * string)
  (taking : list string) :
  forall sed,
    NoDup taking ->
    slots_ok sed ->
    (forall s, In s taking ->
       Forall (fun o => compatible (MIN_DAYS_BETWEEN_EXAMS cfg) o (fst slot))
         (map fst (dict_get_default String.eqb [] s sed))) ->
    slots_ok (record_students slot taking sed).
Proof.
  intro sed. rewrite slotted_record_students_is_updates. revert sed.
  induction taking as [|s taking IH]; intros sed Hnd Hok Hfree;
    [exact Hok|].
  cbn [fold_left]. inversion Hnd as [|? ? Hnotin Hnd']; subst.
  apply IH; [exact Hnd'| |].
  - apply (dd_update_Forall String.eqb
             (fun l => calendar_ok (MIN_DAYS_BETWEEN_EXAMS cfg) (map fst l)));
      [exact Hok|].
    rewrite map_app. apply calendar_snoc; [|apply Hfree; now left].
    apply (dict_get_default_Forall String.eqb string_eqb_eq
             (fun l => calendar_ok (MIN_DAYS_BETWEEN_EXAMS cfg) (map fst l)));
      [exact Hok|constructor].
  - intros s' Hin.
    rewrite (dd_update_value_other String.eqb string_eqb_eq).
    + apply Hfree. now right.
    + intros ->. contradiction.
Qed.

Variable student_courses : list (string * list string).
Hypothesis student_courses_keys : NoDup (map fst student_courses).
Hypothesis same_day_excluded : no_same_day_exams cfg = true.

Lemma course_students_NoDup (course : string) :
  NoDup (course_students course student_courses).
Proof.
  unfold course_students.
  induction student_courses as [|[s cs] l IH]; simpl; [constructor|].
  simpl in student_courses_keys.
  inversion student_courses_keys as [|? ? Hnotin Hnd]; subst.
  destruct (str_in course cs); simpl; [|now apply IH].
  constructor; [|now apply IH].
  intro Hin. apply Hnotin. apply in_map_iff in Hin.
  destruct Hin as (x & <- & Hx). apply filter_In in Hx.
  apply in_map. tauto.
Qed.

Lemma try_slots_calendars (course : string)
  (slots_to_try : list (Z * string)) :
  forall st,
    slots_ok (student_exam_dates st) ->
    slots_ok (student_exam_dates
                (fst (try_slots cfg student_courses course slots_to_try st))).
Proof.
  induction slots_to_try as [|slot slots IH]; intros st Hok; [exact Hok|].
  cbn [try_slots]. cbv zeta.
  destruct (5 <=? _); [now apply IH|].
  cbn [student_exam_dates].
  destruct (check_students cfg (fst slot)
              (course_students course student_courses)
              (student_exam_dates st)) eqn:Hcheck; [now apply IH|].
  cbn [fst commit student_exam_dates].
  apply slotted_record_students_calendars;
    [apply course_students_NoDup|exact Hok|].
  now apply slotted_check_students_false.
Qed.

Lemma schedule_courses_calendars
  (shuffle : nat -> list (Z * string) -> list (Z * string))
  (todo : list string) :
  forall n st,
    slots_ok (student_exam_dates st) ->
    slots_ok (student_exam_dates
                (schedule_courses cfg shuffle student_courses n todo st)).
Proof.
  induction todo as [|course todo IH]; intros n st Hok; [exact Hok|].
  cbn [schedule_courses]. apply IH.
  destruct (slotted_schedule_course_fields cfg student_courses course
              (shuffle n (available_datetimes cfg)) st)
    as (_ & _ & -> & _).
  now apply try_slots_calendars.
Qed.

(** One schedule item per course: the codes of the schedule and the
    unscheduled courses are, together, the courses that were processed. *)
Lemma schedule_courses_items
  (shuffle : nat -> list (Z * string) -> list (Z * string))
  (todo : list string) :
  forall n st,
    let st' := schedule_courses cfg shuffle student_courses n todo st in
    Permutation
      (map item_course_code (schedule st') ++ unscheduled_courses st')
      ((map item_course_code (schedule st) ++ unscheduled_courses st)
         ++ todo).
Proof.
  induction todo as [|course todo IH]; intros n st; cbn [schedule_courses].
  - cbv zeta. now rewrite app_nil_r.
  - cbv zeta. etransitivity; [apply IH|].
    change (course :: todo) with ([course] ++ todo).
    rewrite (app_assoc _ [course] todo). apply Permutation_app_tail.
    destruct (slotted_schedule_course_fields cfg student_courses course
                (shuffle n (available_datetimes cfg)) st)
      as (-> & _ & _ & _ & ->).
    destruct (try_slots_cases cfg student_courses course
                (shuffle n (available_datetimes cfg)) st)
      as (ds & _ & [->|(slot & _ & -> & _)]);
      cbn [fst snd slotted_scanned commit schedule unscheduled_courses].
    + now rewrite app_assoc.
    + rewrite map_app. cbn [fst snd]. cbn [map item_course_code].
      rewrite <- !app_assoc. apply Permutation_app_head.
      apply Permutation_app_comm.
Qed.

End SlottedRun.

Section SlottedReport.

Import Py FakeData Spec.

Variable cfg : config.

Lemma slotted_student_courses_of_NoDup (studs : list api_student) :
  NoDup (map fst (student_courses_of studs)).
Proof.
  unfold student_courses_of.
  assert (H : forall d, NoDup (map fst d) ->
                        NoDup (map fst
                                 (fold_left
                                    (fun d s =>
                                       dict_set String.eqb (as_id s)
                                         (as_courses s) d)
                                    studs d))).
  { induction studs as [|s studs IH]; simpl; intros d Hd; [assumption|].
    apply IH. now apply (dict_set_NoDup _ string_eqb_eq). }
  apply H. constructor.
Qed.

(** The two loops over the adjacent pairs find nothing in a calendar
    whose days are distinct and far enough apart. *)
Lemma adjacent_pairs_pass (sched : list schedule_item) (sid : string)
  (l : list (Z * string)) :
  NoDup (map fst l) ->
  (forall x y, In x (map fst l) -> In y (map fst l) -> x <> y ->
               ~ (0 < Z.abs (x - y) < MIN_DAYS_BETWEEN_EXAMS cfg)) ->
  same_day_conflicts cfg sched sid l = []
  /\ insufficient_days_conflicts cfg sched sid l = [].
Proof.
  induction l as [|e1 l IH]; [split; reflexivity|].
  intros Hnd Hgap. destruct l as [|e2 rest]; [split; reflexivity|].
  destruct IH as [IH1 IH2].
  { now inversion Hnd. }
  { intros x y Hx Hy. apply Hgap; now right. }
  assert (Hne : fst e1 <> fst e2).
  { inversion Hnd as [|? ? Hnotin _]; subst. intros E. apply Hnotin.
    rewrite E. now left. }
  assert (Hfar : ~ (0 < Z.abs (fst e1 - fst e2)
                    < MIN_DAYS_BETWEEN_EXAMS cfg)).
  { apply Hgap; [now left|right; now left|exact Hne]. }
  split.
  - change (same_day_conflicts cfg sched sid (e1 :: e2 :: rest))
      with ((if (fst e1 =? fst e2) && no_same_day_exams cfg
             then
               match both_codes (course_at sched (fst e1) (snd e1))
                       (course_at sched (fst e2) (snd e2)) with
               | Some codes => [SameDayConflict sid (fst e1) codes]
               | None => []
               end
             else [])
              ++ same_day_conflicts cfg sched sid (e2 :: rest)).
    rewrite IH1. apply Z.eqb_neq in Hne. now rewrite Hne.
  - change (insufficient_days_conflicts cfg sched sid (e1 :: e2 :: rest))
      with ((if (0 <=? fst e2 - fst e1)
                && (fst e2 - fst e1 <? MIN_DAYS_BETWEEN_EXAMS cfg)
             then
               match both_codes (course_at sched (fst e1) (snd e1))
                       (course_at sched (fst e2) (snd e2)) with
               | Some codes =>
                   [InsufficientDaysConflict sid (fst e1) (fst e2)
                      (fst e2 - fst e1) codes]
               | None => []
               end
             else [])
              ++ insufficient_days_conflicts cfg sched sid (e2 :: rest)).
    rewrite IH2.
    destruct ((0 <=? fst e2 - fst e1)
              && (fst e2 - fst e1 <? MIN_DAYS_BETWEEN_EXAMS cfg)) eqn:E;
      [|reflexivity].
    apply andb_true_iff in E. rewrite Z.leb_le, Z.ltb_lt in E. lia.
Qed.

Lemma found_conflicts_none (st : sched_state) :
  Forall (fun e : string * list (Z * string) =>
            calendar_ok (MIN_DAYS_BETWEEN_EXAMS cfg) (map fst (snd e)))
    (student_exam_dates st) ->
  found_conflicts cfg st = [].
Proof.
  unfold found_conflicts. generalize (schedule st) as sched.
  intros sched Hok.
  induction Hok as [|[sid exams] sed Hcal Hok IH]; [reflexivity|].
  cbn [flat_map fst snd]. rewrite IH, app_nil_r. cbn [snd] in Hcal.
  pose proof (Permutation_map fst
                (sorted_asc_perm (fun a b : Z * string => fst a <=? fst b)
                   exams)) as Hperm.
  destruct (adjacent_pairs_pass sched sid
              (sorted_asc (fun a b : Z * string => fst a <=? fst b) exams))
    as [-> ->]; [| |reflexivity].
  - apply (Permutation_NoDup Hperm). now apply calendar_NoDup in Hcal.
  - intros x y Hx Hy Hne.
    apply (Permutation_in _ (Permutation_sym Hperm)) in Hx, Hy.
    destruct (ForallOrdPairs_In Hcal x y Hx Hy) as [E|[[_ H]|[_ H]]];
      [contradiction|exact H|].
    intro Hc. apply H. lia.
Qed.

Lemma slotted_generate_Some
  (shuffle : nat -> list (Z * string) -> list (Z * string))
  (data : api_data) (resp : response) :
  generate_schedule_locally cfg shuffle data = Some resp ->
  resp
  = response_of cfg data
      (schedule_courses cfg shuffle (student_courses_of (students data))
         0 (sorted_courses data) initial_state).
Proof.
  unfold generate_schedule_locally, final_state.
  destruct (available_datetimes cfg); [discriminate|].
  now intros [= <-].
Qed.

End SlottedReport.

(** X14. When same-day exams are excluded in the configuration, the
    report that the time-slot scheduler computes on its own schedule is
    empty: the list of conflicts of the response has no record and the
    statistic [unresolved_student_conflicts] is zero, whatever the data,
    the minimum gap and the shuffles. *)
Theorem X14_slotted_report_has_no_conflict (cfg : FakeData.config)
  (shuffle : nat -> list (Z * string) -> list (Z * string))
  (data : FakeData.api_data) (resp : FakeData.response) :
  FakeData.no_same_day_exams cfg = true ->
  FakeData.generate_schedule_locally cfg shuffle data = Some resp ->
  FakeData.resp_conflicts resp = []
  /\ FakeData.unresolved_student_conflicts (FakeData.resp_statistics resp)
     = 0.
Proof.
  intros Hsame Hgen.
  rewrite (slotted_generate_Some cfg shuffle data resp Hgen).
  cbn [FakeData.response_of FakeData.resp_conflicts
         FakeData.resp_statistics FakeData.unresolved_student_conflicts].
  rewrite found_conflicts_none; [split; reflexivity|].
  apply schedule_courses_calendars;
    [apply slotted_student_courses_of_NoDup|exact Hsame|constructor].
Qed.

Lemma X14_empty_report_witness :
  FakeData.resp_conflicts
    (FakeData.response_of FakeData.default_config Examples.fake_data_ab
       (FakeData.schedule_courses FakeData.default_config Examples.keep_order
          (FakeData.student_courses_of
             (FakeData.students Examples.fake_data_ab))
          0 (FakeData.sorted_courses Examples.fake_data_ab)
          FakeData.initial_state)) = [].
Proof.
  apply (X14_slotted_report_has_no_conflict FakeData.default_config
           Examples.keep_order Examples.fake_data_ab).
  - reflexivity.
  - vm_compute. reflexivity.
Defined.

(** X15. The time-slot scheduler returns one schedule item per course
    that it places: the courses of the schedule items and the courses
    named in the issues are, together and with their multiplicities, the
    courses of the request, so that in the statistics the scheduled and
    the unscheduled courses add up to the requested ones. *)
Theorem X15_slotted_schedule_has_one_item_per_course
  (cfg : FakeData.config)
  (shuffle : nat -> list (Z * string) -> list (Z * string))
  (data : FakeData.api_data) (resp : FakeData.response) :
  FakeData.generate_schedule_locally cfg shuffle data = Some resp ->
  (exists unscheduled,
      FakeData.resp_issues resp
      = map (fun c =>
               ("Course " ++ c
                  ++ " could not be scheduled within the constraints.")%string)
          unscheduled
      /\ Permutation
           (map FakeData.item_course_code (FakeData.resp_schedule resp)
              ++ unscheduled)
           (FakeData.all_courses data))
  /\ FakeData.total_courses_scheduled (FakeData.resp_statistics resp)
     + FakeData.courses_not_scheduled (FakeData.resp_statistics resp)
     = FakeData.total_courses_requested (FakeData.resp_statistics resp).
Proof.
  intro Hgen.
  rewrite (slotted_generate_Some cfg shuffle data resp Hgen).
  pose proof (schedule_courses_items cfg
                (FakeData.student_courses_of (FakeData.students data))
                shuffle (FakeData.sorted_courses data) 0
                FakeData.initial_state) as Hperm.
  cbv zeta in Hperm. cbn [FakeData.initial_state FakeData.schedule
                            FakeData.unscheduled_courses map app] in Hperm.
  assert (Hall : Permutation
                   (map FakeData.item_course_code
                      (FakeData.schedule
                         (FakeData.schedule_courses cfg shuffle
                            (FakeData.student_courses_of
                               (FakeData.students data))
                            0 (FakeData.sorted_courses data)
                            FakeData.initial_state))
                      ++ FakeData.unscheduled_courses
                           (FakeData.schedule_courses cfg shuffle
                              (FakeData.student_courses_of
                                 (FakeData.students data))
                              0 (FakeData.sorted_courses data)
                              FakeData.initial_state))
                   (FakeData.all_courses data)).
  { etransitivity; [exact Hperm|]. unfold FakeData.sorted_courses.
    apply Permutation_sym. apply sorted_desc_perm. }
  cbn [FakeData.response_of FakeData.resp_issues FakeData.resp_schedule
         FakeData.resp_statistics FakeData.total_courses_scheduled
         FakeData.courses_not_scheduled FakeData.total_courses_requested].
  split.
  - eexists. split; [reflexivity|exact Hall].
  - apply Permutation_length in Hall.
    rewrite length_app, length_map in Hall. lia.
Qed.

Lemma X15_one_item_witness :
  FakeData.total_courses_scheduled
    (FakeData.resp_statistics
       (FakeData.response_of FakeData.default_config Examples.fake_data_ab
          (FakeData.schedule_courses FakeData.default_config
             Examples.keep_order
             (FakeData.student_courses_of
                (FakeData.students Examples.fake_data_ab))
             0 (FakeData.sorted_courses Examples.fake_data_ab)
             FakeData.initial_state)))
  + FakeData.courses_not_scheduled
      (FakeData.resp_statistics
         (FakeData.response_of FakeData.default_config Examples.fake_data_ab
            (FakeData.schedule_courses FakeData.default_config
               Examples.keep_order
               (FakeData.student_courses_of
                  (FakeData.students Examples.fake_data_ab))
               0 (FakeData.sorted_courses Examples.fake_data_ab)
               FakeData.initial_state)))
  = 2.
Proof.
  rewrite (proj2 (X15_slotted_schedule_has_one_item_per_course
                    FakeData.default_config Examples.keep_order
                    Examples.fake_data_ab _ eq_refl)).
  reflexivity.
Defined.

(** ** The input of the time-slot scheduler *)

Section SlottedInput.

Import Py FakeData Spec.

Lemma split_underscore_length (s : string) :
  length (split_underscore s) = S (underscores s).
Proof.
  induction s as [|c s IH]; [reflexivity|].
  cbn [split_underscore underscores].
  destruct (Ascii.eqb c "_"); simpl; [now rewrite IH|].
  destruct (split_underscore s); simpl in *; [discriminate|exact IH].
Qed.

Lemma split_triple_underscores (s : string) :
  split_triple s <> None <-> underscores s = 2%nat.
Proof.
  unfold split_triple. pose proof (split_underscore_length s) as H.
  destruct (split_underscore s) as [|a [|b [|c [|d l]]]]; simpl in H;
    split; intro G; try congruence; try lia.
Qed.

(** Appending to the list of a key keeps all the lists' elements. *)
Lemma flat_update_append {A : Type} (c : A) (k : string)
  (d : list (string * list A)) :
  Permutation
    (flat_map snd (dd_update String.eqb [] (fun l => l ++ [c]) k d))
    (flat_map snd d ++ [c]).
Proof.
  unfold dd_update, dict_get_default.
  induction d as [|[k0 v0] d IH]; simpl; [reflexivity|].
  destruct (String.eqb k k0); simpl.
  - rewrite <- !app_assoc. apply Permutation_app_head.
    apply Permutation_app_comm.
  - rewrite <- app_assoc. apply Permutation_app_head. exact IH.
Qed.

Lemma group_courses_spec (courses : list course) :
  forall cbdl r,
    group_courses courses cbdl = Some r ->
    Permutation (flat_map snd r) (flat_map snd cbdl ++ map code courses)
    /\ (NoDup (map fst cbdl) -> NoDup (map fst r))
    /\ Forall (fun c => underscores (table c) = 2%nat) courses.
Proof.
  induction courses as [|c courses IH]; intros cbdl r H.
  - injection H as <-. rewrite app_nil_r. auto.
  - cbn [group_courses] in H.
    destruct (split_triple (table c)) as [[[dept level] x]|] eqn:Et;
      [|discriminate].
    cbv zeta in H.
    rewrite (enter_then_update [] (fun l => l ++ [code c])) in H.
    destruct (IH _ _ H) as (Hperm & Hnd & Hall).
    split; [|split].
    + etransitivity; [exact Hperm|]. cbn [map].
      rewrite flat_update_append, <- app_assoc. reflexivity.
    + intro Hk. apply Hnd. unfold dd_update.
      now apply (dict_set_NoDup _ string_eqb_eq).
    + constructor; [|exact Hall].
      apply split_triple_underscores. congruence.
Qed.

Lemma group_courses_returns (courses : list course) :
  Forall (fun c => underscores (table c) = 2%nat) courses ->
  forall cbdl, exists r, group_courses courses cbdl = Some r.
Proof.
  induction 1 as [|c courses Hc _ IH]; intro cbdl; [simpl; eauto|].
  cbn [group_courses]. apply split_triple_underscores in Hc.
  destruct (split_triple (table c)) as [[[dept level] x]|];
    [|contradiction].
  apply IH.
Qed.

Lemma slotted_conflict_entries_pairs (pairs : list (string * Z))
  (entries : list conflict_entry) :
  conflict_entries pairs = Some entries ->
  map (fun e => (pair_key (course1 e) (course2 e), common_students e))
    entries = pairs.
Proof.
  revert entries.
  induction pairs as [|[k n] pairs IH]; simpl; intros entries H.
  - now injection H as <-.
  - destruct (split_pair k) as [[a b]|] eqn:Ek; [|discriminate].
    destruct (conflict_entries pairs) as [es|]; [|discriminate].
    injection H as <-. simpl. rewrite (IH es eq_refl).
    apply split_pair_joins in Ek. destruct Ek as [<- _]. reflexivity.
Qed.

Lemma slotted_conflict_entries_returns (pairs : list (string * Z)) :
  Forall (fun p => split_pair (fst p) <> None) pairs ->
  exists entries, conflict_entries pairs = Some entries.
Proof.
  induction 1 as [|[k n] pairs Hk _ IH]; simpl; [eauto|].
  simpl in Hk. destruct (split_pair k) as [[a b]|]; [|contradiction].
  destruct IH as [es ->]. eauto.
Qed.

Lemma slotted_keys_split (students : list (string * student)) :
  forallb (fun s => forallb no_underscore (courses (snd s))) students = true ->
  Forall (fun p => split_pair (fst p) <> None) (sorted_pairs students).
Proof.
  intro Hplain. apply Forall_forall. intros [k n] Hin.
  unfold sorted_pairs in Hin.
  rewrite slotted_course_pairs in Hin.
  apply (count_keys_ranked (slotted_pair_keys students)) in Hin.
  destruct Hin as [Hk _]. unfold slotted_pair_keys in Hk.
  apply in_flat_map in Hk. destruct Hk as (s & Hs & Hk).
  apply in_map_iff in Hk. destruct Hk as ([a b] & <- & Hp).
  apply pairs_of_In in Hp. destruct Hp as [Ha Hb].
  rewrite forallb_forall in Hplain. specialize (Hplain s Hs).
  rewrite forallb_forall in Hplain.
  cbn [fst snd].
  destruct (canonical_key_ordered a b) as (x & y & -> & _ & Hxy).
  unfold pair_key.
  destruct Hxy as [[-> ->]|[-> ->]]; rewrite split_pair_key by auto;
    discriminate.
Qed.

End SlottedInput.

(** X16. When [prepare_data_for_api] of the time-slot script returns,
    no course is lost or repeated by the grouping: the codes that the
    scheduler collects from [courses_by_dept_level] are the codes of the
    course rows, up to their order, the groups have distinct keys, every
    table name has exactly two underscores, the students are passed on
    in their order, and [conflict_analysis] names, entry by entry, the
    first 50 pairs of the analyzer.  It returns whenever every table
    name has exactly two underscores and no course code of a student has
    one. *)
Theorem X16_slotted_input_keeps_every_course
  (studs : list (string * FakeData.student))
  (courses : list FakeData.course) :
  (forall data,
      FakeData.prepare_data_for_api studs courses = Some data ->
      Permutation (FakeData.all_courses data) (map FakeData.code courses)
      /\ NoDup (map fst (FakeData.courses_by_dept_level data))
      /\ Forall (fun c => Spec.underscores (FakeData.table c) = 2%nat) courses
      /\ map FakeData.as_id (FakeData.students data) = map fst studs
      /\ map (fun e =>
                (FakeData.pair_key (FakeData.course1 e) (FakeData.course2 e),
                 FakeData.common_students e))
           (FakeData.conflict_analysis data)
         = firstn 50 (FakeData.sorted_pairs studs))
  /\ (Forall (fun c => Spec.underscores (FakeData.table c) = 2%nat) courses ->
      forallb
        (fun s => forallb Spec.no_underscore (FakeData.courses (snd s)))
        studs = true ->
      exists data, FakeData.prepare_data_for_api studs courses = Some data).
Proof.
  split.
  - intros data H. unfold FakeData.prepare_data_for_api in H.
    destruct (FakeData.group_courses courses []) as [cbdl|] eqn:Eg;
      [|discriminate].
    destruct (FakeData.analyze_course_conflicts studs) as [out|] eqn:Ea;
      [|discriminate].
    assert (Hout : out = FakeData.sorted_pairs studs).
    { unfold FakeData.analyze_course_conflicts in Ea.
      destruct (forallb _ _); [now injection Ea as <-|discriminate]. }
    subst out.
    destruct (FakeData.conflict_entries
                (firstn 50 (FakeData.sorted_pairs studs)))
      as [es|] eqn:Ee; [|discriminate].
    injection H as <-.
    destruct (group_courses_spec courses [] cbdl Eg) as (Hperm & Hnd & Hall).
    unfold FakeData.all_courses.
    cbn [FakeData.courses_by_dept_level FakeData.students
           FakeData.conflict_analysis].
    split; [exact Hperm|]. split; [apply Hnd; constructor|].
    split; [exact Hall|]. split.
    + rewrite map_map. reflexivity.
    + now apply slotted_conflict_entries_pairs.
  - intros Htables Hplain. unfold FakeData.prepare_data_for_api.
    destruct (group_courses_returns courses Htables []) as [cbdl ->].
    rewrite (slotted_analyze_returns studs Hplain).
    destruct (slotted_conflict_entries_returns
                (firstn 50 (FakeData.sorted_pairs studs)))
      as [es ->]; [|eauto].
    apply Forall_firstn. now apply slotted_keys_split.
Qed.

Lemma X16_slotted_input_witness :
  exists data,
    FakeData.prepare_data_for_api Examples.fake_students_ranking
      [{| FakeData.code := "A"; FakeData.course_name := "Algebra";
          FakeData.table := "CE_Dip_courses" |};
       {| FakeData.code := "B"; FakeData.course_name := "Biology";
          FakeData.table := "EE_Dip_courses" |};
       {| FakeData.code := "C"; FakeData.course_name := "Chemistry";
          FakeData.table := "CE_Dip_courses" |}]%string
    = Some data.
Proof.
  apply (proj2 (X16_slotted_input_keeps_every_course
                  Examples.fake_students_ranking _)).
  - repeat constructor.
  - reflexivity.
Defined.

(** ** The items of the time-slot schedule *)

Section SlottedItems.

Import Py FakeData Spec Reach.

Variable cfg : config.

Lemma datetimes_from_In (n : nat) :
  forall start d t,
    In (d, t) (datetimes_from cfg n start) ->
    start <= d < start + Z.of_nat n
    /\ (skip_weekends cfg = true -> weekday d < 5)
    /\ In t (EXAM_TIME_SLOTS cfg).
Proof.
  induction n as [|n IH]; intros start d t Hin; [destruct Hin|].
  cbn [datetimes_from] in Hin. apply in_app_iff in Hin.
  destruct Hin as [Hin|Hin].
  - destruct (skip_weekends cfg && (5 <=? weekday start)) eqn:E;
      [destruct Hin|].
    apply in_map_iff in Hin. destruct Hin as (t0 & [= <- <-] & Ht).
    split; [lia|]. split; [|exact Ht].
    intro Hskip. rewrite Hskip in E. simpl in E.
    apply Z.leb_gt in E. exact E.
  - apply IH in Hin. destruct Hin as (H1 & H2 & H3).
    split; [lia|]. split; assumption.
Qed.

Lemma available_datetimes_in_window (d : Z) (t : string) :
  In (d, t) (available_datetimes cfg) ->
  SPECIFIC_START_DATE cfg <= d <= SPECIFIC_END_DATE cfg
  /\ (skip_weekends cfg = true -> weekday d < 5)
  /\ In t (EXAM_TIME_SLOTS cfg).
Proof.
  unfold available_datetimes. intro Hin. apply datetimes_from_In in Hin.
  destruct Hin as (H1 & H2 & H3). split; [lia|]. split; assumption.
Qed.

Variable student_courses : list (string * list string).
Variable shuffle : nat -> list (Z * string) -> list (Z * string).

Lemma items_on_snoc (d : Z) (sched : list schedule_item)
  (item : schedule_item) :
  items_on d (sched ++ [item])
  = items_on d sched + (if item_date item =? d then 1 else 0).
Proof.
  unfold items_on. rewrite filter_app, length_app. cbn [filter].
  destruct (item_date item =? d); simpl length; lia.
Qed.

(** The counter of a day is the number of items of the schedule on that
    day, and it is at most five. *)
Lemma schedule_courses_items_on (todo : list string) :
  forall n st,
    (forall d, items_on d (schedule st)
               = dict_get_default Z.eqb 0 d (exams_per_day st)
               /\ items_on d (schedule st) <= 5) ->
    let st' := schedule_courses cfg shuffle student_courses n todo st in
    forall d, items_on d (schedule st')
              = dict_get_default Z.eqb 0 d (exams_per_day st')
              /\ items_on d (schedule st') <= 5.
Proof.
  induction todo as [|course todo IH]; intros n st Hinv; [exact Hinv|].
  cbn [schedule_courses]. cbv zeta. apply IH. intro d.
  destruct (slotted_schedule_course_fields cfg student_courses course
              (shuffle n (available_datetimes cfg)) st)
    as (-> & _ & _ & -> & _).
  destruct (try_slots_cases cfg student_courses course
              (shuffle n (available_datetimes cfg)) st)
    as (ds & Hsame & [->|(slot & _ & -> & Hroom)]); cbn [fst].
  - rewrite Hsame. exact (Hinv d).
  - cbn [commit schedule exams_per_day]. rewrite items_on_snoc.
    cbn [item_date]. destruct (Hinv d) as [Heq Hle].
    change (schedule (slotted_scanned st ds)) with (schedule st).
    destruct (Z.eqb_spec (fst slot) d) as [<-|Hne].
    + rewrite (dd_update_value_same Z.eqb Z_eqb_eq), Hsame.
      split; lia.
    + rewrite (dd_update_value_other Z.eqb Z_eqb_eq) by congruence.
      rewrite Hsame. split; lia.
Qed.

Hypothesis shuffle_sound : forall n l x, In x (shuffle n l) -> In x l.

Lemma schedule_courses_slots (todo : list string) :
  forall n st,
    Forall (fun i => In (item_date i, item_time_slot i)
                       (available_datetimes cfg)) (schedule st) ->
    Forall (fun i => In (item_date i, item_time_slot i)
                       (available_datetimes cfg))
      (schedule (schedule_courses cfg shuffle student_courses n todo st)).
Proof.
  induction todo as [|course todo IH]; intros n st Hinv; [exact Hinv|].
  cbn [schedule_courses]. apply IH.
  destruct (slotted_schedule_course_fields cfg student_courses course
              (shuffle n (available_datetimes cfg)) st)
    as (-> & _).
  destruct (try_slots_cases cfg student_courses course
              (shuffle n (available_datetimes cfg)) st)
    as (ds & _ & [->|(slot & Hslot & -> & _)]); cbn [fst]; [exact Hinv|].
  cbn [commit schedule]. apply Forall_app. split; [exact Hinv|].
  constructor; [|constructor]. cbn [item_date item_time_slot].
  apply shuffle_sound in Hslot. now destruct slot.
Qed.

End SlottedItems.

(** X17. When the shuffle returns only slots of the list it is given,
    every item of the schedule that the time-slot scheduler returns is
    on a day of the configured window, not on a Saturday or a Sunday
    when weekends are skipped, and in one of the configured time
    slots. *)
Theorem X17_slotted_items_lie_in_the_window (cfg : FakeData.config)
  (shuffle : nat -> list (Z * string) -> list (Z * string))
  (data : FakeData.api_data) (resp : FakeData.response)
  (item : FakeData.schedule_item) :
  (forall n l x, In x (shuffle n l) -> In x l) ->
  FakeData.generate_schedule_locally cfg shuffle data = Some resp ->
  In item (FakeData.resp_schedule resp) ->
  FakeData.SPECIFIC_START_DATE cfg <= FakeData.item_date item
  <= FakeData.SPECIFIC_END_DATE cfg
  /\ (FakeData.skip_weekends cfg = true ->
      Py.weekday (FakeData.item_date item) < 5)
  /\ In (FakeData.item_time_slot item) (FakeData.EXAM_TIME_SLOTS cfg).
Proof.
  intros Hshuffle Hgen Hin.
  rewrite (slotted_generate_Some cfg shuffle data resp Hgen) in Hin.
  cbn [FakeData.response_of FakeData.resp_schedule] in Hin.
  pose proof (schedule_courses_slots cfg
                (FakeData.student_courses_of (FakeData.students data))
                shuffle Hshuffle (FakeData.sorted_courses data) 0
                FakeData.initial_state (Forall_nil _)) as Hall.
  rewrite Forall_forall in Hall.
  apply available_datetimes_in_window. now apply Hall.
Qed.

Lemma X17_window_witness :
  FakeData.SPECIFIC_START_DATE FakeData.default_config <= 739397
  <= FakeData.SPECIFIC_END_DATE FakeData.default_config
  /\ (FakeData.skip_weekends FakeData.default_config = true ->
      Py.weekday 739397 < 5)
  /\ In "8:30-10:30"%string
       (FakeData.EXAM_TIME_SLOTS FakeData.default_config).
Proof.
  apply (X17_slotted_items_lie_in_the_window FakeData.default_config
           Examples.keep_order Examples.fake_data_ab
           (FakeData.response_of FakeData.default_config
              Examples.fake_data_ab
              (FakeData.schedule_courses FakeData.default_config
                 Examples.keep_order
                 (FakeData.student_courses_of
                    (FakeData.students Examples.fake_data_ab))
                 0 (FakeData.sorted_courses Examples.fake_data_ab)
                 FakeData.initial_state))
           {| FakeData.item_course_code := "A";
              FakeData.item_date := 739397;
              FakeData.item_time_slot := "8:30-10:30" |}).
  - intros n l x H. exact H.
  - vm_compute. reflexivity.
  - vm_compute. auto.
Defined.

(** X18. No day holds more than five items of the schedule that the
    time-slot scheduler returns, whatever the data, the configuration
    and the shuffles. *)
Theorem X18_slotted_schedule_has_at_most_five_items_a_day
  (cfg : FakeData.config)
  (shuffle : nat -> list (Z * string) -> list (Z * string))
  (data : FakeData.api_data) (resp : FakeData.response) (d : Z) :
  FakeData.generate_schedule_locally cfg shuffle data = Some resp ->
  Spec.items_on d (FakeData.resp_schedule resp) <= 5.
Proof.
  intro Hgen.
  rewrite (slotted_generate_Some cfg shuffle data resp Hgen).
  cbn [FakeData.response_of FakeData.resp_schedule].
  apply (schedule_courses_items_on cfg
           (FakeData.student_courses_of (FakeData.students data))
           shuffle (FakeData.sorted_courses data) 0 FakeData.initial_state).
  intro d'. split; [reflexivity|]. unfold Spec.items_on. simpl. lia.
Qed.

Lemma X18_five_items_witness :
  Spec.items_on 739397
    (FakeData.resp_schedule
       (FakeData.response_of FakeData.default_config Examples.fake_data_ab
          (FakeData.schedule_courses FakeData.default_config
             Examples.keep_order
             (FakeData.student_courses_of
                (FakeData.students Examples.fake_data_ab))
             0 (FakeData.sorted_courses Examples.fake_data_ab)
             FakeData.initial_state))) <= 5.
Proof.
  apply (X18_slotted_schedule_has_at_most_five_items_a_day
           FakeData.default_config Examples.keep_order
           Examples.fake_data_ab).
  vm_compute. reflexivity.
Defined.

(** ** The course dates and the calendars of the students agree *)

Section DailyTies.

Import Py ScheduleGenerator Spec Reach.

Variable cfg : config.
Variable student_courses : list (string * list string).

Lemma compatible_sym (min_gap d1 d2 : Z) :
  compatible min_gap d1 d2 -> compatible min_gap d2 d1.
Proof.
  unfold compatible. intros [Hne Hgap]. split; [congruence|].
  replace (d2 - d1) with (- (d1 - d2)) by lia. now rewrite Z.abs_opp.
Qed.

(** A scan keeps the agreement of the two maps: the date it commits is
    entered in the calendar of every student of the course, and the guard
    has compared it with the dates of all their other courses. *)
Lemma try_dates_ties (course : string) (dates_to_try : list Z)
  (st : sched_state) :
  dates_cover student_courses (course_dates st) (student_exam_dates st) ->
  exams_apart (MIN_DAYS_BETWEEN_EXAMS cfg) student_courses (course_dates st) ->
  let st' := fst (try_dates cfg student_courses course dates_to_try st) in
  dates_cover student_courses (course_dates st') (student_exam_dates st')
  /\ exams_apart (MIN_DAYS_BETWEEN_EXAMS cfg) student_courses
       (course_dates st').
Proof.
  intros Hcover Hapart st'. subst st'.
  destruct (try_dates_cases cfg student_courses course dates_to_try st)
    as (ds & ks & _ & Hs & [->|(d & _ & -> & _ & Hg)]); cbn [fst].
  - split; [|exact Hapart].
    intros c d s Hc Ht. rewrite Hs. now apply (Hcover c d s).
  - rewrite commit_course_dates.
    change (course_dates (daily_scanned st ds ks)) with (course_dates st).
    split.
    + intros c d0 s Hc Ht.
      rewrite commit_student_exam_dates, record_students_dates, Hs.
      apply in_app_iff.
      destruct (string_dec c course) as [->|Hne].
      * rewrite (dict_get_set_same _ string_eqb_eq) in Hc.
        injection Hc as <-. right.
        apply taking_iff_takes, (count_occ_In string_dec) in Ht.
        destruct (count_occ string_dec
                    (course_students_taking_this course student_courses) s);
          [lia|now left].
      * rewrite (dict_get_set_other _ string_eqb_eq) in Hc by exact Hne.
        left. now apply (Hcover c d0 s).
    + intros s c1 c2 d1 d2 Hne H1 H2 G1 G2.
      destruct (string_dec c1 course) as [->|N1].
      * rewrite (dict_get_set_same _ string_eqb_eq) in G1.
        injection G1 as <-.
        rewrite (dict_get_set_other _ string_eqb_eq) in G2 by congruence.
        apply compatible_sym.
        apply taking_iff_takes in H1. specialize (Hg s H1).
        rewrite Forall_forall in Hg. apply Hg. now apply (Hcover c2 d2 s).
      * rewrite (dict_get_set_other _ string_eqb_eq) in G1 by exact N1.
        destruct (string_dec c2 course) as [->|N2].
        -- rewrite (dict_get_set_same _ string_eqb_eq) in G2.
           injection G2 as <-.
           apply taking_iff_takes in H2. specialize (Hg s H2).
           rewrite Forall_forall in Hg. apply Hg.
           now apply (Hcover c1 d1 s).
        -- rewrite (dict_get_set_other _ string_eqb_eq) in G2 by exact N2.
           exact (Hapart s c1 c2 d1 d2 Hne H1 H2 G1 G2).
Qed.

(** In every state of a run, each date of the course-date map is on the
    calendar of the students of the course, and no student has two
    courses on one day or less than the minimum gap apart. *)
Lemma daily_ties (st : sched_state) :
  daily cfg student_courses st ->
  dates_cover student_courses (course_dates st) (student_exam_dates st)
  /\ exams_apart (MIN_DAYS_BETWEEN_EXAMS cfg) student_courses
       (course_dates st).
Proof.
  intro Hreach. induction Hreach as [|st c ds Hr IH|st c ds Hr IH].
  - split.
    + intros c d s Hc. discriminate Hc.
    + intros s c1 c2 d1 d2 _ _ _ Hc. discriminate Hc.
  - destruct (schedule_course_fields cfg student_courses c ds st)
      as (_ & -> & -> & _).
    destruct IH as [Hcover Hapart]. now apply try_dates_ties.
  - destruct IH as [Hcover Hapart]. now apply try_dates_ties.
Qed.

End DailyTies.

(** C1. Whenever the greedy scheduler commits a course, the committed date
    is compatible with the calendar that every student of the course had:
    no exam on that date and none at a distance d with
    0 < d < MIN_DAYS_BETWEEN_EXAMS; and the date is entered in the
    calendar of each of these students.  In a run, the calendars hold the
    dates of the course-date map, so that no other course of such a
    student has, in the course-date map, the committed date or a date
    less than the minimum gap away.  Hence, in what
    [generate_schedule_locally] returns, the calendars satisfy the
    invariant, every date of the course-date map is on the calendar of
    the students of the course, no student has two courses on one day or
    too close, and [check_final_schedule_conflicts], run on the student
    exam-date map and the course-date map, reports no violation.  The
    function does return them whenever there are courses, students and a
    date in the window. *)
Theorem C1_greedy_schedule_passes_verifier (cfg : ScheduleGenerator.config) :
  (forall student_courses course dates_to_try st st',
      ScheduleGenerator.try_dates cfg student_courses course dates_to_try st
      = (st', true) ->
      exists d,
        In d dates_to_try
        /\ Py.dict_get String.eqb course (ScheduleGenerator.course_dates st')
           = Some d
        /\ (forall s,
               In s (ScheduleGenerator.course_students_taking_this course
                       student_courses) ->
               Forall
                 (fun o =>
                    Spec.compatible
                      (ScheduleGenerator.MIN_DAYS_BETWEEN_EXAMS cfg) o d)
                 (Py.dict_get_default String.eqb [] s
                    (ScheduleGenerator.student_exam_dates st)))
        /\ (forall s,
               In s (ScheduleGenerator.course_students_taking_this course
                       student_courses) ->
               In d (Py.dict_get_default String.eqb [] s
                       (ScheduleGenerator.student_exam_dates st'))))
  /\ (forall student_courses course dates_to_try st st',
         Reach.daily cfg student_courses st ->
         ScheduleGenerator.try_dates cfg student_courses course dates_to_try
           st = (st', true) ->
         exists d,
           Py.dict_get String.eqb course (ScheduleGenerator.course_dates st')
           = Some d
           /\ forall s other d',
                Spec.takes student_courses s course ->
                Spec.takes student_courses s other ->
                other <> course ->
                Py.dict_get String.eqb other
                  (ScheduleGenerator.course_dates st) = Some d' ->
                Spec.compatible
                  (ScheduleGenerator.MIN_DAYS_BETWEEN_EXAMS cfg) d' d)
  /\ (forall shuffle data response sed cd,
         ScheduleGenerator.generate_schedule_locally cfg shuffle data
         = Some (response, sed, cd) ->
         Spec.calendars_ok (ScheduleGenerator.MIN_DAYS_BETWEEN_EXAMS cfg) sed
         /\ Spec.dates_cover
              (ScheduleGenerator.student_courses_of
                 (ScheduleGenerator.students_full_details data)) cd sed
         /\ Spec.exams_apart (ScheduleGenerator.MIN_DAYS_BETWEEN_EXAMS cfg)
              (ScheduleGenerator.student_courses_of
                 (ScheduleGenerator.students_full_details data)) cd
         /\ ScheduleGenerator.check_final_schedule_conflicts cfg sed cd
              (ScheduleGenerator.student_courses_of
                 (ScheduleGenerator.students_full_details data)) = [])
  /\ (forall shuffle data,
         ScheduleGenerator.all_course_codes data <> [] ->
         ScheduleGenerator.students_full_details data <> [] ->
         ScheduleGenerator.available_dates cfg <> [] ->
         exists response,
           ScheduleGenerator.generate_schedule_locally cfg shuffle data
           = Some (response,
                   ScheduleGenerator.student_exam_dates
                     (ScheduleGenerator.final_state cfg shuffle data),
                   ScheduleGenerator.course_dates
                     (ScheduleGenerator.final_state cfg shuffle data))).
Proof.
  split; [|split; [|split;
                     [|exact (generate_schedule_locally_returns cfg)]]].
  - intros sc course dates st st' Hres.
    destruct (try_dates_cases cfg sc course dates st)
      as (ds & ks & _ & Hs & [Hfail|(d & Hin & Hok & _ & Hg)]).
    + rewrite Hfail in Hres. discriminate.
    + rewrite Hok in Hres. injection Hres as <-.
      exists d. split; [assumption|]. split; [|split; [assumption|]].
      * rewrite commit_course_dates.
        apply (dict_get_set_same _ string_eqb_eq).
      * intros s Hs'.
        rewrite commit_student_exam_dates, record_students_dates.
        apply in_app_iff. right.
        apply (count_occ_In string_dec) in Hs'.
        destruct (count_occ string_dec
                    (ScheduleGenerator.course_students_taking_this course sc)
                    s); [lia|now left].
  - intros sc course dates st st' Hreach Hres.
    destruct (daily_ties cfg sc st Hreach) as [Hcover _].
    destruct (try_dates_cases cfg sc course dates st)
      as (ds & ks & _ & _ & [Hfail|(d & _ & Hok & _ & Hg)]).
    + rewrite Hfail in Hres. discriminate.
    + rewrite Hok in Hres. injection Hres as <-.
      exists d. split.
      * rewrite commit_course_dates.
        apply (dict_get_set_same _ string_eqb_eq).
      * intros s other d' Ht Ho _ Hd'.
        apply taking_iff_takes in Ht. specialize (Hg s Ht).
        rewrite Forall_forall in Hg. apply Hg.
        now apply (Hcover other d' s).
  - intros shuffle data response sed cd Hgen.
    destruct (generate_schedule_locally_Some cfg shuffle data _ _ _ Hgen)
      as (_ & -> & -> & _).
    pose proof (final_state_daily cfg shuffle data) as Hreach.
    assert (Hok : Spec.calendars_ok
                    (ScheduleGenerator.MIN_DAYS_BETWEEN_EXAMS cfg)
                    (ScheduleGenerator.student_exam_dates
                       (ScheduleGenerator.final_state cfg shuffle data))).
    { apply (daily_invariants cfg
               (ScheduleGenerator.student_courses_of
                  (ScheduleGenerator.students_full_details data)));
        [apply student_courses_of_NoDup|exact Hreach]. }
    destruct (daily_ties cfg _ _ Hreach) as [Hcover Hapart].
    split; [exact Hok|]. split; [exact Hcover|]. split; [exact Hapart|].
    now apply check_final_schedule_conflicts_none.
Qed.

Lemma C1_verifier_witness :
  Spec.exams_apart 2
    (ScheduleGenerator.student_courses_of Examples.students_ab)
    [("A", 739397); ("B", 739399); ("C", 739397)]%string
  /\ ScheduleGenerator.check_final_schedule_conflicts Examples.cfg_gap2
       [("s1", [739397; 739399]); ("s2", [739397])]%string
       [("A", 739397); ("B", 739399); ("C", 739397)]%string
       (ScheduleGenerator.student_courses_of Examples.students_ab) = [].
Proof.
  destruct (proj1 (proj2 (proj2
                            (C1_greedy_schedule_passes_verifier
                               Examples.cfg_gap2)))
              Examples.keep_order Examples.data_abc
              (ScheduleGenerator.response_of ["A"; "B"; "C"]%string
                 (ScheduleGenerator.student_courses_of Examples.students_ab)
                 (ScheduleGenerator.final_state Examples.cfg_gap2
                    Examples.keep_order Examples.data_abc))
              [("s1", [739397; 739399]); ("s2", [739397])]%string
              [("A", 739397); ("B", 739399); ("C", 739397)]%string)
    as (_ & _ & Hapart & Hcheck).
  - vm_compute. reflexivity.
  - split; [exact Hapart|exact Hcheck].
Defined.
